(** * Fly_climbing: the multi-tube detector and the multi-frame consensus engine

    A shallow embedding of [video_player/multi_tube_detector.py]
    (class [MultiTubeFlyDetector]), of the frame source
    [video_player/player.py] (class [VideoPlayer]) and of the analysis
    methods of [video_player/multi_tube_ui.py] (class [MultiTubeUI]):
    [get_top_3_sharpest_frames], [merge_detection_results],
    [on_fly_selected] and [undo_last_selection].

    Conventions of the embedding.
    - Python [int] is [Z]; Python [float] values (contour areas, image
      moments, sharpness scores, average heights) are rationals [Q]: every
      finite float is a rational and the comparisons used by the program
      ([<], [<=], [!=], sorting) agree with the rational ones. The
      quotient [a / b] of two integers is the double nearest to the exact
      quotient, as Python computes it ([py_truediv]).
    - Python lists are [list]s, indexed the Python way ([py_get], [py_set]):
      negative indices count from the end, anything else out of range
      raises [IndexError].
    - A method that may raise returns in the exception monad [M]; the
      receiver object is passed in and the updated object is returned.
      What a method had already written when it raises is not kept.
    - OpenCV is outside the program: the pipeline from the crop of the two
      images to [cv2.findContours], the shape of an image and the variance
      of its Laplacian are parameters of the definitions that call them. *)

From Stdlib Require Import ZArith QArith String List Lia Sorted Permutation.
From Stdlib Require Import DecimalString.
From stdpp Require Import base list strings sorting.

Open Scope Z_scope.

(** ** Python values and exceptions *)

Inductive exn : Type :=
| IndexError
| TypeError
| ValueError
| ZeroDivisionError
| OverflowError
| CvError.

Inductive M (A : Type) : Type :=
| Ok (a : A)
| Raise (e : exn).

Arguments Ok {A} a.
Arguments Raise {A} e.

Definition bind {A B : Type} (m : M A) (k : A -> M B) : M B :=
  match m with
  | Ok a => k a
  | Raise e => Raise e
  end.

Notation "'do' x <- m ; k" := (bind m (fun x => k))
  (at level 10, x name, m at level 100, k at level 200).
Notation "'do' ' pat <- m ; k" := (bind m (fun x => match x with pat => k end))
  (at level 10, pat pattern, m at level 100, k at level 200).

(** [for x in l: s = body(s, x)] *)
Fixpoint foldM {S A : Type} (body : S -> A -> M S) (s : S) (l : list A) : M S :=
  match l with
  | [] => Ok s
  | x :: l' => do s' <- body s x; foldM body s' l'
  end.

(** [range(a, b)] and [range(n)] *)
Definition py_range2 (a b : Z) : list Z :=
  map (fun k => a + Z.of_nat k) (seq 0 (Z.to_nat (b - a))).

Definition py_range (n : Z) : list Z := py_range2 0 n.

(** [[v] * n] *)
Definition py_repeat {A : Type} (v : A) (n : Z) : list A := replicate (Z.to_nat n) v.

(** The position a Python index denotes in a list, if any. *)
Definition py_index {A : Type} (l : list A) (i : Z) : option nat :=
  let n := Z.of_nat (length l) in
  if (0 <=? i) && (i <? n) then Some (Z.to_nat i)
  else if (- n <=? i) && (i <? 0) then Some (Z.to_nat (n + i))
  else None.

(** [l[i]] *)
Definition py_get {A : Type} (l : list A) (i : Z) : M A :=
  match py_index l i with
  | Some k => match l !! k with Some a => Ok a | None => Raise IndexError end
  | None => Raise IndexError
  end.

(** [l[i] = a] *)
Definition py_set {A : Type} (l : list A) (i : Z) (a : A) : M (list A) :=
  match py_index l i with
  | Some k => Ok (<[k:=a]> l)
  | None => Raise IndexError
  end.

(** [int(q)]: truncation toward zero. *)
Definition py_int (q : Q) : Z := Z.quot (Qnum q) (Zpos (Qden q)).

(** [max(l)], which raises on the empty list. *)
Definition py_max (l : list Z) : M Z :=
  match l with
  | [] => Raise ValueError
  | h0 :: rest => Ok (fold_left Z.max rest h0)
  end.

(** [sum(l)] *)
Definition py_sum (l : list Z) : Z := fold_left Z.add l 0.

(** The integer nearest to [n / d], for [0 <= n] and [0 < d]; the even one
    of the two nearest when [n / d] lies half way between them. *)
Definition round_half_even (n d : Z) : Z :=
  let q := n / d in
  let r := n mod d in
  if 2 * r <? d then q
  else if d <? 2 * r then q + 1
  else if Z.even q then q else q + 1.

(** [n / (d * 2 ^ e)] as a fraction of integers. *)
Definition scale (n d e : Z) : Z * Z :=
  if 0 <=? e then (n, d * 2 ^ e) else (n * 2 ^ (- e), d).

(** The exponent of the last bit of the double nearest to [n / d], for
    [0 < n] and [0 < d]: the [e] with [2 ^ 52 <= n / (d * 2 ^ e) < 2 ^ 53],
    and [-1074], the exponent of the subnormal doubles, when that is
    greater. *)
Definition double_exponent (n d : Z) : Z :=
  let e := Z.log2 n - Z.log2 d - 53 in
  let '(n', d') := scale n d e in
  let e := if n' / d' <? 2 ^ 53 then e else e + 1 in
  Z.max e (-1074).

(** [a / b] on two Python integers, true division. It is correctly
    rounded: the result is the double nearest to the exact quotient, the
    one with an even significand when two are as near, and the division
    raises [OverflowError] when that is beyond the greatest double and
    [ZeroDivisionError] when [b] is zero. *)
Definition py_truediv (a b : Z) : M Q :=
  if b =? 0 then Raise ZeroDivisionError
  else if a =? 0 then Ok 0%Q
  else
    let e := double_exponent (Z.abs a) (Z.abs b) in
    let '(n, d) := scale (Z.abs a) (Z.abs b) e in
    let m := Z.sgn a * Z.sgn b * round_half_even n d in
    if 0 <=? e then
      if 2 ^ 1024 <=? Z.abs m * 2 ^ e then Raise OverflowError
      else Ok (inject_Z (m * 2 ^ e))
    else Ok (Qred (m # Z.to_pos (2 ^ (- e)))).

Arguments py_truediv : simpl never.

(** [sum(l) / len(l)], true division. *)
Definition py_mean (l : list Z) : M Q :=
  py_truediv (py_sum l) (Z.of_nat (length l)).

Arguments py_mean : simpl never.

(** [l.sort(key=key, reverse=True)]: Python's sort is stable, and stays so
    under [reverse=True] (elements with equal keys keep their order). It is
    modelled by the stable insertion sort by descending key. *)
Fixpoint insert_desc {A : Type} (key : A -> Q) (x : A) (l : list A) : list A :=
  match l with
  | [] => [x]
  | y :: l' => if Qle_bool (key y) (key x) then x :: y :: l'
               else y :: insert_desc key x l'
  end.

Definition py_sort_desc {A : Type} (key : A -> Q) (l : list A) : list A :=
  fold_right (insert_desc key) [] l.

(** ** Data of the detector *)

(** A tube region [(x, y, width, height)]. *)
Definition region : Type := Z * Z * Z * Z.

(** A detected or selected fly [(x, y, height)], in frame coordinates. *)
Definition fly : Type := Z * Z * Z.

Definition fly_height (f : fly) : Z := snd f.

(** What the program reads of an OpenCV contour: [cv2.contourArea] and the
    moments [m00], [m10], [m01] of [cv2.moments]. *)
Record contour : Type := mkContour {
  area : Q;
  m00 : Q;
  m10 : Q;
  m01 : Q
}.

(** [f"管子{i+1}"] *)
Definition default_name (i : Z) : string :=
  ("管子" ++ NilZero.string_of_int (Z.to_int (i + 1)))%string.

(** An entry of [compare_genotypes]. *)
Record genotype_entry : Type := mkEntry {
  gd_name : string;
  gd_index : Z;
  gd_max_height : Z;
  gd_avg_height : Q;
  gd_current_height : Z
}.

Section Detector.

Context {image : Type}.

(** The attributes of a [MultiTubeFlyDetector]. [detection_results] is the
    attribute the user interface attaches to the detector; [None] is its
    absence ([hasattr] is false). *)
Record MultiTubeFlyDetector : Type := mkDetector {
  tube_count : Z;
  tube_regions : list (option region);
  genotype_names : list string;
  background_frame : option image;
  threshold : Z;
  min_area : Z;
  max_area : Z;
  fly_positions : list (option (Z * Z));
  climbing_heights : list Z;
  max_heights : list Z;
  avg_heights : list Q;
  detection_history : list (list Z);
  detection_results : option (list (option (list fly)))
}.

Definition with_tube_regions (st : MultiTubeFlyDetector) (v : list (option region)) :=
  mkDetector (tube_count st) v (genotype_names st) (background_frame st)
    (threshold st) (min_area st) (max_area st) (fly_positions st)
    (climbing_heights st) (max_heights st) (avg_heights st)
    (detection_history st) (detection_results st).

Definition with_genotype_names (st : MultiTubeFlyDetector) (v : list string) :=
  mkDetector (tube_count st) (tube_regions st) v (background_frame st)
    (threshold st) (min_area st) (max_area st) (fly_positions st)
    (climbing_heights st) (max_heights st) (avg_heights st)
    (detection_history st) (detection_results st).

Definition with_background_frame (st : MultiTubeFlyDetector) (v : option image) :=
  mkDetector (tube_count st) (tube_regions st) (genotype_names st) v
    (threshold st) (min_area st) (max_area st) (fly_positions st)
    (climbing_heights st) (max_heights st) (avg_heights st)
    (detection_history st) (detection_results st).

Definition with_fly_positions (st : MultiTubeFlyDetector) (v : list (option (Z * Z))) :=
  mkDetector (tube_count st) (tube_regions st) (genotype_names st) (background_frame st)
    (threshold st) (min_area st) (max_area st) v
    (climbing_heights st) (max_heights st) (avg_heights st)
    (detection_history st) (detection_results st).

Definition with_climbing_heights (st : MultiTubeFlyDetector) (v : list Z) :=
  mkDetector (tube_count st) (tube_regions st) (genotype_names st) (background_frame st)
    (threshold st) (min_area st) (max_area st) (fly_positions st)
    v (max_heights st) (avg_heights st)
    (detection_history st) (detection_results st).

Definition with_max_heights (st : MultiTubeFlyDetector) (v : list Z) :=
  mkDetector (tube_count st) (tube_regions st) (genotype_names st) (background_frame st)
    (threshold st) (min_area st) (max_area st) (fly_positions st)
    (climbing_heights st) v (avg_heights st)
    (detection_history st) (detection_results st).

Definition with_avg_heights (st : MultiTubeFlyDetector) (v : list Q) :=
  mkDetector (tube_count st) (tube_regions st) (genotype_names st) (background_frame st)
    (threshold st) (min_area st) (max_area st) (fly_positions st)
    (climbing_heights st) (max_heights st) v
    (detection_history st) (detection_results st).

Definition with_detection_history (st : MultiTubeFlyDetector) (v : list (list Z)) :=
  mkDetector (tube_count st) (tube_regions st) (genotype_names st) (background_frame st)
    (threshold st) (min_area st) (max_area st) (fly_positions st)
    (climbing_heights st) (max_heights st) (avg_heights st)
    v (detection_results st).

Definition with_detection_results (st : MultiTubeFlyDetector)
    (v : option (list (option (list fly)))) :=
  mkDetector (tube_count st) (tube_regions st) (genotype_names st) (background_frame st)
    (threshold st) (min_area st) (max_area st) (fly_positions st)
    (climbing_heights st) (max_heights st) (avg_heights st)
    (detection_history st) v.

(** ** [MultiTubeFlyDetector]: configuration *)

(** [__init__(self, tube_count=5)] *)
Definition init (n : Z) : MultiTubeFlyDetector :=
  mkDetector n (py_repeat None n) (map default_name (py_range n)) None
    15 40 500
    (py_repeat None n) (py_repeat 0 n) (py_repeat 0 n) (py_repeat 0%Q n)
    (py_repeat [] n) None.

(** [set_tube_count(self, tube_count)] *)
Definition set_tube_count (st : MultiTubeFlyDetector) (n : Z) : M MultiTubeFlyDetector :=
  Ok (mkDetector n (py_repeat None n) (map default_name (py_range n))
        (background_frame st) (threshold st) (min_area st) (max_area st)
        (py_repeat None n) (py_repeat 0 n) (py_repeat 0 n) (py_repeat 0%Q n)
        (py_repeat [] n) (detection_results st)).

(** [set_tube_region(self, tube_index, region)] *)
Definition set_tube_region (st : MultiTubeFlyDetector) (tube_index : Z)
    (r : option region) : M MultiTubeFlyDetector :=
  if (0 <=? tube_index) && (tube_index <? tube_count st) then
    do regions <- py_set (tube_regions st) tube_index r;
    Ok (with_tube_regions st regions)
  else Ok st.

(** [set_genotype_name(self, tube_index, name)] *)
Definition set_genotype_name (st : MultiTubeFlyDetector) (tube_index : Z)
    (name : string) : M MultiTubeFlyDetector :=
  if (0 <=? tube_index) && (tube_index <? tube_count st) then
    do names <- py_set (genotype_names st) tube_index name;
    Ok (with_genotype_names st names)
  else Ok st.

(** [set_background(self, background_frame)] *)
Definition set_background (st : MultiTubeFlyDetector) (bg : option image) :
    M MultiTubeFlyDetector :=
  Ok (with_background_frame st bg).

(** [get_max_height(self, tube_index)] *)
Definition get_max_height (st : MultiTubeFlyDetector) (tube_index : Z) : M Z :=
  if (0 <=? tube_index) && (tube_index <? tube_count st) then
    py_get (max_heights st) tube_index
  else Ok 0.

(** [get_avg_height(self, tube_index)] *)
Definition get_avg_height (st : MultiTubeFlyDetector) (tube_index : Z) : M Q :=
  if (0 <=? tube_index) && (tube_index <? tube_count st) then
    py_get (avg_heights st) tube_index
  else Ok 0%Q.

(** [get_current_height(self, tube_index)] *)
Definition get_current_height (st : MultiTubeFlyDetector) (tube_index : Z) : M Z :=
  if (0 <=? tube_index) && (tube_index <? tube_count st) then
    py_get (climbing_heights st) tube_index
  else Ok 0.

(** [get_tube_height(self, tube_index)] *)
Definition get_tube_height (st : MultiTubeFlyDetector) (tube_index : Z) : M Z :=
  if (0 <=? tube_index) && (tube_index <? tube_count st) then
    do r <- py_get (tube_regions st) tube_index;
    match r with
    | Some (_, _, _, h) => Ok h
    | None => Ok 0
    end
  else Ok 0.

(** [reset_data(self)] *)
Definition reset_data (st : MultiTubeFlyDetector) : M MultiTubeFlyDetector :=
  let n := tube_count st in
  Ok (mkDetector n (tube_regions st) (genotype_names st)
        (background_frame st) (threshold st) (min_area st) (max_area st)
        (py_repeat None n) (py_repeat 0 n) (py_repeat 0 n) (py_repeat 0%Q n)
        (py_repeat [] n)
        (match detection_results st with
         | Some _ => Some (py_repeat None n)
         | None => None
         end)).

End Detector.

Arguments MultiTubeFlyDetector image : clear implicits.

(** ** [MultiTubeFlyDetector]: detection *)

Section Detection.

Context {image : Type}.

(** The OpenCV pipeline of one tube: crop the frame and the background to
    the region, [cv2.absdiff], [cv2.cvtColor], [cv2.threshold] at the given
    threshold, morphological opening and closing with a 3x3 kernel,
    [cv2.findContours]. It raises when OpenCV rejects its arguments. *)
Variable find_contours : image -> image -> region -> Z -> M (list contour).

(** [frame.shape[:2]], that is [(height, width)]. *)
Variable shape : image -> Z * Z.

Abbreviation Detector := (MultiTubeFlyDetector image).

(** [self.min_area <= area <= self.max_area] *)
Definition valid_area (st : Detector) (c : contour) : bool :=
  Qle_bool (inject_Z (min_area st)) (area c) && Qle_bool (area c) (inject_Z (max_area st)).

(** The first loop of [detect_all_tubes]:
    [for i in range(self.tube_count): self.detection_history[i] = []]. *)
Definition clear_history (st : Detector) (i : Z) : M Detector :=
  do history <- py_set (detection_history st) i [];
  Ok (with_detection_history st history).

(** The loop over the valid contours of tube [i], whose region has origin
    [(x, y)] and height [h]: each contour with a non-zero [m00] gives a
    fly, appended to [tube_fly_results], and its height is appended to
    [self.detection_history[i]]. *)
Fixpoint record_flies (i x y h : Z) (valid_contours : list contour)
    (st : Detector) (tube_fly_results : list fly) : M (Detector * list fly) :=
  match valid_contours with
  | [] => Ok (st, tube_fly_results)
  | c :: rest =>
      if Qeq_bool (m00 c) 0 then record_flies i x y h rest st tube_fly_results
      else
        let cx := py_int (m10 c / m00 c) in
        let cy := py_int (m01 c / m00 c) in
        let global_x := x + cx in
        let global_y := y + cy in
        let height := h - cy in
        do old <- py_get (detection_history st) i;
        do history <- py_set (detection_history st) i (old ++ [height]);
        record_flies i x y h rest (with_detection_history st history)
          (tube_fly_results ++ [(global_x, global_y, height)])
  end.

(** The update of the results of tube [i] that ends its detection. *)
Definition update_results (i : Z) (st : Detector) (tube_fly_results : list fly) :
    M Detector :=
  match tube_fly_results with
  | (x0, y0, _) :: _ =>
      do positions <- py_set (fly_positions st) i (Some (x0, y0));
      let st := with_fly_positions st positions in
      let heights := map fly_height tube_fly_results in
      do current <- py_max heights;
      do climbing <- py_set (climbing_heights st) i current;
      let st := with_climbing_heights st climbing in
      do max_height <- py_max heights;
      do old_max <- py_get (max_heights st) i;
      do st <- (if old_max <? max_height
                then do maxima <- py_set (max_heights st) i max_height;
                     Ok (with_max_heights st maxima)
                else Ok st);
      do history <- py_get (detection_history st) i;
      match history with
      | [] => Ok st
      | _ :: _ =>
          do average <- py_mean history;
          do averages <- py_set (avg_heights st) i average;
          Ok (with_avg_heights st averages)
      end
  | [] =>
      do positions <- py_set (fly_positions st) i None;
      let st := with_fly_positions st positions in
      do climbing <- py_set (climbing_heights st) i 0;
      Ok (with_climbing_heights st climbing)
  end.

(** The body of the second loop of [detect_all_tubes], for tube [i]. With
    a region set, [self.background_frame[y:y+h, x:x+w]] is evaluated before
    any OpenCV call: on [None] it raises [TypeError]. *)
Definition detect_tube (frame : image) (acc : Detector * list (list fly)) (i : Z) :
    M (Detector * list (list fly)) :=
  let '(st, results) := acc in
  do r <- py_get (tube_regions st) i;
  match r with
  | Some (x, y, w, h) =>
      do bg <- (match background_frame st with
                | Some bg => Ok bg
                | None => Raise TypeError
                end);
      do contours <- find_contours frame bg (x, y, w, h) (threshold st);
      let valid_contours := List.filter (valid_area st) contours in
      do '(st, tube_fly_results) <- record_flies i x y h valid_contours st [];
      do st <- update_results i st tube_fly_results;
      Ok (st, results ++ [tube_fly_results])
  | None => Ok (st, results ++ [[]])
  end.

(** [detect_all_tubes(self, frame)] *)
Definition detect_all_tubes (st : Detector) (frame : image) :
    M (Detector * list (list fly)) :=
  do st <- foldM clear_history st (py_range (tube_count st));
  foldM (detect_tube frame) (st, []) (py_range (tube_count st)).

(** [_detect_fly_in_tube(self, frame, tube_index)]; the two lists
    [fly_positions] and [fly_heights] of the source are the components of
    the one list [record_flies] builds. *)
Definition _detect_fly_in_tube (st : Detector) (frame : image) (tube_index : Z) :
    M (Detector * bool) :=
  do r <- py_get (tube_regions st) tube_index;
  match r, background_frame st with
  | None, _ => Ok (st, false)
  | Some _, None => Ok (st, false)
  | Some (x, y, w, h), Some bg =>
      do contours <- find_contours frame bg (x, y, w, h) (threshold st);
      let valid_contours := List.filter (valid_area st) contours in
      do '(st, flies) <- record_flies tube_index x y h valid_contours st [];
      do st <- update_results tube_index st flies;
      Ok (st, match flies with [] => false | _ :: _ => true end)
  end.

(** The body of the loop of [compare_genotypes]; [and] does not evaluate
    [self.detection_history[i]] when the region is unset. *)
Definition compare_step (st : Detector) (genotype_data : list genotype_entry) (i : Z) :
    M (list genotype_entry) :=
  do r <- py_get (tube_regions st) i;
  match r with
  | None => Ok genotype_data
  | Some _ =>
      do history <- py_get (detection_history st) i;
      match history with
      | [] => Ok genotype_data
      | _ :: _ =>
          do name <- py_get (genotype_names st) i;
          do max_height <- py_get (max_heights st) i;
          do avg_height <- py_get (avg_heights st) i;
          do current_height <- py_get (climbing_heights st) i;
          Ok (genotype_data ++ [mkEntry name i max_height avg_height current_height])
      end
  end.

(** [compare_genotypes(self)] *)
Definition compare_genotypes (st : Detector) : M (list genotype_entry) :=
  do genotype_data <- foldM (compare_step st) [] (py_range (tube_count st));
  Ok (py_sort_desc gd_avg_height genotype_data).

(** [auto_detect_tubes(self, frame, roi_region=None, tube_count=None)];
    [//] is the floor division, which raises on a zero divisor. *)
Definition auto_detect_tubes (st : Detector) (frame : image)
    (roi_region : option region) (tube_count' : option Z) :
    M (Detector * list region) :=
  do st <- (match tube_count' with
            | Some n => set_tube_count st n
            | None => Ok st
            end);
  let '(roi_x, roi_y, roi_w, roi_h) :=
    match roi_region with
    | None => let '(height, width) := shape frame in (0, 0, width, height)
    | Some roi => roi
    end in
  do tube_width <- (if tube_count st =? 0 then Raise ZeroDivisionError
                    else Ok (roi_w / tube_count st));
  let regions :=
    map (fun i => (roi_x + i * tube_width, roi_y, tube_width, roi_h))
        (py_range (tube_count st)) in
  Ok (with_tube_regions st (map Some regions), regions).

End Detection.

(** ** [VideoPlayer]: the frame source *)

Section Player.

Context {image : Type}.

(** The attributes of a [VideoPlayer] the analysis reads and writes. An
    opened [cv2.VideoCapture] is the function that gives, for a frame
    number, the frame a [read] positioned there returns, if it returns
    one. *)
Record VideoPlayer : Type := mkPlayer {
  video_capture : option (Z -> option image);
  total_frames : Z;
  current_frame : Z;
  current_frame_image : option image
}.

(** [seek_frame(self, frame_number)] *)
Definition seek_frame (vp : VideoPlayer) (frame_number : Z) : VideoPlayer * bool :=
  match video_capture vp with
  | None => (vp, false)
  | Some capture =>
      if (frame_number <? 0) || (total_frames vp <=? frame_number) then (vp, false)
      else
        match capture frame_number with
        | Some frame =>
            (mkPlayer (video_capture vp) (total_frames vp) frame_number (Some frame), true)
        | None =>
            (mkPlayer (video_capture vp) (total_frames vp) frame_number
               (current_frame_image vp), false)
        end
  end.

(** [get_current_frame(self)] *)
Definition get_current_frame (vp : VideoPlayer) : option image := current_frame_image vp.

(** [get_total_frames(self)] *)
Definition get_total_frames (vp : VideoPlayer) : Z := total_frames vp.

End Player.

Arguments VideoPlayer image : clear implicits.

(** ** [MultiTubeUI]: frame ranking, merging and manual correction *)

(** An entry of [frame_scores] in [get_top_3_sharpest_frames]. *)
Record frame_score (image : Type) : Type := mkScore {
  fs_frame : image;
  fs_frame_number : Z;
  fs_sharpness_score : Q
}.

Arguments mkScore {image} _ _ _.
Arguments fs_frame {image} _.
Arguments fs_frame_number {image} _.
Arguments fs_sharpness_score {image} _.

(** A value of the dictionary [fly_positions] in [merge_detection_results]. *)
Record fly_info : Type := mkInfo {
  fi_x : Z;
  fi_y : Z;
  fi_height : Z;
  fi_frame_idx : Z;
  fi_frame_number : Z;
  fi_sharpness : Q
}.

(** An entry of [manual_selection_history]:
    [(tube_index, fly_x, fly_y, fly_height)]. *)
Definition selection : Type := Z * Z * Z * Z.

(** What [undo_last_selection] tells the user. *)
Inductive undo_status : Type :=
| NothingToUndo
| Undone.

Section UI.

Context {image : Type}.

(** [cv2.Laplacian(gray, cv2.CV_64F).var()] of the grayscale image. *)
Variable sharpness : image -> Q.

(** The attributes of a [MultiTubeUI] the analysis reads and writes; the
    widgets, the status bar and the message boxes are left out. *)
Record MultiTubeUI : Type := mkUI {
  detector : MultiTubeFlyDetector image;
  video_player : VideoPlayer image;
  end_frame : Z;
  manual_selecting : bool;
  manual_selection_history : list selection
}.

Definition with_detector (ui : MultiTubeUI) (d : MultiTubeFlyDetector image) :=
  mkUI d (video_player ui) (end_frame ui) (manual_selecting ui)
    (manual_selection_history ui).

Definition with_video_player (ui : MultiTubeUI) (vp : VideoPlayer image) :=
  mkUI (detector ui) vp (end_frame ui) (manual_selecting ui)
    (manual_selection_history ui).

Definition with_manual_selection_history (ui : MultiTubeUI) (h : list selection) :=
  mkUI (detector ui) (video_player ui) (end_frame ui) (manual_selecting ui) h.

(** The body of the scan loop of [get_top_3_sharpest_frames]: seek, take
    the player's current image, skip the frame when there is none. *)
Definition scan_frame (acc : VideoPlayer image * list (frame_score image))
    (frame_num : Z) : VideoPlayer image * list (frame_score image) :=
  let '(vp, frame_scores) := acc in
  let vp := fst (seek_frame vp frame_num) in
  match get_current_frame vp with
  | None => (vp, frame_scores)
  | Some frame => (vp, frame_scores ++ [mkScore frame frame_num (sharpness frame)])
  end.

(** [next((item for item in frame_scores if item['frame_number'] == n), None)] *)
Definition find_frame (frame_scores : list (frame_score image)) (n : Z) :
    option (frame_score image) :=
  List.find (fun item => fs_frame_number item =? n) frame_scores.

(** The three frame numbers chosen around the sharpest frame of the window
    [start_frame .. end_frame]. *)
Definition choose_frame_numbers (start_frame end_frame' sharpest_frame_num : Z) : list Z :=
  let prev_frame := Z.max start_frame (sharpest_frame_num - 1) in
  let next_frame := Z.min end_frame' (sharpest_frame_num + 1) in
  if prev_frame =? sharpest_frame_num then
    [sharpest_frame_num; next_frame; Z.min end_frame' (next_frame + 1)]
  else if next_frame =? sharpest_frame_num then
    [Z.max start_frame (prev_frame - 1); prev_frame; sharpest_frame_num]
  else [prev_frame; sharpest_frame_num; next_frame].

(** The window of [get_top_3_sharpest_frames] and its scan. *)
Definition window_start (ui : MultiTubeUI) : Z := Z.max 0 (end_frame ui - 10).

Definition window_end (ui : MultiTubeUI) : Z :=
  Z.min (get_total_frames (video_player ui) - 1) (end_frame ui + 10).

Definition scan_window (ui : MultiTubeUI) : VideoPlayer image * list (frame_score image) :=
  fold_left scan_frame (py_range2 (window_start ui) (window_end ui + 1))
    (video_player ui, []).

(** [get_top_3_sharpest_frames(self)]; it returns
    [(best_frames, best_frame_numbers, sharpness_scores)]. *)
Definition get_top_3_sharpest_frames (ui : MultiTubeUI) :
    M (MultiTubeUI * (list image * list Z * list Q)) :=
  let start_frame := window_start ui in
  let end_frame' := window_end ui in
  let '(vp, frame_scores) := scan_window ui in
  let frame_scores := py_sort_desc fs_sharpness_score frame_scores in
  do sharpest_frame <- py_get frame_scores 0;
  let sharpest_frame_num := fs_frame_number sharpest_frame in
  let frame_numbers := choose_frame_numbers start_frame end_frame' sharpest_frame_num in
  let chosen := omap (find_frame frame_scores) frame_numbers in
  let vp := fst (seek_frame vp sharpest_frame_num) in
  Ok (with_video_player ui vp,
      (map fs_frame chosen, map fs_frame_number chosen, map fs_sharpness_score chosen)).

(** [on_fly_selected(self, tube_index, image_pos)]: the manual addition of
    a fly at [image_pos = (fly_x, fly_y)]. *)
Definition on_fly_selected (ui : MultiTubeUI) (tube_index : Z) (image_pos : Z * Z) :
    M MultiTubeUI :=
  if negb (manual_selecting ui) then Ok ui
  else
    let '(fly_x, fly_y) := image_pos in
    do tube_region <- py_get (tube_regions (detector ui)) tube_index;
    match tube_region with
    | None => Ok ui
    | Some (x, y, w, h) =>
        let fly_height := y + h - fly_y in
        let fly_height :=
          if fly_height <? 0 then 0
          else if h <? fly_height then h
          else fly_height in
        let results :=
          match detection_results (detector ui) with
          | Some results => results
          | None => py_repeat None (tube_count (detector ui))
          end in
        do entry <- py_get results tube_index;
        do results <- (match entry with
                       | None => py_set results tube_index (Some [])
                       | Some _ => Ok results
                       end);
        do entry <- py_get results tube_index;
        do results <- (match entry with
                       | Some flies =>
                           py_set results tube_index (Some (flies ++ [(fly_x, fly_y, fly_height)]))
                       | None => Raise TypeError
                       end);
        let history :=
          manual_selection_history ui ++ [(tube_index, fly_x, fly_y, fly_height)] in
        Ok (with_manual_selection_history
              (with_detector ui (with_detection_results (detector ui) (Some results)))
              history)
    end.

(** [abs(fx - fly_x) < 5 and abs(fh - fly_height) < 3] *)
Definition matches_selection (fly_x fly_height : Z) (f : fly) : bool :=
  let '(fx, fy, fh) := f in
  (Z.abs (fx - fly_x) <? 5) && (Z.abs (fh - fly_height) <? 3).

(** The search loop of [undo_last_selection]: [flies.pop(i)] at the first
    matching fly, then [break]. *)
Fixpoint pop_first_match (fly_x fly_height : Z) (flies : list fly) : list fly :=
  match flies with
  | [] => []
  | f :: rest =>
      if matches_selection fly_x fly_height f then rest
      else f :: pop_first_match fly_x fly_height rest
  end.

(** [undo_last_selection(self)] *)
Definition undo_last_selection (ui : MultiTubeUI) : M (MultiTubeUI * undo_status) :=
  match rev (manual_selection_history ui) with
  | [] => Ok (ui, NothingToUndo)
  | (tube_index, fly_x, fly_y, fly_height) :: earlier =>
      let ui := with_manual_selection_history ui (rev earlier) in
      match detection_results (detector ui) with
      | None => Ok (ui, Undone)
      | Some results =>
          do entry <- py_get results tube_index;
          match entry with
          | None => Ok (ui, Undone)
          | Some flies =>
              do results <- py_set results tube_index
                              (Some (pop_first_match fly_x fly_height flies));
              Ok (with_detector ui (with_detection_results (detector ui) (Some results)),
                  Undone)
          end
      end
  end.

End UI.

Arguments MultiTubeUI image : clear implicits.

(** ** [merge_detection_results]: the cross-frame merge *)

(** [((fly_x - existing_x) ** 2 + (fly_y - existing_y) ** 2) ** 0.5 < 10].
    On integers the square root of a sum of squares is below 10 exactly
    when the sum is below 100. *)
Definition is_near (pos_key : Z * Z) (fly_x fly_y : Z) : bool :=
  let '(existing_x, existing_y) := pos_key in
  (fly_x - existing_x) ^ 2 + (fly_y - existing_y) ^ 2 <? 100.

(** The dictionary value built for a fly of frame [frame_idx]. *)
Definition make_info (frame_numbers : list Z) (sharpness_scores : list Q)
    (frame_idx : Z) (f : fly) : M fly_info :=
  let '(fly_x, fly_y, fly_height) := f in
  do frame_number <- py_get frame_numbers frame_idx;
  do score <- py_get sharpness_scores frame_idx;
  Ok (mkInfo fly_x fly_y fly_height frame_idx frame_number score).

(** The loop over [fly_positions.items()], in insertion order: at the first
    key near the fly it replaces the value when the fly is higher, and
    stops. [None] is [found_similar] staying false. *)
Fixpoint update_similar (new_info : M fly_info) (f : fly)
    (fly_positions : list ((Z * Z) * fly_info)) :
    M (option (list ((Z * Z) * fly_info))) :=
  match fly_positions with
  | [] => Ok None
  | (pos_key, existing_fly) :: rest =>
      let '(fly_x, fly_y, fly_height) := f in
      if is_near pos_key fly_x fly_y then
        if fi_height existing_fly <? fly_height then
          do info <- new_info;
          Ok (Some ((pos_key, info) :: rest))
        else Ok (Some ((pos_key, existing_fly) :: rest))
      else
        do r <- update_similar new_info f rest;
        Ok (option_map (cons (pos_key, existing_fly)) r)
  end.

(** The body of the loop over the flies of one frame. *)
Definition merge_fly (frame_numbers : list Z) (sharpness_scores : list Q)
    (frame_idx : Z) (fly_positions : list ((Z * Z) * fly_info)) (f : fly) :
    M (list ((Z * Z) * fly_info)) :=
  let new_info := make_info frame_numbers sharpness_scores frame_idx f in
  do r <- update_similar new_info f fly_positions;
  match r with
  | Some updated => Ok updated
  | None =>
      do info <- new_info;
      Ok (fly_positions ++ [((fst (fst f), snd (fst f)), info)])
  end.

(** The loop over [enumerate(all_detection_results)] for tube [tube_idx],
    from frame index [frame_idx] on. *)
Fixpoint merge_frames (frame_numbers : list Z) (sharpness_scores : list Q)
    (tube_idx frame_idx : Z) (frames : list (list (option (list fly))))
    (fly_positions : list ((Z * Z) * fly_info)) : M (list ((Z * Z) * fly_info)) :=
  match frames with
  | [] => Ok fly_positions
  | detection_results :: later =>
      do frame_flies <- py_get detection_results tube_idx;
      do fly_positions <-
        (match frame_flies with
         | None => Ok fly_positions
         | Some flies =>
             foldM (merge_fly frame_numbers sharpness_scores frame_idx) fly_positions flies
         end);
      merge_frames frame_numbers sharpness_scores tube_idx (frame_idx + 1) later
        fly_positions
  end.

(** The merged flies of one tube: the dictionary values in insertion
    order, each as [[x, y, height]], or [None] when there is none. *)
Definition merge_tube (frame_numbers : list Z) (sharpness_scores : list Q)
    (all_detection_results : list (list (option (list fly))))
    (merged_results : list (option (list fly))) (tube_idx : Z) :
    M (list (option (list fly))) :=
  do fly_positions <-
    merge_frames frame_numbers sharpness_scores tube_idx 0 all_detection_results [];
  let tube_flies :=
    map (fun item => (fi_x (snd item), fi_y (snd item), fi_height (snd item)))
        fly_positions in
  Ok (merged_results ++ [match tube_flies with [] => None | _ :: _ => Some tube_flies end]).

(** [merge_detection_results(self, all_detection_results, frame_numbers,
    sharpness_scores)] *)
Definition merge_detection_results
    (all_detection_results : list (list (option (list fly))))
    (frame_numbers : list Z) (sharpness_scores : list Q) :
    M (list (option (list fly))) :=
  let tube_count :=
    match all_detection_results with
    | [] => 0
    | first :: _ => Z.of_nat (length first)
    end in
  foldM (merge_tube frame_numbers sharpness_scores all_detection_results) []
    (py_range tube_count).

(** ** Further methods of the detector and of the user interface *)

(** [l[:n]]; a negative [n] counts from the end. *)
Definition py_take {A : Type} (l : list A) (n : Z) : list A :=
  if 0 <=? n then take (Z.to_nat n) l
  else take (Z.to_nat (Z.of_nat (length l) + n)) l.

(** A cell of a CSV row. *)
Inductive cell : Type :=
| CellInt (z : Z)
| CellFloat (q : Q)
| CellStr (s : string).

Section MoreDetector.

Context {image : Type}.
Variable find_contours : image -> image -> region -> Z -> M (list contour).

Abbreviation Detector := (MultiTubeFlyDetector image).

(** [set_tube_regions(self, regions)]; the slice assignment
    [self.tube_regions[:len(regions)] = regions] replaces the first
    [len(regions)] regions. *)
Definition set_tube_regions (st : Detector) (regions : list (option region)) : M Detector :=
  let n := Z.of_nat (length regions) in
  if n =? tube_count st then Ok (with_tube_regions st regions)
  else if n <? tube_count st then
    Ok (with_tube_regions st (regions ++ drop (length regions) (tube_regions st)))
  else Ok (with_tube_regions st (py_take regions (tube_count st))).

(** [get_all_fly_heights(self, tube_index)]; a fly always has its three
    components, so [len(fly_data) >= 3] holds. *)
Definition get_all_fly_heights (st : Detector) (tube_index : Z) : M (list Z) :=
  match detection_results st with
  | Some results =>
      if tube_index <? Z.of_nat (length results) then
        do entry <- py_get results tube_index;
        match entry with
        | Some flies => Ok (map fly_height flies)
        | None => Ok []
        end
      else Ok []
  | None => Ok []
  end.

(** The body of the loop of [get_fly_areas] for tube [i], with the
    background [bg]: the areas of all contours of positive area. *)
Definition areas_of_tube (frame bg : image) (st : Detector) (areas : list Q) (i : Z) :
    M (list Q) :=
  do r <- py_get (tube_regions st) i;
  match r with
  | Some (x, y, w, h) =>
      do contours <- find_contours frame bg (x, y, w, h) (threshold st);
      Ok (areas ++ List.filter (fun a => negb (Qle_bool a 0)) (map area contours))
  | None => Ok areas
  end.

(** [get_fly_areas(self, frame)] *)
Definition get_fly_areas (st : Detector) (frame : image) : M (list Q) :=
  match background_frame st with
  | None => Ok []
  | Some bg => foldM (areas_of_tube frame bg st) [] (py_range (tube_count st))
  end.

(** [max(len(history) for history in self.detection_history) if
    self.detection_history else 0] in [export_detection_data]. *)
Definition max_history_length (st : Detector) : Z :=
  match map (fun history => Z.of_nat (length history)) (detection_history st) with
  | [] => 0
  | n :: rest => fold_left Z.max rest n
  end.

(** The header of the raw CSV file of [export_detection_data]. *)
Definition raw_headers (st : Detector) : list string :=
  ["管子编号"; "基因型名称"; "最大爬行高度"; "平均爬行高度"]%string
  ++ map (fun i => ("检测点" ++ NilZero.string_of_int (Z.to_int (i + 1)))%string)
       (py_range (max_history_length st)).

(** The row of tube [i] in the raw CSV file: number, name, maximum and
    average, then the history, then empty cells up to the header's
    length. *)
Definition raw_row (st : Detector) (headers : list string) (i : Z) : M (list cell) :=
  do name <- py_get (genotype_names st) i;
  do max_height <- py_get (max_heights st) i;
  do avg_height <- py_get (avg_heights st) i;
  let row := [CellInt (i + 1); CellStr name; CellInt max_height; CellFloat avg_height] in
  do row <- (if i <? Z.of_nat (length (detection_history st))
             then do history <- py_get (detection_history st) i;
                  Ok (row ++ map CellInt history)
             else Ok row);
  Ok (row ++ replicate (length headers - length row) (CellStr EmptyString)).

(** The rows [export_detection_data] writes to the raw CSV file, header
    first; the two other files of the method are not modelled. *)
Definition raw_csv_rows (st : Detector) : M (list string * list (list cell)) :=
  let headers := raw_headers st in
  do rows <- foldM (fun rows i => do row <- raw_row st headers i; Ok (rows ++ [row]))
               [] (py_range (tube_count st));
  Ok (headers, rows).

(** The loop of [final_frame_detection] over the chosen frames:
    [detection_results = self.detector.detect_all_tubes(frame)] and
    [all_detection_results.append(detection_results)]. *)
Definition detect_frames (st : Detector) (best_frames : list image) :
    M (Detector * list (list (list fly))) :=
  foldM (fun '(st, all_detection_results) frame =>
           do '(st, detection_results) <- detect_all_tubes find_contours st frame;
           Ok (st, all_detection_results ++ [detection_results]))
    (st, []) best_frames.

End MoreDetector.

Section MorePlayer.

Context {image : Type}.

(** [get_frame_at(self, frame_number)]: the frame a [read] positioned at
    [frame_number] returns; the position of the capture is restored, and
    the player's attributes are not written. *)
Definition get_frame_at (vp : VideoPlayer image) (frame_number : Z) : option image :=
  match video_capture vp with
  | None => None
  | Some capture =>
      if (frame_number <? 0) || (total_frames vp <=? frame_number) then None
      else capture frame_number
  end.

End MorePlayer.

Section MoreUI.

Context {image : Type}.

(** The ordinate at which [annotate_flies] draws a fly in a tube:
    [relative_y = y + h - fly_height]. *)
Definition annotation_y (r : region) (f : fly) : Z :=
  let '(x, y, w, h) := r in
  y + h - fly_height f.

End MoreUI.

(** ** Notions used by the statements *)

(** Every per-tube list of the detector has [tube_count] entries, as after
    [__init__] and after every [set_tube_count]. *)
Definition well_formed {image : Type} (st : MultiTubeFlyDetector image) : Prop :=
  let n := Z.to_nat (tube_count st) in
  length (tube_regions st) = n /\
  length (genotype_names st) = n /\
  length (fly_positions st) = n /\
  length (climbing_heights st) = n /\
  length (max_heights st) = n /\
  length (avg_heights st) = n /\
  length (detection_history st) = n.

(** The pixel [(px, py)] lies in the region: it is in the crop
    [frame[y:y+h, x:x+w]]. *)
Definition in_region (r : region) (px py : Z) : Prop :=
  let '(x, y, w, h) := r in
  x <= px < x + w /\ y <= py < y + h.

(** The [i]-th region of the split of [(rx, ry, rw, rh)] into [n] tubes. *)
Definition split_region (rx ry rw rh n i : Z) : region :=
  (rx + i * (rw / n), ry, rw / n, rh).

(** The current flies of a tube in [detection_results], none when the
    attribute or the entry is missing. *)
Definition current_flies {image : Type} (st : MultiTubeFlyDetector image) (tube_index : Z) :
    list fly :=
  match detection_results st with
  | Some results =>
      match py_get results tube_index with
      | Ok (Some flies) => flies
      | _ => []
      end
  | None => []
  end.

(** The list [on_fly_selected] adds a fly to: [detection_results], or the
    list [[None] * tube_count] it creates when the attribute is missing. *)
Definition results_in_use {image : Type} (st : MultiTubeFlyDetector image) :
    list (option (list fly)) :=
  match detection_results st with
  | Some results => results
  | None => py_repeat None (tube_count st)
  end.

(** The height [on_fly_selected] gives a click at ordinate [fly_y] in a
    region of origin [y] and height [h]. *)
Definition clicked_height (y h fly_y : Z) : Z :=
  let fly_height := y + h - fly_y in
  if fly_height <? 0 then 0
  else if h <? fly_height then h
  else fly_height.

(** Descending by key and, among equal keys, in the order [before]. *)
Definition desc_then {A : Type} (key : A -> Q) (before : A -> A -> Prop) (a b : A) : Prop :=
  (key b < key a)%Q \/ (key a == key b /\ before a b).

(** The order [compare_genotypes] leaves its entries in: by descending
    average, and by ascending tube index among equal averages. *)
Definition genotype_order : genotype_entry -> genotype_entry -> Prop :=
  desc_then gd_avg_height (fun a b => gd_index a < gd_index b).

(** Tube [i] passes the test of [compare_genotypes]: its region is set and
    its history is not empty. *)
Definition listed {image : Type} (st : MultiTubeFlyDetector image) (i : Z) : Prop :=
  (exists r, py_get (tube_regions st) i = Ok (Some r)) /\
  (exists h hs, py_get (detection_history st) i = Ok (h :: hs)).

(** The entry [e] carries the name, index and heights of tube [i]. *)
Definition entry_of {image : Type} (st : MultiTubeFlyDetector image) (i : Z)
    (e : genotype_entry) : Prop :=
  py_get (genotype_names st) i = Ok (gd_name e) /\
  gd_index e = i /\
  py_get (max_heights st) i = Ok (gd_max_height e) /\
  py_get (avg_heights st) i = Ok (gd_avg_height e) /\
  py_get (climbing_heights st) i = Ok (gd_current_height e).

(** The fly a dictionary value of the merge stands for. *)
Definition fly_of_info (info : fly_info) : fly :=
  (fi_x info, fi_y info, fi_height info).

(** The second key is not within 10 pixels of the first. *)
Definition key_far (k1 k2 : Z * Z) : Prop := is_near k1 (fst k2) (snd k2) = false.

(** All the flies the frames list for tube [tube_idx], in frame order and,
    within a frame, in the order of the frame's list. *)
Definition tube_flies (frames : list (list (option (list fly)))) (tube_idx : Z) : list fly :=
  flat_map (fun detection_results =>
              match py_get detection_results tube_idx with
              | Ok (Some flies) => flies
              | _ => []
              end) frames.

(** The merge as the specification words it, on the flies of one tube taken in
    frame order and, within a frame, in the order of their discovery. A
    cluster is its key, the position of the fly that founded it, and its
    representative. *)
Definition cluster : Type := (Z * Z) * fly.

(** The fly joins the first cluster, in the order of creation, whose key
    is at less than 10 pixels: the cluster keeps its key, and as
    representative the higher of its representative and the fly, its
    representative when they are as high. [None] when no key is that
    near. *)
Fixpoint spec_join_cluster (f : fly) (clusters : list cluster) : option (list cluster) :=
  match clusters with
  | [] => None
  | (key, representative) :: rest =>
      if is_near key (fst (fst f)) (snd (fst f)) then
        Some ((key, if fly_height representative <? fly_height f then f
                    else representative) :: rest)
      else option_map (cons (key, representative)) (spec_join_cluster f rest)
  end.

(** A fly that joins no cluster founds a new one, the last. *)
Definition spec_add_fly (clusters : list cluster) (f : fly) : list cluster :=
  match spec_join_cluster f clusters with
  | Some clusters' => clusters'
  | None => clusters ++ [(fst f, f)]
  end.

Definition spec_merge (flies : list fly) : list cluster :=
  fold_left spec_add_fly flies [].

(** The merged entry of a tube: the representatives, or [None] when there
    is no cluster. *)
Definition spec_entry (clusters : list cluster) : option (list fly) :=
  match map snd clusters with
  | [] => None
  | f :: l => Some (f :: l)
  end.

(** The cluster a dictionary item of [merge_detection_results] stands
    for. *)
Definition cluster_of_item (item : (Z * Z) * fly_info) : cluster :=
  (fst item, fly_of_info (snd item)).

(** The dictionary [d] is a merge of the flies [seen]: it has at most as
    many clusters as there are flies and one at least when there is a fly;
    every cluster stands for one of the flies; every fly has a cluster at
    least as high; and the keys are pairwise 10 pixels apart or more. *)
Definition merged_from (seen : list fly) (d : list ((Z * Z) * fly_info)) : Prop :=
  (length d <= length seen)%nat /\
  (seen <> [] -> d <> []) /\
  (forall item, In item d -> In (fly_of_info (snd item)) seen) /\
  (forall f, In f seen -> exists item, In item d /\ fly_height f <= fi_height (snd item)) /\
  StronglySorted key_far (map fst d).

(** Every frame lists at least as many tubes as the first one, and there
    are a frame number and a score for every frame. *)
Definition frames_well_shaped (frames : list (list (option (list fly))))
    (frame_numbers : list Z) (sharpness_scores : list Q) : Prop :=
  (length frames <= length frame_numbers)%nat /\
  (length frames <= length sharpness_scores)%nat /\
  match frames with
  | [] => True
  | first :: _ => Forall (fun fr => (length first <= length fr)%nat) frames
  end.

(** The position, the heights and the history of the tube at position
    [k] are the same in both detectors. *)
Definition same_tube {image : Type} (k : nat) (st st' : MultiTubeFlyDetector image) : Prop :=
  fly_positions st' !! k = fly_positions st !! k /\
  climbing_heights st' !! k = climbing_heights st !! k /\
  max_heights st' !! k = max_heights st !! k /\
  avg_heights st' !! k = avg_heights st !! k /\
  detection_history st' !! k = detection_history st !! k.

(** Both detectors have the same count and per-tube lists of the same
    lengths. *)
Definition same_shape {image : Type} (st st' : MultiTubeFlyDetector image) : Prop :=
  tube_count st' = tube_count st /\
  length (tube_regions st') = length (tube_regions st) /\
  length (genotype_names st') = length (genotype_names st) /\
  length (fly_positions st') = length (fly_positions st) /\
  length (climbing_heights st') = length (climbing_heights st) /\
  length (max_heights st') = length (max_heights st) /\
  length (avg_heights st') = length (avg_heights st) /\
  length (detection_history st') = length (detection_history st).

(** Each recorded frame carries the image its read returns or, when the
    read fails, the image of the record before it, [held] for the first. *)
Fixpoint scan_follows {image : Type} (capture : Z -> option image) (held : image)
    (records : list (frame_score image)) : Prop :=
  match records with
  | [] => True
  | f :: rest =>
      fs_frame f = match capture (fs_frame_number f) with
                   | Some img => img
                   | None => held
                   end /\
      scan_follows capture (fs_frame f) rest
  end.

(** ** Sample data for the closed statements *)

(** For the detection samples an image is the list of the contours OpenCV
    finds in any region of it, against any background. *)
Definition sample_contours (frame bg : list contour) (r : region) (threshold : Z) :
    M (list contour) := Ok frame.

Definition sample_shape (frame : list contour) : Z * Z := (480, 640).

(** A contour of area 100 whose centroid is [(25, 100)] in its region. *)
Definition sample_blob : contour := mkContour 100 100 2500 10000.

(** A detector with one tube [(100, 100, 50, 300)] and a background. *)
Definition sample_detector : MultiTubeFlyDetector (list contour) :=
  mkDetector 1 [Some (100, 100, 50, 300)] [default_name 0] (Some [])
    15 40 500 [None] [0] [0] [0%Q] [[]] None.

(** The same detector after a pass over a frame showing [sample_blob]. *)
Definition sample_detector_after_pass : MultiTubeFlyDetector (list contour) :=
  mkDetector 1 [Some (100, 100, 50, 300)] [default_name 0] (Some [])
    15 40 500 [Some (125, 200)] [200] [200] [200%Q] [[200]] None.

(** The same detector before any background is set. *)
Definition sample_detector_no_background : MultiTubeFlyDetector (list contour) :=
  with_background_frame sample_detector None.

(** A detector whose only tube has a history but no region any more. *)
Definition sample_detector_region_unset : MultiTubeFlyDetector (list contour) :=
  mkDetector 1 [None] [default_name 0] (Some [])
    15 40 500 [Some (125, 345)] [55] [55] [55%Q] [[55]] None.

(** A detector with three tubes; the first and the third have the same
    average height, the second a greater one. *)
Definition sample_detector_three : MultiTubeFlyDetector (list contour) :=
  mkDetector 3
    [Some (100, 100, 50, 300); Some (200, 100, 50, 300); Some (300, 100, 50, 300)]
    [default_name 0; default_name 1; default_name 2] (Some [])
    15 40 500 [None; None; None] [50; 70; 50] [60; 80; 50] [50%Q; 70%Q; 50%Q]
    [[40; 60]; [80; 60]; [50]] None.

(** For the ranking samples an image is its own sharpness score. *)
Definition sample_sharpness (img : Q) : Q := img.

(** A video of 30 frames that all decode; frame 12 is the sharpest. *)
Definition sample_capture (n : Z) : option Q :=
  Some (if n =? 12 then 9%Q else inject_Z (n mod 3)).

(** A video of 4 frames whose first frame does not decode; frame 1 is the
    sharpest. *)
Definition sample_capture_gap (n : Z) : option Q :=
  if n =? 0 then None else Some (inject_Z (10 - n)).

(** A session in selection mode on a video of 30 frames, with target frame
    12, one tube [(100, 0, 50, 280)] and one fly [(10, 50, 30)] in it. *)
Definition sample_ui : MultiTubeUI Q :=
  mkUI
    (mkDetector 1 [Some (100, 0, 50, 280)] [default_name 0] None
       15 40 500 [None] [0] [0] [0%Q] [[]] (Some [Some [(10, 50, 30)]]))
    (mkPlayer (Some sample_capture) 30 0 None)
    12 true [].

(** The same session on the video whose first frame does not decode, with
    target frame 3, and with the fly [(124, 198, 79)] in the tube. *)
Definition sample_ui_gap : MultiTubeUI Q :=
  mkUI
    (mkDetector 1 [Some (100, 0, 50, 280)] [default_name 0] None
       15 40 500 [None] [0] [0] [0%Q] [[]] (Some [Some [(124, 198, 79)]]))
    (mkPlayer (Some sample_capture_gap) 4 0 None)
    3 true [].

(** A session in selection mode whose detection results are those of an
    earlier count of two tubes, while the detector has one tube now. *)
Definition sample_ui_stale : MultiTubeUI Q :=
  mkUI
    (mkDetector 1 [Some (100, 0, 50, 280)] [default_name 0] None
       15 40 500 [None] [0] [0] [0%Q] [[]] (Some [Some [(10, 50, 30)]; None]))
    (mkPlayer (Some sample_capture) 30 0 None)
    12 true [].

(** A session in selection mode with two tubes; the second holds a fly
    detected at [(20, 60)] and one added by hand at [(225, 100)], the only
    edit on the stack. *)
Definition sample_ui_two : MultiTubeUI Q :=
  mkUI
    (mkDetector 2 [Some (100, 0, 50, 280); Some (200, 0, 50, 280)]
       [default_name 0; default_name 1] None
       15 40 500 [None; None] [0; 40] [0; 40] [0%Q; 40%Q] [[]; [40]]
       (Some [Some [(10, 50, 30)]; Some [(20, 60, 40); (225, 100, 180)]]))
    (mkPlayer (Some sample_capture) 30 0 None)
    12 true [(1, 225, 100, 180)].

(** Three contours of area 100 whose centroids give the heights 95, 238
    and 287 in the tube of [sample_detector], and the detector after a pass
    over a frame showing them: the average is the double nearest to
    [620 / 3]. *)
Definition sample_three_blobs : list contour :=
  [mkContour 100 100 2500 20500; mkContour 100 100 2500 6200;
   mkContour 100 100 2500 1300].

Definition sample_detector_after_three_blobs : MultiTubeFlyDetector (list contour) :=
  mkDetector 1 [Some (100, 100, 50, 300)] [default_name 0] (Some [])
    15 40 500 [Some (125, 305)] [287] [287]
    [(7271436898358613 # 35184372088832)%Q] [[95; 238; 287]] None.

(** [sample_detector_after_pass] after a further pass over a frame
    showing nothing. *)
Definition sample_detector_after_empty_pass : MultiTubeFlyDetector (list contour) :=
  mkDetector 1 [Some (100, 100, 50, 300)] [default_name 0] (Some [])
    15 40 500 [None] [0] [200] [200%Q] [[]] None.

(** [sample_detector_after_pass] after a call of [_detect_fly_in_tube] on
    a frame showing [sample_blob]. *)
Definition sample_detector_after_two : MultiTubeFlyDetector (list contour) :=
  mkDetector 1 [Some (100, 100, 50, 300)] [default_name 0] (Some [])
    15 40 500 [Some (125, 200)] [200] [200] [200%Q] [[200; 200]] None.

(** [sample_detector_region_unset] after a pass. *)
Definition sample_detector_region_unset_after_pass : MultiTubeFlyDetector (list contour) :=
  mkDetector 1 [None] [default_name 0] (Some [])
    15 40 500 [Some (125, 345)] [55] [55] [55%Q] [[]] None.

(** The results of three frames for two tubes: the first tube shows a fly
    in the first frame, the same fly a little higher and another one in
    the second frame, nothing in the third; the second tube shows none. *)
Definition sample_frames : list (list (option (list fly))) :=
  [[Some [(10, 50, 30)]; None];
   [Some [(12, 52, 35); (100, 100, 80)]; Some []];
   [None; None]].

(** Two frames of one tube in which the order of the flies matters: the
    second fly of the first frame is near the first one and higher, and
    the fly of the second frame is near the second fly but not the first. *)
Definition sample_frames_ordered : list (list (option (list fly))) :=
  [[Some [(0, 0, 10); (8, 0, 20)]]; [Some [(16, 0, 5)]]].

(** The merge of [sample_frames], and the dictionary it builds for the
    first tube. *)
Definition sample_merged : list (option (list fly)) :=
  [Some [(12, 52, 35); (100, 100, 80)]; None].

Definition sample_dictionary : list (Z * Z * fly_info) :=
  [(10, 50, mkInfo 12 52 35 1 12 2%Q); (100, 100, mkInfo 100 100 80 1 12 2%Q)].

(** A session on a video of 2 frames, with target frame 1. *)
Definition sample_ui_short : MultiTubeUI Q :=
  mkUI (detector sample_ui) (mkPlayer (Some sample_capture) 2 0 None) 1 true [].

(** A session on the video whose first frame does not decode, with target
    frame 3, whose player holds an image as the scan begins. *)
Definition sample_ui_held : MultiTubeUI Q :=
  mkUI (detector sample_ui) (mkPlayer (Some sample_capture_gap) 4 2 (Some 5%Q)) 3 true [].

(** A session with no video loaded. *)
Definition sample_ui_closed : MultiTubeUI Q :=
  mkUI (detector sample_ui) (mkPlayer None 0 0 None) 0 true [].

(** ** Python lists *)

Lemma py_range2_length (a b : Z) : length (py_range2 a b) = Z.to_nat (b - a).
Proof. unfold py_range2. now rewrite length_map, length_seq. Qed.

Lemma py_range2_lookup (a b : Z) (k : nat) :
  (k < Z.to_nat (b - a))%nat -> py_range2 a b !! k = Some (a + Z.of_nat k).
Proof.
  intros Hk. unfold py_range2.
  rewrite list_lookup_fmap, lookup_seq_lt by exact Hk. reflexivity.
Qed.

Lemma py_range2_In (a b i : Z) : In i (py_range2 a b) <-> a <= i < b.
Proof.
  unfold py_range2. rewrite in_map_iff. split.
  - intros [k [<- Hk]]. apply in_seq in Hk. lia.
  - intros Hi. exists (Z.to_nat (i - a)). split; [lia|]. apply in_seq. lia.
Qed.

Lemma py_range_In (n i : Z) : In i (py_range n) <-> 0 <= i < n.
Proof. apply py_range2_In. Qed.

Lemma py_range_length (n : Z) : length (py_range n) = Z.to_nat n.
Proof. unfold py_range. now rewrite py_range2_length, Z.sub_0_r. Qed.

Lemma py_range_lookup (n : Z) (k : nat) :
  (k < Z.to_nat n)%nat -> py_range n !! k = Some (Z.of_nat k).
Proof. intros Hk. unfold py_range. rewrite py_range2_lookup by lia. reflexivity. Qed.

Lemma py_range_nat (n : Z) : py_range n = map Z.of_nat (seq 0 (Z.to_nat n)).
Proof.
  unfold py_range, py_range2. rewrite Z.sub_0_r. apply map_ext. intros k. lia.
Qed.

Lemma py_repeat_length {A : Type} (v : A) (n : Z) : length (py_repeat v n) = Z.to_nat n.
Proof. apply length_replicate. Qed.

Lemma py_index_nonneg {A : Type} (l : list A) (i : Z) :
  0 <= i ->
  py_index l i = if i <? Z.of_nat (length l) then Some (Z.to_nat i) else None.
Proof.
  intros Hi. unfold py_index.
  destruct (Z.leb_spec 0 i); [|lia].
  destruct (Z.ltb_spec i (Z.of_nat (length l))); simpl; [reflexivity|].
  destruct (Z.ltb_spec i 0); [lia|]. now rewrite andb_false_r.
Qed.

Lemma py_index_lt {A : Type} (l : list A) (i : Z) (k : nat) :
  py_index l i = Some k -> (k < length l)%nat.
Proof.
  unfold py_index.
  destruct (Z.leb_spec 0 i), (Z.ltb_spec i (Z.of_nat (length l))); simpl;
    try (intros [= <-]; lia);
    destruct (Z.leb_spec (- Z.of_nat (length l)) i), (Z.ltb_spec i 0); simpl;
    try discriminate; intros [= <-]; lia.
Qed.

Lemma py_get_nonneg {A : Type} (l : list A) (i : Z) (a : A) :
  0 <= i -> py_get l i = Ok a <-> l !! Z.to_nat i = Some a.
Proof.
  intros Hi. unfold py_get. rewrite py_index_nonneg by exact Hi.
  destruct (Z.ltb_spec i (Z.of_nat (length l))) as [Hlt|Hge].
  - destruct (l !! Z.to_nat i) eqn:E; split; congruence.
  - split; [discriminate|]. intros E. apply lookup_lt_Some in E. lia.
Qed.

Lemma py_get_lookup {A : Type} (l : list A) (i : Z) (a : A) :
  py_get l i = Ok a -> exists k, py_index l i = Some k /\ l !! k = Some a.
Proof.
  unfold py_get. destruct (py_index l i) as [k|]; [|discriminate].
  destruct (l !! k) eqn:E; [|discriminate]. intros [= <-]. eauto.
Qed.

Lemma py_get_repeat {A : Type} (v : A) (n i : Z) :
  0 <= i < n -> py_get (py_repeat v n) i = Ok v.
Proof.
  intros Hi. apply py_get_nonneg; [lia|]. unfold py_repeat.
  apply lookup_replicate_2. lia.
Qed.

Lemma py_set_nonneg {A : Type} (l l' : list A) (i : Z) (a : A) :
  0 <= i -> py_set l i a = Ok l' ->
  l' = <[Z.to_nat i := a]> l /\ (Z.to_nat i < length l)%nat.
Proof.
  intros Hi. unfold py_set. rewrite py_index_nonneg by exact Hi.
  destruct (Z.ltb_spec i (Z.of_nat (length l))); [|discriminate].
  intros [= <-]. split; [reflexivity|lia].
Qed.

Lemma py_set_in_range {A : Type} (l : list A) (i : Z) (a : A) :
  0 <= i < Z.of_nat (length l) -> py_set l i a = Ok (<[Z.to_nat i := a]> l).
Proof.
  intros Hi. unfold py_set. rewrite py_index_nonneg by lia.
  destruct (Z.ltb_spec i (Z.of_nat (length l))); [reflexivity|lia].
Qed.

Lemma py_set_length {A : Type} (l l' : list A) (i : Z) (a : A) :
  py_set l i a = Ok l' -> length l' = length l.
Proof.
  unfold py_set. destruct (py_index l i); [|discriminate].
  intros [= <-]. apply length_insert.
Qed.

Lemma bind_Ok {A B : Type} (m : M A) (k : A -> M B) (b : B) :
  bind m k = Ok b -> exists a, m = Ok a /\ k a = Ok b.
Proof. destruct m; simpl; [eauto|discriminate]. Qed.

(** ** Configuration of the detector *)

Section ConfigurationFacts.

Context {image : Type}.

Implicit Types st : MultiTubeFlyDetector image.

Lemma init_well_formed (n : Z) : well_formed (@init image n).
Proof.
  unfold well_formed, init; simpl.
  rewrite !py_repeat_length, length_map, py_range_length. tauto.
Qed.

Lemma py_get_default_names (n i : Z) :
  0 <= i < n -> py_get (map default_name (py_range n)) i = Ok (default_name i).
Proof.
  intros Hi. apply py_get_nonneg; [lia|].
  rewrite list_lookup_fmap, py_range_lookup by lia. simpl. f_equal. f_equal. lia.
Qed.

(** C10. [set_tube_count(n)] returns for every [n], also for the current
    count, and leaves a detector with count [n] in which every tube has no
    region, its default name, no fly position, heights 0 and an empty
    history; each per-tube list has [max(n, 0)] entries. *)
Theorem set_tube_count_discards_everything st (n : Z) :
  exists st', set_tube_count st n = Ok st' /\
    tube_count st' = n /\
    well_formed st' /\
    forall i, 0 <= i < n ->
      py_get (tube_regions st') i = Ok None /\
      py_get (genotype_names st') i = Ok (default_name i) /\
      py_get (fly_positions st') i = Ok None /\
      py_get (climbing_heights st') i = Ok 0 /\
      py_get (max_heights st') i = Ok 0 /\
      py_get (avg_heights st') i = Ok 0%Q /\
      py_get (detection_history st') i = Ok [].
Proof.
  eexists. split; [reflexivity|]. simpl. split; [reflexivity|]. split.
  - unfold well_formed; simpl.
    rewrite !py_repeat_length, length_map, py_range_length. tauto.
  - intros i Hi. rewrite !py_get_repeat by exact Hi.
    rewrite py_get_default_names by exact Hi. tauto.
Qed.

(** C4. The code at the failing input and below: for every [n < 1],
    [set_tube_count(n)] returns normally and replaces the count by [n] and
    every per-tube list by the empty list; nothing is rejected. *)
Theorem set_tube_count_below_one_is_accepted st (n : Z) :
  n < 1 ->
  exists st', set_tube_count st n = Ok st' /\
    tube_count st' = n /\
    tube_regions st' = [] /\ genotype_names st' = [] /\ fly_positions st' = [] /\
    climbing_heights st' = [] /\ max_heights st' = [] /\ avg_heights st' = [] /\
    detection_history st' = [].
Proof.
  intros Hn. eexists. split; [reflexivity|]. simpl.
  unfold py_repeat, py_range, py_range2.
  replace (Z.to_nat n) with 0%nat by lia. replace (Z.to_nat (n - 0)) with 0%nat by lia.
  simpl. tauto.
Qed.

(** C3. The code at an index outside [[0, tube_count)]: the setters return
    normally and leave the detector as it was, the height queries return
    0; none of them raises. *)
Theorem out_of_range_index_is_ignored st (i : Z) (r : option region) (name : string) :
  ~ (0 <= i < tube_count st) ->
  set_tube_region st i r = Ok st /\
  set_genotype_name st i name = Ok st /\
  get_max_height st i = Ok 0 /\
  get_avg_height st i = Ok 0%Q /\
  get_current_height st i = Ok 0 /\
  get_tube_height st i = Ok 0.
Proof.
  intros Hi.
  assert (E : (0 <=? i) && (i <? tube_count st) = false).
  { destruct (Z.leb_spec 0 i), (Z.ltb_spec i (tube_count st)); simpl; try reflexivity; lia. }
  unfold set_tube_region, set_genotype_name, get_max_height, get_avg_height,
    get_current_height, get_tube_height.
  rewrite E. tauto.
Qed.

End ConfigurationFacts.

(** ** The automatic split of the capture area *)

Section SplitFacts.

Context {image : Type} (shape : image -> Z * Z).

Implicit Types st : MultiTubeFlyDetector image.

Lemma auto_detect_tubes_eq st frame (rx ry rw rh : Z) (tc : option Z) (n : Z) :
  n = match tc with Some k => k | None => tube_count st end ->
  n <> 0 ->
  exists st',
    auto_detect_tubes shape st frame (Some (rx, ry, rw, rh)) tc
      = Ok (st', map (split_region rx ry rw rh n) (py_range n)) /\
    tube_count st' = n /\
    tube_regions st' = map Some (map (split_region rx ry rw rh n) (py_range n)).
Proof.
  intros Hn Hn0. unfold auto_detect_tubes.
  destruct tc as [k|]; simpl; subst n.
  - destruct (Z.eqb_spec k 0); [contradiction|]. simpl. eexists. split; [reflexivity|].
    simpl. split; reflexivity.
  - destruct (Z.eqb_spec (tube_count st) 0); [contradiction|]. simpl.
    eexists. split; [reflexivity|]. simpl. split; reflexivity.
Qed.

Lemma split_lookup (rx ry rw rh n : Z) (k : nat) (r : region) :
  map (split_region rx ry rw rh n) (py_range n) !! k = Some r ->
  r = split_region rx ry rw rh n (Z.of_nat k) /\ Z.of_nat k < n.
Proof.
  intros H. rewrite py_range_nat, list_lookup_fmap, list_lookup_fmap in H.
  destruct (seq 0 (Z.to_nat n) !! k) as [k'|] eqn:E; [|discriminate].
  apply lookup_seq in E as [-> Hk]. simpl in H. injection H as <-. split; [reflexivity|lia].
Qed.

(** C9. For every capture area [(rx, ry, rw, rh)] and every [n >= 1],
    given as argument or being the current count, [auto_detect_tubes]
    returns exactly [n] regions and stores them; the [i]-th is
    [(rx + i * (rw div n), ry, rw div n, rh)]. Two different regions share
    no pixel, each region starts where the previous one ends, and the
    [rw mod n] columns from [rx + n * (rw div n)] up to [rx + rw] lie in no
    region. *)
Theorem auto_detect_tubes_equal_split st frame (rx ry rw rh : Z) (tc : option Z) (n : Z) :
  n = match tc with Some k => k | None => tube_count st end ->
  1 <= n ->
  exists st' regions,
    auto_detect_tubes shape st frame (Some (rx, ry, rw, rh)) tc = Ok (st', regions) /\
    tube_count st' = n /\
    tube_regions st' = map Some regions /\
    length regions = Z.to_nat n /\
    (forall i, 0 <= i < n ->
       regions !! Z.to_nat i = Some (rx + i * (rw / n), ry, rw / n, rh)) /\
    (forall j k rj rk px py,
       regions !! j = Some rj -> regions !! k = Some rk -> j <> k ->
       ~ (in_region rj px py /\ in_region rk px py)) /\
    (forall k x y w h x' y' w' h',
       regions !! k = Some (x, y, w, h) -> regions !! S k = Some (x', y', w', h') ->
       x' = x + w /\ y' = y /\ w' = w /\ h' = h) /\
    (forall r px py,
       In r regions -> rx + n * (rw / n) <= px < rx + rw -> ~ in_region r px py) /\
    (rx + rw) - (rx + n * (rw / n)) = rw mod n.
Proof.
  intros Hn Hn1.
  destruct (auto_detect_tubes_eq st frame rx ry rw rh tc n Hn) as (st' & Hrun & Hcount & Hregions);
    [lia|].
  exists st', (map (split_region rx ry rw rh n) (py_range n)).
  split; [exact Hrun|]. split; [exact Hcount|]. split; [exact Hregions|].
  split; [|split; [|split; [|split; [|split]]]].
  - now rewrite length_map, py_range_length.
  - intros i Hi. rewrite list_lookup_fmap, py_range_lookup by lia. simpl.
    unfold split_region. repeat f_equal; lia.
  - intros j k rj rk px py Hj Hk Hjk [Pj Pk].
    apply split_lookup in Hj as [-> Hj], Hk as [-> Hk].
    unfold split_region, in_region in Pj, Pk.
    assert (Z.of_nat j < Z.of_nat k \/ Z.of_nat k < Z.of_nat j) as [Hlt|Hlt] by lia; nia.
  - intros k x y w h x' y' w' h' Hk HSk.
    apply split_lookup in Hk as [Hk _], HSk as [HSk _].
    unfold split_region in Hk, HSk. injection Hk as -> -> -> ->.
    injection HSk as -> -> -> ->. repeat split; lia.
  - intros r px py Hin Hpx Hr.
    apply list_elem_of_In, list_elem_of_lookup in Hin as [k Hk].
    apply split_lookup in Hk as [-> Hk].
    unfold split_region, in_region in Hr. nia.
  - rewrite (Z.mod_eq rw n) by lia. lia.
Qed.

End SplitFacts.

(** ** Detection passes *)

Ltac inv_bind H :=
  let a := fresh "v" in
  let E := fresh "E" in
  apply bind_Ok in H as (a & E & H).

Section DetectionFacts.

Context {image : Type}.
Variable find_contours : image -> image -> region -> Z -> M (list contour).

Implicit Types st : MultiTubeFlyDetector image.

Lemma with_detection_history_same st :
  with_detection_history st (detection_history st) = st.
Proof. now destruct st. Qed.

Lemma clear_history_loop (l : list Z) st st' :
  Forall (fun i => 0 <= i) l ->
  foldM clear_history st l = Ok st' ->
  st' = with_detection_history st (detection_history st') /\
  length (detection_history st') = length (detection_history st) /\
  (forall i, In i l -> detection_history st' !! Z.to_nat i = Some []) /\
  (forall k, detection_history st !! k = Some [] -> detection_history st' !! k = Some []).
Proof.
  revert st. induction l as [|i l IH]; intros st Hl H; simpl in H.
  - injection H as <-. rewrite with_detection_history_same. now repeat split.
  - inversion Hl as [|? ? Hi Hl']; subst.
    inv_bind H. unfold clear_history in E. inv_bind E. injection E as <-.
    apply py_set_nonneg in E0 as [-> Hlt]; [|exact Hi].
    destruct (IH _ Hl' H) as (Hst & Hlen & Hempty & Hkeep). simpl in *.
    split; [rewrite Hst at 1; reflexivity|].
    split; [now rewrite Hlen, length_insert|].
    split.
    + intros j [<-|Hj]; [|now apply Hempty].
      apply Hkeep. now apply list_lookup_insert_eq.
    + intros k Hk. apply Hkeep.
      destruct (decide (Z.to_nat i = k)) as [<-|Hne].
      * now apply list_lookup_insert_eq.
      * now rewrite list_lookup_insert_ne.
Qed.

Lemma clear_history_loop_returns (l : list Z) st :
  Forall (fun i => 0 <= i < Z.of_nat (length (detection_history st))) l ->
  exists st', foldM clear_history st l = Ok st'.
Proof.
  revert st. induction l as [|i l IH]; intros st Hl; simpl; [eauto|].
  inversion Hl as [|? ? Hi Hl']; subst.
  unfold clear_history at 1. rewrite py_set_in_range by exact Hi. simpl.
  apply IH. simpl. now rewrite length_insert.
Qed.

Lemma record_flies_spec (i x y h : Z) (cs : list contour) st acc st' acc' :
  0 <= i ->
  record_flies i x y h cs st acc = Ok (st', acc') ->
  exists new,
    acc' = acc ++ new /\
    st' = with_detection_history st
            (alter (fun old => old ++ map fly_height new) (Z.to_nat i)
               (detection_history st)).
Proof.
  intros Hi. revert st acc. induction cs as [|c cs IH]; intros st acc H; simpl in H.
  - injection H as <- <-. exists []. rewrite app_nil_r. split; [reflexivity|].
    rewrite list_alter_id by (intros; apply app_nil_r).
    now rewrite with_detection_history_same.
  - destruct (Qeq_bool (m00 c) 0); [now apply IH|].
    inv_bind H. inv_bind H.
    apply py_get_nonneg in E; [|exact Hi].
    apply py_set_nonneg in E0 as [-> Hlt]; [|exact Hi].
    destruct (IH _ _ H) as (new & -> & ->). simpl.
    eexists (_ :: new). split; [now rewrite <- app_assoc|].
    unfold with_detection_history; simpl. f_equal.
    apply list_eq. intros k. destruct (decide (Z.to_nat i = k)) as [<-|Hne].
    + rewrite !list_lookup_alter_eq, list_lookup_insert_eq, E by exact Hlt.
      simpl. now rewrite <- app_assoc.
    + now rewrite !list_lookup_alter_ne, list_lookup_insert_ne.
Qed.

Lemma update_results_spec (i : Z) st (flies : list fly) st' :
  update_results i st flies = Ok st' ->
  detection_history st' = detection_history st /\
  tube_count st' = tube_count st /\
  tube_regions st' = tube_regions st /\
  background_frame st' = background_frame st.
Proof.
  unfold update_results. destruct flies as [|[[x0 y0] h0] others]; intros H.
  - inv_bind H. inv_bind H. now injection H as <-.
  - apply bind_Ok in H as (positions & _ & H).
    apply bind_Ok in H as (current & _ & H).
    apply bind_Ok in H as (climbing & _ & H).
    apply bind_Ok in H as (max_height & _ & H).
    apply bind_Ok in H as (old_max & _ & H).
    apply bind_Ok in H as (st1 & Hst1 & H).
    apply bind_Ok in H as (history & _ & H).
    assert (D : detection_history st1 = detection_history st /\
                tube_count st1 = tube_count st /\
                tube_regions st1 = tube_regions st /\
                background_frame st1 = background_frame st).
    { destruct (old_max <? max_height).
      - inv_bind Hst1. now injection Hst1 as <-.
      - now injection Hst1 as <-. }
    destruct history.
    + now injection H as <-.
    + inv_bind H. inv_bind H. now injection H as <-.
Qed.

Lemma detect_tube_spec frame st (res : list (list fly)) (i : Z) st' res' :
  0 <= i ->
  detect_tube find_contours frame (st, res) i = Ok (st', res') ->
  exists flies,
    res' = res ++ [flies] /\
    detection_history st' =
      alter (fun old => old ++ map fly_height flies) (Z.to_nat i) (detection_history st) /\
    tube_count st' = tube_count st /\
    tube_regions st' = tube_regions st /\
    background_frame st' = background_frame st /\
    (py_get (tube_regions st) i = Ok None -> flies = []).
Proof.
  intros Hi H. unfold detect_tube in H. inv_bind H.
  destruct v as [[[[x y] w] h]|].
  - inv_bind H. inv_bind H. inv_bind H. destruct v1 as [st1 flies].
    inv_bind H. injection H as <- <-.
    apply record_flies_spec in E2 as (new & Hnew & ->); [|exact Hi].
    simpl in Hnew. subst new.
    apply update_results_spec in E3 as (-> & -> & -> & ->). simpl.
    exists flies. repeat split; try reflexivity. congruence.
  - injection H as <- <-. exists []. simpl.
    rewrite list_alter_id by (intros; apply app_nil_r). now repeat split.
Qed.

Lemma detect_loop_spec frame (l : list Z) st (res : list (list fly)) st' res' :
  Forall (fun i => 0 <= i) l -> NoDup l ->
  foldM (detect_tube find_contours frame) (st, res) l = Ok (st', res') ->
  exists news,
    res' = res ++ news /\
    length news = length l /\
    tube_count st' = tube_count st /\
    tube_regions st' = tube_regions st /\
    (forall p i flies, l !! p = Some i -> news !! p = Some flies ->
       detection_history st' !! Z.to_nat i =
         (fun old => old ++ map fly_height flies) <$> detection_history st !! Z.to_nat i) /\
    (forall k, (forall i, In i l -> Z.to_nat i <> k) ->
       detection_history st' !! k = detection_history st !! k) /\
    (forall p i, l !! p = Some i -> py_get (tube_regions st) i = Ok None ->
       news !! p = Some []).
Proof.
  revert st res res'. induction l as [|i l IH]; intros st res res' Hl Hnd H; simpl in H.
  - injection H as <- <-. exists []. rewrite app_nil_r.
    repeat split; try reflexivity; intros; discriminate.
  - inversion Hl as [|? ? Hi Hl']; subst. inversion Hnd as [|? ? Hout Hnd']; subst.
    inv_bind H. destruct v as [st1 res1].
    apply detect_tube_spec in E as (flies & -> & H1 & Hc1 & Hr1 & _ & Hnone); [|exact Hi].
    destruct (IH _ _ _ Hl' Hnd' H) as (news & -> & Hlen & Hc & Hr & Hhist & Hother & Hunset).
    assert (Hnn : forall j, In j l -> 0 <= j) by (now apply List.Forall_forall).
    rewrite list_elem_of_In in Hout.
    exists (flies :: news). rewrite <- app_assoc. simpl.
    split; [reflexivity|]. split; [now rewrite Hlen|].
    split; [congruence|]. split; [congruence|]. split; [|split].
    + intros [|p] j fl Hp Hq; simpl in Hp, Hq.
      * injection Hp as <-. injection Hq as <-.
        rewrite Hother, H1; [apply list_lookup_alter_eq|].
        intros j Hj Heq. apply Hout. specialize (Hnn j Hj).
        replace i with j by lia. exact Hj.
      * assert (Hj : In j l) by (apply list_elem_of_In, list_elem_of_lookup; eauto).
        rewrite (Hhist p j fl Hp Hq), H1, list_lookup_alter_ne; [reflexivity|].
        intros Heq. apply Hout. specialize (Hnn j Hj).
        replace i with j by lia. exact Hj.
    + intros k Hk. rewrite Hother, H1 by (intros j Hj; apply Hk; now right).
      apply list_lookup_alter_ne. apply Hk. now left.
    + intros [|p] j Hp Hj; simpl in Hp |- *.
      * injection Hp as <-. now rewrite Hnone.
      * apply (Hunset p j Hp). now rewrite Hr1.
Qed.

Lemma py_range_NoDup (n : Z) : NoDup (py_range n).
Proof.
  rewrite py_range_nat. apply NoDup_fmap_2; [|apply NoDup_seq].
  intros a b. apply Nat2Z.inj.
Qed.

Lemma py_range_nonneg (n : Z) : Forall (fun i => 0 <= i) (py_range n).
Proof. apply List.Forall_forall. intros i Hi. apply py_range_In in Hi. lia. Qed.

(** A pass that returns: one list of flies per tube, and the history of
    every tube is the list of the heights of the flies found for that tube
    in this pass, whatever it was before. An unset region gives no fly. *)
Lemma detect_all_tubes_spec st frame st' (results : list (list fly)) :
  detect_all_tubes find_contours st frame = Ok (st', results) ->
  tube_count st' = tube_count st /\
  tube_regions st' = tube_regions st /\
  length results = Z.to_nat (tube_count st) /\
  forall i, 0 <= i < tube_count st ->
    exists flies,
      py_get results i = Ok flies /\
      py_get (detection_history st') i = Ok (map fly_height flies) /\
      (py_get (tube_regions st) i = Ok None -> flies = []).
Proof.
  intros H. unfold detect_all_tubes in H.
  apply bind_Ok in H as (st1 & Hclear & H).
  apply clear_history_loop in Hclear as (Hst1 & _ & Hempty & _); [|apply py_range_nonneg].
  assert (Hc1 : tube_count st1 = tube_count st) by (now rewrite Hst1).
  assert (Hr1 : tube_regions st1 = tube_regions st) by (now rewrite Hst1).
  rewrite Hc1 in H.
  apply detect_loop_spec in H
    as (news & -> & Hlen & Hc & Hr & Hhist & _ & Hunset);
    [|apply py_range_nonneg|apply py_range_NoDup].
  simpl. rewrite py_range_length in Hlen.
  split; [congruence|]. split; [congruence|]. split; [exact Hlen|].
  intros i Hi.
  assert (Hp : py_range (tube_count st) !! Z.to_nat i = Some i).
  { rewrite py_range_lookup by lia. f_equal. lia. }
  destruct (lookup_lt_is_Some_2 news (Z.to_nat i)) as [flies Hflies]; [lia|].
  exists flies. split; [apply py_get_nonneg; [lia|exact Hflies]|]. split.
  - apply py_get_nonneg; [lia|].
    rewrite (Hhist _ _ _ Hp Hflies), Hempty by (apply py_range_In; lia).
    reflexivity.
  - intros Hnone. rewrite <- Hr1 in Hnone.
    specialize (Hunset _ _ Hp Hnone). congruence.
Qed.

(** C2, as the code has it. Of two successive passes that return, the
    second leaves in every tube's history exactly the heights of the flies
    it found itself: nothing of the first pass remains, the history does
    not grow from pass to pass. *)
Theorem detection_history_is_the_last_pass st frame1 frame2 st1 st2
    (results1 results2 : list (list fly)) :
  detect_all_tubes find_contours st frame1 = Ok (st1, results1) ->
  detect_all_tubes find_contours st1 frame2 = Ok (st2, results2) ->
  forall i, 0 <= i < tube_count st ->
    exists flies,
      py_get results2 i = Ok flies /\
      py_get (detection_history st2) i = Ok (map fly_height flies).
Proof.
  intros H1 H2 i Hi.
  apply detect_all_tubes_spec in H1 as (Hc & _).
  apply detect_all_tubes_spec in H2 as (_ & _ & _ & H2).
  destruct (H2 i) as (flies & Hr & Hh & _); [lia|]. eauto.
Qed.

Lemma detect_loop_raises frame (l : list Z) st (res : list (list fly)) :
  background_frame st = None ->
  Forall (fun i => 0 <= i < Z.of_nat (length (tube_regions st))) l ->
  (exists i r, In i l /\ py_get (tube_regions st) i = Ok (Some r)) ->
  foldM (detect_tube find_contours frame) (st, res) l = Raise TypeError.
Proof.
  intros Hbg. revert res. induction l as [|i l IH]; intros res Hl (j & r & Hj & Hr).
  - destruct Hj.
  - inversion Hl as [|? ? Hi Hl']; subst. simpl. unfold detect_tube at 1.
    destruct (lookup_lt_is_Some_2 (tube_regions st) (Z.to_nat i)) as [ri Hri]; [lia|].
    apply py_get_nonneg in Hri; [|lia]. rewrite Hri. simpl.
    destruct ri as [[[[x y] w] h]|].
    + now rewrite Hbg.
    + simpl. apply IH; [exact Hl'|]. destruct Hj as [<-|Hj]; [congruence|eauto].
Qed.

(** C1. The code where a region is set and no background is: for every
    frame, [detect_all_tubes] raises [TypeError]; it returns no list. *)
Theorem detect_all_tubes_without_background_raises st frame (i : Z) (r : region) :
  well_formed st ->
  background_frame st = None ->
  0 <= i < tube_count st ->
  py_get (tube_regions st) i = Ok (Some r) ->
  detect_all_tubes find_contours st frame = Raise TypeError.
Proof.
  intros (Hregions & _ & _ & _ & _ & _ & Hhistory) Hbg Hi Hr.
  unfold detect_all_tubes.
  destruct (clear_history_loop_returns (py_range (tube_count st)) st) as [st1 Hclear].
  { apply List.Forall_forall. intros j Hj. apply py_range_In in Hj. lia. }
  rewrite Hclear. simpl.
  apply clear_history_loop in Hclear as (Hst1 & _); [|apply py_range_nonneg].
  assert (Hc1 : tube_count st1 = tube_count st) by (now rewrite Hst1).
  assert (Hr1 : tube_regions st1 = tube_regions st) by (now rewrite Hst1).
  assert (Hb1 : background_frame st1 = None) by (now rewrite Hst1).
  apply detect_loop_raises; [exact Hb1| |].
  - apply List.Forall_forall. intros j Hj. apply py_range_In in Hj. rewrite Hr1. lia.
  - exists i, r. rewrite Hr1, Hc1. split; [apply py_range_In; lia|exact Hr].
Qed.

(** The sibling [_detect_fly_in_tube] does check the background: without
    one it reports no fly and raises nothing. *)
Lemma _detect_fly_in_tube_without_background st frame (i : Z) (r : option region) :
  background_frame st = None ->
  py_get (tube_regions st) i = Ok r ->
  _detect_fly_in_tube find_contours st frame i = Ok (st, false).
Proof.
  intros Hbg Hr. unfold _detect_fly_in_tube. rewrite Hr. simpl. rewrite Hbg.
  now destruct r as [[[[x y] w] h]|].
Qed.

(** With every region unset a pass returns the empty list for every tube,
    with or without a background. *)
Lemma detect_all_tubes_no_region st frame :
  well_formed st ->
  (forall i, 0 <= i < tube_count st -> py_get (tube_regions st) i = Ok None) ->
  exists st', detect_all_tubes find_contours st frame
              = Ok (st', py_repeat [] (tube_count st)).
Proof.
  intros (Hregions & _ & _ & _ & _ & _ & Hhistory) Hnone.
  unfold detect_all_tubes.
  destruct (clear_history_loop_returns (py_range (tube_count st)) st) as [st1 Hclear].
  { apply List.Forall_forall. intros j Hj. apply py_range_In in Hj. lia. }
  rewrite Hclear. simpl.
  apply clear_history_loop in Hclear as (Hst1 & _); [|apply py_range_nonneg].
  assert (Hr1 : tube_regions st1 = tube_regions st) by (now rewrite Hst1).
  assert (Hc1 : tube_count st1 = tube_count st) by (now rewrite Hst1).
  rewrite <- Hr1 in Hnone. rewrite Hc1. clear Hst1 Hr1 Hc1 Hregions Hhistory.
  exists st1. rewrite py_range_nat. unfold py_repeat.
  assert (G : forall m k res,
             (k + m <= Z.to_nat (tube_count st))%nat ->
             foldM (detect_tube find_contours frame) (st1, res) (map Z.of_nat (seq k m))
             = Ok (st1, res ++ replicate m [])).
  { induction m as [|m IH]; intros k res Hk; simpl.
    - now rewrite app_nil_r.
    - unfold detect_tube at 1. rewrite Hnone by lia. simpl.
      rewrite IH by lia. now rewrite <- app_assoc. }
  apply (G _ 0%nat []). lia.
Qed.

End DetectionFacts.

(** ** The stable descending sort *)

Section SortFacts.

Context {A : Type} (key : A -> Q) (before : A -> A -> Prop).

Lemma insert_desc_Permutation (x : A) (l : list A) :
  Permutation (insert_desc key x l) (x :: l).
Proof.
  induction l as [|y l IH]; simpl; [reflexivity|].
  destruct (Qle_bool (key y) (key x)); [reflexivity|].
  rewrite IH. apply perm_swap.
Qed.

Lemma py_sort_desc_Permutation (l : list A) : Permutation (py_sort_desc key l) l.
Proof.
  induction l as [|x l IH]; simpl; [reflexivity|].
  rewrite insert_desc_Permutation. now constructor.
Qed.

Lemma desc_then_key_le (a b : A) : desc_then key before a b -> (key b <= key a)%Q.
Proof.
  intros [Hlt|[Heq _]]; [now apply Qlt_le_weak|]. rewrite Heq. apply Qle_refl.
Qed.

Lemma insert_desc_sorted (x : A) (l : list A) :
  StronglySorted (desc_then key before) l ->
  Forall (before x) l ->
  StronglySorted (desc_then key before) (insert_desc key x l).
Proof.
  induction l as [|y l IH]; intros Hs Hx; simpl.
  - repeat constructor.
  - apply StronglySorted_inv in Hs as [Hs Hy].
    inversion Hx as [|? ? Hxy Hxl]; subst.
    destruct (Qle_bool (key y) (key x)) eqn:E.
    + apply Qle_bool_iff in E. constructor; [now constructor|].
      assert (G : forall z, (key z <= key y)%Q -> before x z -> desc_then key before x z).
      { intros z Hz Hb. destruct (Qlt_le_dec (key z) (key x)) as [Hlt|Hge]; [now left|].
        right. split; [|exact Hb]. apply Qle_antisym; [exact Hge|].
        now apply Qle_trans with (key y). }
      constructor; [apply G; [apply Qle_refl|exact Hxy]|].
      rewrite List.Forall_forall in Hy, Hxl |- *. intros z Hz.
      apply G; [|now apply Hxl]. apply desc_then_key_le. now apply Hy.
    + assert (Hlt : (key x < key y)%Q).
      { apply Qnot_le_lt. intros Hle. apply Qle_bool_iff in Hle. congruence. }
      constructor; [now apply IH|].
      apply (Permutation_Forall (Permutation_sym (insert_desc_Permutation x l))).
      constructor; [now left|exact Hy].
Qed.

Lemma py_sort_desc_sorted (l : list A) :
  StronglySorted before l ->
  StronglySorted (desc_then key before) (py_sort_desc key l).
Proof.
  induction l as [|x l IH]; intros Hs; simpl; [constructor|].
  apply StronglySorted_inv in Hs as [Hs Hx].
  apply insert_desc_sorted; [now apply IH|].
  now apply (Permutation_Forall (Permutation_sym (py_sort_desc_Permutation l))).
Qed.

End SortFacts.

(** ** The comparison of genotypes *)

Section ComparisonFacts.

Context {image : Type}.

Implicit Types st : MultiTubeFlyDetector image.

Lemma py_get_in_range {B : Type} (l : list B) (i : Z) :
  0 <= i < Z.of_nat (length l) -> exists a, py_get l i = Ok a.
Proof.
  intros Hi. destruct (lookup_lt_is_Some_2 l (Z.to_nat i)) as [a Ha]; [lia|].
  exists a. apply py_get_nonneg; [lia|exact Ha].
Qed.

Lemma compare_loop (l : list Z) st (acc : list genotype_entry) :
  well_formed st ->
  Forall (fun i => 0 <= i < tube_count st) l ->
  StronglySorted Z.lt l ->
  exists new,
    foldM (compare_step st) acc l = Ok (acc ++ new) /\
    (forall i, In i l -> listed st i -> exists e, In e new /\ entry_of st i e) /\
    (forall e, In e new ->
       In (gd_index e) l /\ listed st (gd_index e) /\ entry_of st (gd_index e) e) /\
    StronglySorted (fun a b => gd_index a < gd_index b) new.
Proof.
  intros (Hregions & Hnames & _ & Hclimbing & Hmax & Havg & Hhistory).
  revert acc. induction l as [|i l IH]; intros acc Hl Hs.
  - exists []. simpl. rewrite app_nil_r. repeat split; try constructor; intros; contradiction.
  - inversion Hl as [|? ? Hi Hl']; subst.
    apply StronglySorted_inv in Hs as [Hs Hlt].
    destruct (py_get_in_range (tube_regions st) i) as [r Hr]; [lia|].
    destruct (py_get_in_range (detection_history st) i) as [hist Hhist]; [lia|].
    destruct (py_get_in_range (genotype_names st) i) as [name Hname]; [lia|].
    destruct (py_get_in_range (max_heights st) i) as [mh Hmh]; [lia|].
    destruct (py_get_in_range (avg_heights st) i) as [ah Hah]; [lia|].
    destruct (py_get_in_range (climbing_heights st) i) as [ch Hch]; [lia|].
    assert (Hskip : forall new,
              (forall e, In e new ->
                 In (gd_index e) l /\ listed st (gd_index e) /\ entry_of st (gd_index e) e) ->
              forall e, In e new ->
                 In (gd_index e) (i :: l) /\ listed st (gd_index e) /\
                 entry_of st (gd_index e) e).
    { intros new Hnew e He. destruct (Hnew e He) as (Hin & Hlisted & Hentry).
      split; [now right|now split]. }
    simpl. unfold compare_step at 1. rewrite Hr. simpl.
    destruct r as [r|]; [rewrite Hhist; simpl; destruct hist as [|h hs]|].
    + destruct (IH acc Hl' Hs) as (new & Hrun & Hall & Honly & Hsorted).
      exists new. split; [exact Hrun|]. split; [|split; [now apply Hskip|exact Hsorted]].
      intros j [<-|Hj] Hlisted; [|now apply Hall].
      destruct Hlisted as (_ & h & hs & Hh). congruence.
    + rewrite Hname, Hmh, Hah, Hch. simpl.
      destruct (IH (acc ++ [mkEntry name i mh ah ch]) Hl' Hs)
        as (new & Hrun & Hall & Honly & Hsorted).
      exists (mkEntry name i mh ah ch :: new).
      split; [rewrite Hrun; now rewrite <- app_assoc|]. split; [|split].
      * intros j [<-|Hj] Hlisted.
        -- eexists. split; [now left|]. now repeat split.
        -- destruct (Hall j Hj Hlisted) as (e & He & Hentry). exists e. split; [now right|trivial].
      * intros e [<-|He]; [|now apply (Hskip new)]. simpl.
        split; [now left|]. split; [|now repeat split].
        split; [now exists r|now exists h, hs].
      * constructor; [exact Hsorted|].
        apply List.Forall_forall. intros e He. simpl.
        destruct (Honly e He) as (Hin & _).
        rewrite List.Forall_forall in Hlt. now apply Hlt.
    + destruct (IH acc Hl' Hs) as (new & Hrun & Hall & Honly & Hsorted).
      exists new. split; [exact Hrun|]. split; [|split; [now apply Hskip|exact Hsorted]].
      intros j [<-|Hj] Hlisted; [|now apply Hall].
      destruct Hlisted as ((r & Hr') & _). congruence.
Qed.

Lemma py_range_sorted (n : Z) : StronglySorted Z.lt (py_range n).
Proof.
  rewrite py_range_nat. generalize 0%nat as k.
  induction (Z.to_nat n) as [|m IH]; intros k; simpl; constructor; [apply IH|].
  apply List.Forall_forall. intros j Hj.
  apply in_map_iff in Hj as (j' & <- & Hj'). apply in_seq in Hj'. lia.
Qed.

Lemma sorted_index_NoDup (l : list genotype_entry) :
  StronglySorted (fun a b => gd_index a < gd_index b) l -> NoDup (map gd_index l).
Proof.
  induction l as [|e l IH]; intros Hs; simpl; constructor.
  - apply StronglySorted_inv in Hs as [_ Hlt]. rewrite list_elem_of_In.
    intros Hin. apply in_map_iff in Hin as (e' & Heq & He').
    rewrite List.Forall_forall in Hlt. specialize (Hlt e' He'). lia.
  - apply IH. now apply StronglySorted_inv in Hs as [Hs _].
Qed.

(** C8, as the code has it. On a well formed detector [compare_genotypes]
    returns; a tube has an entry exactly when its region is set and its
    history is not empty, that entry carries its name, index, maximum,
    average and current height, and no two entries are of the same tube.
    The entries are in descending order of average, those of equal average
    in ascending order of tube index. *)
Theorem compare_genotypes_lists_set_regions st :
  well_formed st ->
  exists entries,
    compare_genotypes st = Ok entries /\
    (forall i, 0 <= i < tube_count st -> listed st i ->
       exists e, In e entries /\ entry_of st i e) /\
    (forall e, In e entries ->
       0 <= gd_index e < tube_count st /\ listed st (gd_index e) /\
       entry_of st (gd_index e) e) /\
    NoDup (map gd_index entries) /\
    StronglySorted genotype_order entries.
Proof.
  intros Hwf. unfold compare_genotypes.
  destruct (compare_loop (py_range (tube_count st)) st [] Hwf)
    as (new & Hrun & Hall & Honly & Hsorted).
  { apply List.Forall_forall. intros i Hi. now apply py_range_In in Hi. }
  { apply py_range_sorted. }
  rewrite Hrun. simpl. eexists. split; [reflexivity|].
  pose proof (py_sort_desc_Permutation gd_avg_height new) as Hperm.
  split; [|split; [|split]].
  - intros i Hi Hlisted. destruct (Hall i) as (e & He & Hentry); trivial.
    { apply py_range_In. exact Hi. }
    exists e. split; [|exact Hentry].
    now apply (Permutation_in _ (Permutation_sym Hperm)).
  - intros e He. apply (Permutation_in _ Hperm) in He.
    destruct (Honly e He) as (Hin & Hlisted & Hentry).
    apply py_range_In in Hin. split; [exact Hin|now split].
  - rewrite Hperm. now apply sorted_index_NoDup.
  - now apply py_sort_desc_sorted.
Qed.

End ComparisonFacts.

(** ** The ranking of frames by sharpness *)

Section RankingFacts.

Context {image : Type}.
Variable sharpness : image -> Q.

Implicit Types ui : MultiTubeUI image.
Implicit Types vp : VideoPlayer image.

Lemma seek_frame_keeps_image vp (n : Z) :
  current_frame_image vp <> None ->
  current_frame_image (fst (seek_frame vp n)) <> None.
Proof.
  intros H. unfold seek_frame. destruct (video_capture vp) as [capture|]; [|exact H].
  destruct ((n <? 0) || (total_frames vp <=? n)); [exact H|].
  destruct (capture n); simpl; [discriminate|exact H].
Qed.

Lemma scan_spec (l : list Z) vp (acc : list (frame_score image)) vp' acc' :
  fold_left (scan_frame sharpness) l (vp, acc) = (vp', acc') ->
  exists new,
    acc' = acc ++ new /\
    (forall f, In f new -> In (fs_frame_number f) l) /\
    (StronglySorted Z.lt l ->
     StronglySorted (fun a b => fs_frame_number a < fs_frame_number b) new) /\
    (current_frame_image vp <> None -> map fs_frame_number new = l).
Proof.
  revert vp acc. induction l as [|n l IH]; intros vp acc H; simpl in H.
  - injection H as <- <-. exists []. rewrite app_nil_r.
    repeat split; try constructor; intros; contradiction.
  - unfold get_current_frame in H.
    destruct (current_frame_image (fst (seek_frame vp n))) as [frame|] eqn:E.
    + apply IH in H as (new & -> & Hin & Hsorted & Hall).
      exists (mkScore frame n (sharpness frame) :: new). rewrite <- app_assoc.
      split; [reflexivity|]. split; [|split].
      * intros f [<-|Hf]; [now left|right; now apply Hin].
      * intros Hs. apply StronglySorted_inv in Hs as [Hs Hlt].
        constructor; [now apply Hsorted|].
        apply List.Forall_forall. intros f Hf. simpl.
        rewrite List.Forall_forall in Hlt. now apply Hlt, Hin.
      * intros _. simpl. f_equal. apply Hall. now rewrite E.
    + apply IH in H as (new & -> & Hin & Hsorted & Hall).
      exists new. split; [reflexivity|]. split; [|split].
      * intros f Hf. right. now apply Hin.
      * intros Hs. apply StronglySorted_inv in Hs as [Hs _]. now apply Hsorted.
      * intros Himg. now apply (seek_frame_keeps_image vp n) in Himg.
Qed.

Lemma py_range2_sorted (a b : Z) : StronglySorted Z.lt (py_range2 a b).
Proof.
  unfold py_range2. generalize 0%nat as k.
  induction (Z.to_nat (b - a)) as [|m IH]; intros k; simpl; constructor; [apply IH|].
  apply List.Forall_forall. intros j Hj.
  apply in_map_iff in Hj as (j' & <- & Hj'). apply in_seq in Hj'. lia.
Qed.

(** The frames recorded by the scan lie in the window, in ascending order
    of frame number. *)
Lemma scan_window_spec ui :
  (forall f, In f (snd (scan_window sharpness ui)) ->
     window_start ui <= fs_frame_number f <= window_end ui) /\
  StronglySorted (fun a b => fs_frame_number a < fs_frame_number b)
    (snd (scan_window sharpness ui)).
Proof.
  unfold scan_window.
  destruct (fold_left _ _ _) as [vp' acc'] eqn:E.
  apply scan_spec in E as (new & -> & Hin & Hsorted & _). simpl. split.
  - intros f Hf. apply Hin, py_range2_In in Hf. lia.
  - apply Hsorted, py_range2_sorted.
Qed.

(** When the player holds an image as the scan begins, every frame number
    of the window is recorded. *)
Lemma scan_window_complete ui :
  current_frame_image (video_player ui) <> None ->
  map fs_frame_number (snd (scan_window sharpness ui))
  = py_range2 (window_start ui) (window_end ui + 1).
Proof.
  intros Himg. unfold scan_window.
  destruct (fold_left _ _ _) as [vp' acc'] eqn:E.
  apply scan_spec in E as (new & -> & _ & _ & Hall). simpl. now apply Hall.
Qed.

Lemma choose_frame_numbers_sorted (start_frame end_frame' s : Z) :
  start_frame <= s <= end_frame' ->
  exists a b c,
    choose_frame_numbers start_frame end_frame' s = [a; b; c] /\
    a <= b <= c /\ start_frame <= a /\ c <= end_frame' /\ (s = a \/ s = b \/ s = c).
Proof.
  intros Hs. unfold choose_frame_numbers.
  destruct (Z.eqb_spec (Z.max start_frame (s - 1)) s) as [E1|E1];
    [|destruct (Z.eqb_spec (Z.min end_frame' (s + 1)) s) as [E2|E2]];
    eexists _, _, _; (split; [reflexivity|]); lia.
Qed.

Lemma choose_frame_numbers_consecutive (start_frame end_frame' s : Z) :
  start_frame <= s <= end_frame' ->
  start_frame + 2 <= end_frame' ->
  exists a,
    choose_frame_numbers start_frame end_frame' s = [a; a + 1; a + 2] /\
    start_frame <= a /\ a + 2 <= end_frame'.
Proof.
  intros Hs Hw. unfold choose_frame_numbers.
  destruct (Z.eqb_spec (Z.max start_frame (s - 1)) s) as [E1|E1];
    [|destruct (Z.eqb_spec (Z.min end_frame' (s + 1)) s) as [E2|E2]].
  - exists s. split; [|lia]. repeat f_equal; lia.
  - exists (s - 2). split; [|lia]. repeat f_equal; lia.
  - exists (s - 1). split; [|lia]. repeat f_equal; lia.
Qed.

Lemma find_frame_Some (l : list (frame_score image)) (n : Z) f :
  find_frame l n = Some f -> In f l /\ fs_frame_number f = n.
Proof.
  unfold find_frame. intros H. apply find_some in H as [Hin Heq].
  split; [exact Hin|]. now apply Z.eqb_eq.
Qed.

Lemma find_frame_present (l : list (frame_score image)) (n : Z) :
  In n (map fs_frame_number l) -> exists f, find_frame l n = Some f.
Proof.
  intros Hn. unfold find_frame.
  destruct (List.find _ l) as [f|] eqn:E; [eauto|].
  apply in_map_iff in Hn as (f & Hf & Hin).
  apply (find_none _ _ E) in Hin. simpl in Hin. apply Z.eqb_neq in Hin. contradiction.
Qed.

Lemma omap_cons {B C : Type} (f : B -> option C) (x : B) (l : list B) :
  omap f (x :: l) = match f x with Some y => y :: omap f l | None => omap f l end.
Proof. reflexivity. Qed.

Lemma chosen_spec (sorted : list (frame_score image)) (ns : list Z) :
  Forall (fun f => In f sorted /\ In (fs_frame_number f) ns)
    (omap (find_frame sorted) ns) /\
  (length (omap (find_frame sorted) ns) <= length ns)%nat /\
  (StronglySorted Z.le ns ->
   StronglySorted Z.le (map fs_frame_number (omap (find_frame sorted) ns))) /\
  (forall n, In n ns -> In n (map fs_frame_number sorted) ->
     In n (map fs_frame_number (omap (find_frame sorted) ns))) /\
  ((forall n, In n ns -> In n (map fs_frame_number sorted)) ->
   map fs_frame_number (omap (find_frame sorted) ns) = ns).
Proof.
  induction ns as [|n ns (IH1 & IH2 & IH3 & IH4 & IH5)].
  - simpl. repeat split; try constructor; trivial; intros; contradiction.
  - rewrite !omap_cons.
    assert (Hweak : Forall (fun f => In f sorted /\ (n = fs_frame_number f \/
                       In (fs_frame_number f) ns)) (omap (find_frame sorted) ns)).
    { eapply List.Forall_impl; [|exact IH1]. simpl. intros f [? ?]. auto. }
    destruct (find_frame sorted n) as [f|] eqn:E.
    + apply find_frame_Some in E as [Hin <-]. split; [|split; [|split; [|split]]].
      * constructor; [|exact Hweak]. split; [exact Hin|now left].
      * cbn [length]. lia.
      * intros Hs. apply StronglySorted_inv in Hs as [Hs Hle]. simpl.
        constructor; [now apply IH3|].
        apply List.Forall_forall. intros m Hm. apply in_map_iff in Hm as (g & <- & Hg).
        rewrite List.Forall_forall in IH1, Hle.
        apply Hle. now apply IH1.
      * intros m [<-|Hm] Hpresent; simpl; [now left|right; now apply IH4].
      * intros Hall. simpl. f_equal. apply IH5. intros m Hm.
        apply Hall. now right.
    + split; [exact Hweak|]. split; [cbn [length]; lia|]. split; [|split].
      * intros Hs. apply StronglySorted_inv in Hs as [Hs _]. now apply IH3.
      * intros m [<-|Hm] Hpresent; [|now apply IH4].
        apply find_frame_present in Hpresent as [f Hf]. congruence.
      * intros Hall. destruct (find_frame_present sorted n) as [f Hf]; [|congruence].
        apply Hall. now left.
Qed.

Lemma sorted_split (l1 l2 : list (frame_score image)) (s : frame_score image) :
  StronglySorted (fun a b => fs_frame_number a < fs_frame_number b) (l1 ++ s :: l2) ->
  (forall f, In f l1 -> fs_frame_number f < fs_frame_number s) /\
  (forall f, In f l2 -> fs_frame_number s < fs_frame_number f).
Proof.
  intros H. apply StronglySorted_app in H as (Hcross & _ & H2).
  apply StronglySorted_inv in H2 as [_ Hlt]. split.
  - intros f Hf. apply Hcross; [now apply list_elem_of_In|left].
  - rewrite List.Forall_forall in Hlt. exact Hlt.
Qed.

(** C6, as the code has it. When the scan recorded a frame,
    [get_top_3_sharpest_frames] returns. The sharpest frame, at which the
    player is left, is the first frame of maximal score in scan order and
    it is among the returned ones. At most three frames are returned, each with its number and
    score as recorded by the scan, inside the window and in ascending
    order of frame number. When every frame number of the window was
    recorded and the window has at least three, the returned numbers are
    three consecutive numbers of the window. *)
Theorem top_3_sharpest_frames ui :
  snd (scan_window sharpness ui) <> [] ->
  exists ui' frames nums scores sharpest before after,
    get_top_3_sharpest_frames sharpness ui = Ok (ui', (frames, nums, scores)) /\
    video_player ui'
      = fst (seek_frame (fst (scan_window sharpness ui)) (fs_frame_number sharpest)) /\
    snd (scan_window sharpness ui) = before ++ sharpest :: after /\
    (forall f, In f before -> (fs_sharpness_score f < fs_sharpness_score sharpest)%Q) /\
    (forall f, In f after -> (fs_sharpness_score f <= fs_sharpness_score sharpest)%Q) /\
    In (fs_frame_number sharpest) nums /\
    (length nums <= 3)%nat /\
    length frames = length nums /\
    length scores = length nums /\
    StronglySorted Z.le nums /\
    (forall k n, nums !! k = Some n ->
       window_start ui <= n <= window_end ui /\
       exists f, In f (snd (scan_window sharpness ui)) /\
         fs_frame_number f = n /\
         frames !! k = Some (fs_frame f) /\
         scores !! k = Some (fs_sharpness_score f)) /\
    (map fs_frame_number (snd (scan_window sharpness ui))
       = py_range2 (window_start ui) (window_end ui + 1) ->
     window_start ui + 2 <= window_end ui ->
     exists a, nums = [a; a + 1; a + 2] /\
       window_start ui <= a /\ a + 2 <= window_end ui).
Proof.
  intros Hne. destruct (scan_window_spec ui) as [Hwindow Hscan].
  unfold get_top_3_sharpest_frames.
  destruct (scan_window sharpness ui) as [vp scanned] eqn:Escan. simpl in *.
  pose proof (py_sort_desc_Permutation fs_sharpness_score scanned) as Hperm.
  pose proof (py_sort_desc_sorted fs_sharpness_score _ scanned Hscan) as Hsorted.
  destruct (py_sort_desc fs_sharpness_score scanned) as [|s rest] eqn:Esort.
  { apply Permutation_nil in Hperm. contradiction. }
  replace (py_get (s :: rest) 0) with (Ok s) by reflexivity. simpl.
  assert (Hs : In s scanned) by (apply (Permutation_in _ Hperm); now left).
  apply StronglySorted_inv in Hsorted as [_ Hhead].
  rewrite List.Forall_forall in Hhead.
  destruct (in_split _ _ Hs) as (before & after & Hsplit).
  rewrite Hsplit in Hscan. apply sorted_split in Hscan as [Hbefore Hafter].
  assert (Hrest : forall f, In f scanned -> fs_frame_number f <> fs_frame_number s ->
            In f rest).
  { intros f Hf Hnum. apply (Permutation_in _ (Permutation_sym Hperm)) in Hf.
    destruct Hf as [<-|Hf]; [contradiction|exact Hf]. }
  destruct (choose_frame_numbers_sorted (window_start ui) (window_end ui)
              (fs_frame_number s) (Hwindow s Hs))
    as (a & b & c & Hchoose & Habc & Ha & Hc & Hmember).
  destruct (chosen_spec (s :: rest) (choose_frame_numbers (window_start ui)
              (window_end ui) (fs_frame_number s)))
    as (Hchosen & Hlen & Hordered & Hkept & Hfull).
  set (chosen := omap (find_frame (s :: rest)) _) in *.
  assert (Hnums : forall n, In n (map fs_frame_number scanned) ->
            In n (map fs_frame_number (s :: rest))).
  { intros n Hn. apply in_map_iff in Hn as (f & <- & Hf). apply in_map.
    now apply (Permutation_in _ (Permutation_sym Hperm)). }
  eexists _, _, _, _, s, before, after. split; [reflexivity|].
  split; [reflexivity|]. split; [exact Hsplit|]. split; [|split; [|split; [|split; [|split; [|split;
    [|split; [|split]]]]]]].
  - intros f Hf. specialize (Hbefore f Hf).
    destruct (Hhead f) as [Hlt|[_ Hlt]]; [|exact Hlt|lia].
    apply Hrest; [|lia]. rewrite Hsplit. apply in_or_app. now left.
  - intros f Hf. specialize (Hafter f Hf).
    apply (desc_then_key_le _ (fun a b => fs_frame_number a < fs_frame_number b)).
    apply Hhead, Hrest; [|lia]. rewrite Hsplit. apply in_or_app. right. now right.
  - apply Hkept; [|now left]. rewrite Hchoose. simpl. intuition.
  - rewrite length_map. rewrite Hchoose in Hlen. exact Hlen.
  - now rewrite !length_map.
  - now rewrite !length_map.
  - apply Hordered. rewrite Hchoose. repeat constructor; lia.
  - intros k n Hk. rewrite list_lookup_fmap in Hk.
    destruct (chosen !! k) as [f|] eqn:Ef; [|discriminate]. injection Hk as <-.
    rewrite List.Forall_forall in Hchosen.
    destruct (Hchosen f) as [Hin Hnum].
    { apply list_elem_of_In, list_elem_of_lookup. eauto. }
    apply (Permutation_in _ Hperm) in Hin. split; [now apply Hwindow|].
    exists f. rewrite !list_lookup_fmap, Ef. now repeat split.
  - intros Hcomplete Hthree.
    destruct (choose_frame_numbers_consecutive (window_start ui) (window_end ui)
                (fs_frame_number s) (Hwindow s Hs) Hthree) as (a' & Hcons & Ha' & Hc').
    exists a'. split; [|now split]. rewrite <- Hcons. apply Hfull.
    intros n Hn. apply Hnums. rewrite Hcomplete. apply py_range2_In.
    rewrite Hcons in Hn. simpl in Hn. lia.
Qed.

End RankingFacts.

(** ** The cross-frame merge *)

Section MergeFacts.

Variables (frame_numbers : list Z) (sharpness_scores : list Q).

Implicit Types d : list ((Z * Z) * fly_info).

Lemma make_info_fields (frame_idx : Z) (f : fly) (info : fly_info) :
  make_info frame_numbers sharpness_scores frame_idx f = Ok info ->
  (fi_x info, fi_y info, fi_height info) = f.
Proof.
  destruct f as [[x y] h]. unfold make_info. intros H.
  inv_bind H. inv_bind H. now injection H as <-.
Qed.

Lemma update_similar_far (new_info : M fly_info) (x y h : Z) d :
  Forall (fun item => is_near (fst item) x y = false) d ->
  update_similar new_info (x, y, h) d = Ok None.
Proof.
  induction d as [|[key e] d IH]; intros Hfar; simpl; [reflexivity|].
  inversion Hfar as [|? ? Hkey Hfar']; subst. simpl in Hkey.
  rewrite Hkey, IH by exact Hfar'. reflexivity.
Qed.

Lemma update_similar_near (info : fly_info) (x y h : Z) d1 (key : Z * Z)
    (e : fly_info) d2 :
  Forall (fun item => is_near (fst item) x y = false) d1 ->
  is_near key x y = true ->
  update_similar (Ok info) (x, y, h) (d1 ++ (key, e) :: d2)
  = Ok (Some (d1 ++ (key, if fi_height e <? h then info else e) :: d2)).
Proof.
  intros Hfar Hnear. induction d1 as [|[key1 e1] d1 IH]; simpl.
  - rewrite Hnear. now destruct (fi_height e <? h).
  - inversion Hfar as [|? ? Hkey Hfar']; subst. simpl in Hkey.
    rewrite Hkey, IH by exact Hfar'. reflexivity.
Qed.

Lemma merge_fly_far (frame_idx : Z) d (x y h : Z) (info : fly_info) :
  make_info frame_numbers sharpness_scores frame_idx (x, y, h) = Ok info ->
  Forall (fun item => is_near (fst item) x y = false) d ->
  merge_fly frame_numbers sharpness_scores frame_idx d (x, y, h)
  = Ok (d ++ [((x, y), info)]).
Proof.
  intros Hinfo Hfar. unfold merge_fly.
  rewrite update_similar_far by exact Hfar. cbn [bind]. rewrite Hinfo. reflexivity.
Qed.

Lemma merge_fly_near (frame_idx : Z) d1 (key : Z * Z) (e : fly_info) d2
    (x y h : Z) (info : fly_info) :
  make_info frame_numbers sharpness_scores frame_idx (x, y, h) = Ok info ->
  Forall (fun item => is_near (fst item) x y = false) d1 ->
  is_near key x y = true ->
  merge_fly frame_numbers sharpness_scores frame_idx (d1 ++ (key, e) :: d2) (x, y, h)
  = Ok (d1 ++ (key, if fi_height e <? h then info else e) :: d2).
Proof.
  intros Hinfo Hfar Hnear. unfold merge_fly.
  rewrite Hinfo, update_similar_near by assumption. reflexivity.
Qed.

End MergeFacts.

(** Three flies of three successive frames of one tube, the second and the
    third near the first: one fly is left, the first of the greatest
    height. *)
Lemma merge_three_near (f1 f2 f3 : fly) (n1 n2 n3 : Z) (s1 s2 s3 : Q) :
  is_near (fst f1) (fst (fst f2)) (snd (fst f2)) = true ->
  is_near (fst f1) (fst (fst f3)) (snd (fst f3)) = true ->
  merge_detection_results [[Some [f1]]; [Some [f2]]; [Some [f3]]]
    [n1; n2; n3] [s1; s2; s3]
  = Ok [Some [if Z.max (fly_height f1) (fly_height f2) <? fly_height f3 then f3
              else if fly_height f1 <? fly_height f2 then f2 else f1]].
Proof.
  destruct f1 as [[x1 y1] h1], f2 as [[x2 y2] h2], f3 as [[x3 y3] h3].
  cbn [fst snd fly_height]. intros H12 H13.
  unfold merge_detection_results.
  change (py_range (Z.of_nat (length [Some [(x1, y1, h1)]]))) with [0].
  cbn [foldM]. unfold merge_tube at 1. cbn [merge_frames].
  change (py_get [Some [(x1, y1, h1)]] 0) with (Ok (Some [(x1, y1, h1)])).
  change (py_get [Some [(x2, y2, h2)]] 0) with (Ok (Some [(x2, y2, h2)])).
  change (py_get [Some [(x3, y3, h3)]] 0) with (Ok (Some [(x3, y3, h3)])).
  cbn [bind foldM].
  pose proof (merge_fly_far [n1; n2; n3] [s1; s2; s3] 0 [] x1 y1 h1
                (mkInfo x1 y1 h1 0 n1 s1) eq_refl (List.Forall_nil _)) as Step1.
  cbn [app] in Step1. rewrite Step1. cbn [bind].
  pose proof (merge_fly_near [n1; n2; n3] [s1; s2; s3] (0 + 1) [] (x1, y1)
                (mkInfo x1 y1 h1 0 n1 s1) [] x2 y2 h2
                (mkInfo x2 y2 h2 (0 + 1) n2 s2) eq_refl (List.Forall_nil _) H12) as Step2.
  cbn [app fi_height] in Step2. rewrite Step2. cbn [bind].
  pose proof (merge_fly_near [n1; n2; n3] [s1; s2; s3] (0 + 1 + 1) [] (x1, y1)
                (if h1 <? h2 then mkInfo x2 y2 h2 (0 + 1) n2 s2
                 else mkInfo x1 y1 h1 0 n1 s1) [] x3 y3 h3
                (mkInfo x3 y3 h3 (0 + 1 + 1) n3 s3) eq_refl (List.Forall_nil _) H13) as Step3.
  cbn [app fi_height] in Step3. rewrite Step3.
  cbn [bind app map fi_height snd].
  destruct (Z.ltb_spec h1 h2) as [L12|L12]; cbn [fi_height fi_x fi_y].
  - rewrite Z.max_r by lia. destruct (h2 <? h3); reflexivity.
  - rewrite Z.max_l by lia. destruct (h1 <? h3); reflexivity.
Qed.

(** ** Manual correction and undo *)

Section CorrectionFacts.

Context {image : Type}.

Implicit Types ui : MultiTubeUI image.

Lemma py_index_same_length {B C : Type} (l : list B) (l' : list C) (i : Z) :
  length l = length l' -> py_index l i = py_index l' i.
Proof. intros H. unfold py_index. now rewrite H. Qed.

Lemma py_get_at {B : Type} (l : list B) (i : Z) (k : nat) (a : B) :
  py_index l i = Some k -> l !! k = Some a -> py_get l i = Ok a.
Proof. intros Hk Ha. unfold py_get. now rewrite Hk, Ha. Qed.

Lemma py_set_at {B : Type} (l : list B) (i : Z) (k : nat) (a : B) :
  py_index l i = Some k -> py_set l i a = Ok (<[k:=a]> l).
Proof. intros Hk. unfold py_set. now rewrite Hk. Qed.

Lemma py_get_insert {B : Type} (l : list B) (i : Z) (k : nat) (a : B) :
  py_index l i = Some k -> py_get (<[k:=a]> l) i = Ok a.
Proof.
  intros Hk. apply (py_get_at _ _ k).
  - rewrite <- Hk. apply py_index_same_length, length_insert.
  - apply list_lookup_insert_eq. now apply (py_index_lt l i).
Qed.




Lemma current_flies_with (st : MultiTubeFlyDetector image)
    (results : list (option (list fly))) (i : Z) :
  current_flies (with_detection_results st (Some results)) i
  = match py_get results i with Ok (Some flies) => flies | _ => [] end.
Proof. reflexivity. Qed.

(** In selection mode a tube index past the last region raises
    [IndexError]; a negative one down to [-len] counts from the end. *)
Lemma on_fly_selected_out_of_range ui (i : Z) (image_pos : Z * Z) :
  manual_selecting ui = true ->
  Z.of_nat (length (tube_regions (detector ui))) <= i ->
  on_fly_selected ui i image_pos = Raise IndexError.
Proof.
  intros Hmode Hi. unfold on_fly_selected. rewrite Hmode. cbn [negb].
  destruct image_pos as [fly_x fly_y].
  unfold py_get. rewrite py_index_nonneg by lia.
  destruct (Z.ltb_spec i (Z.of_nat (length (tube_regions (detector ui))))); [lia|].
  reflexivity.
Qed.

End CorrectionFacts.

(** ** The statements on the samples *)

Lemma detect_all_tubes_without_background_raises_witness :
  well_formed sample_detector_no_background /\
  background_frame sample_detector_no_background = None /\
  0 <= 0 < tube_count sample_detector_no_background /\
  py_get (tube_regions sample_detector_no_background) 0 = Ok (Some (100, 100, 50, 300)) /\
  detect_all_tubes sample_contours sample_detector_no_background [sample_blob]
  = Raise TypeError.
Proof.
  assert (Hwf : well_formed sample_detector_no_background) by (repeat split).
  assert (Hi : 0 <= 0 < tube_count sample_detector_no_background) by (simpl; lia).
  split; [exact Hwf|]. split; [reflexivity|]. split; [exact Hi|]. split; [reflexivity|].
  apply (detect_all_tubes_without_background_raises sample_contours
           sample_detector_no_background [sample_blob] 0 (100, 100, 50, 300));
    [exact Hwf|reflexivity|exact Hi|reflexivity].
Defined.

(** C2 fails as stated: a second pass over the same frame leaves the
    history [[200]], not the history of the first pass extended with the
    height 200 it observed. *)
Lemma detection_history_is_not_extended :
  detect_all_tubes sample_contours sample_detector [sample_blob]
  = Ok (sample_detector_after_pass, [[(125, 200, 200)]]) /\
  detect_all_tubes sample_contours sample_detector_after_pass [sample_blob]
  = Ok (sample_detector_after_pass, [[(125, 200, 200)]]) /\
  detection_history sample_detector_after_pass
  <> [[200] ++ map fly_height [(125, 200, 200)]].
Proof.
  split; [vm_compute; reflexivity|]. split; [vm_compute; reflexivity|]. discriminate.
Qed.

Lemma detection_history_is_the_last_pass_witness :
  detect_all_tubes sample_contours sample_detector [sample_blob]
  = Ok (sample_detector_after_pass, [[(125, 200, 200)]]) /\
  detect_all_tubes sample_contours sample_detector_after_pass [sample_blob]
  = Ok (sample_detector_after_pass, [[(125, 200, 200)]]) /\
  0 <= 0 < tube_count sample_detector /\
  exists flies,
    py_get [[(125, 200, 200)]] 0 = Ok flies /\
    py_get (detection_history sample_detector_after_pass) 0 = Ok (map fly_height flies).
Proof.
  assert (H1 : detect_all_tubes sample_contours sample_detector [sample_blob]
               = Ok (sample_detector_after_pass, [[(125, 200, 200)]]))
    by (vm_compute; reflexivity).
  assert (H2 : detect_all_tubes sample_contours sample_detector_after_pass [sample_blob]
               = Ok (sample_detector_after_pass, [[(125, 200, 200)]]))
    by (vm_compute; reflexivity).
  assert (Hi : 0 <= 0 < tube_count sample_detector) by (simpl; lia).
  split; [exact H1|]. split; [exact H2|]. split; [exact Hi|].
  exact (detection_history_is_the_last_pass sample_contours sample_detector
           [sample_blob] [sample_blob] _ _ _ _ H1 H2 0 Hi).
Defined.

Lemma out_of_range_index_is_ignored_witness :
  ~ (0 <= 10 < tube_count (@init (list contour) 5)) /\
  set_tube_region (@init (list contour) 5) 10 (Some (100, 100, 200, 200)) = Ok (init 5) /\
  set_genotype_name (@init (list contour) 5) 10 "w1118" = Ok (init 5) /\
  get_max_height (@init (list contour) 5) 10 = Ok 0 /\
  get_avg_height (@init (list contour) 5) 10 = Ok 0%Q /\
  get_current_height (@init (list contour) 5) 10 = Ok 0 /\
  get_tube_height (@init (list contour) 5) 10 = Ok 0.
Proof.
  assert (Hi : ~ (0 <= 10 < tube_count (@init (list contour) 5))) by (simpl; lia).
  split; [exact Hi|].
  exact (out_of_range_index_is_ignored (init 5) 10 (Some (100, 100, 200, 200)) "w1118" Hi).
Defined.

Lemma set_tube_count_below_one_is_accepted_witness :
  0 < 1 /\
  exists st', set_tube_count (@init (list contour) 5) 0 = Ok st' /\
    tube_count st' = 0 /\
    tube_regions st' = [] /\ genotype_names st' = [] /\ fly_positions st' = [] /\
    climbing_heights st' = [] /\ max_heights st' = [] /\ avg_heights st' = [] /\
    detection_history st' = [].
Proof.
  assert (Hn : 0 < 1) by lia.
  split; [exact Hn|].
  exact (set_tube_count_below_one_is_accepted (@init (list contour) 5) 0 Hn).
Defined.

(** C5 fails as stated: the fly [(16, 0, 5)] is at 8 pixels of the fly
    [(8, 0, 20)] that represents the only cluster, and yet it is not merged
    into it, since it is at 16 pixels of the cluster's key [(0, 0)]. *)
Lemma merge_ignores_the_representative :
  is_near (8, 0) 16 0 = true /\
  merge_detection_results
    [[Some [(0, 0, 10)]]; [Some [(8, 0, 20)]]; [Some [(16, 0, 5)]]]
    [1; 2; 3] [1%Q; 1%Q; 1%Q]
  = Ok [Some [(8, 0, 20); (16, 0, 5)]].
Proof. split; vm_compute; reflexivity. Qed.

(** C6 fails as stated: the window of [sample_ui_gap] is [0 .. 3], the
    scan records frames 1, 2 and 3, and two frames are returned. *)
Lemma top_3_returns_two_frames :
  window_start sample_ui_gap = 0 /\
  window_end sample_ui_gap = 3 /\
  map fs_frame_number (snd (scan_window sample_sharpness sample_ui_gap)) = [1; 2; 3] /\
  exists ui',
    get_top_3_sharpest_frames sample_sharpness sample_ui_gap
    = Ok (ui', ([9%Q; 8%Q], [1; 2], [9%Q; 8%Q])).
Proof.
  split; [reflexivity|]. split; [reflexivity|]. split; [vm_compute; reflexivity|].
  eexists. vm_compute. reflexivity.
Qed.

Lemma top_3_sharpest_frames_witness :
  snd (scan_window sample_sharpness sample_ui) <> [] /\
  map fs_frame_number (snd (scan_window sample_sharpness sample_ui))
    = py_range2 (window_start sample_ui) (window_end sample_ui + 1) /\
  window_start sample_ui + 2 <= window_end sample_ui /\
  exists ui' frames nums scores,
    get_top_3_sharpest_frames sample_sharpness sample_ui
    = Ok (ui', (frames, nums, scores)) /\
    StronglySorted Z.le nums /\
    exists a, nums = [a; a + 1; a + 2] /\
      window_start sample_ui <= a /\ a + 2 <= window_end sample_ui.
Proof.
  assert (Hne : snd (scan_window sample_sharpness sample_ui) <> [])
    by (vm_compute; discriminate).
  assert (Hall : map fs_frame_number (snd (scan_window sample_sharpness sample_ui))
                 = py_range2 (window_start sample_ui) (window_end sample_ui + 1))
    by (vm_compute; reflexivity).
  assert (Hthree : window_start sample_ui + 2 <= window_end sample_ui)
    by (vm_compute; discriminate).
  split; [exact Hne|]. split; [exact Hall|]. split; [exact Hthree|].
  destruct (top_3_sharpest_frames sample_sharpness sample_ui Hne)
    as (ui' & frames & nums & scores & _ & _ & _ & Hrun & _ & _ & _ & _ & _ & _ & _ & _
        & Hsorted & _ & Hconsecutive).
  exists ui', frames, nums, scores. split; [exact Hrun|]. split; [exact Hsorted|].
  exact (Hconsecutive Hall Hthree).
Defined.


(** C8 fails as stated: the only tube of [sample_detector_region_unset]
    has the history [[55]] and gets no entry. *)
Lemma compare_genotypes_skips_unset_region :
  py_get (detection_history sample_detector_region_unset) 0 = Ok [55] /\
  compare_genotypes sample_detector_region_unset = Ok [].
Proof. split; reflexivity. Qed.

Lemma compare_genotypes_lists_set_regions_witness :
  well_formed sample_detector_three /\
  exists entries,
    compare_genotypes sample_detector_three = Ok entries /\
    map gd_index entries = [1; 0; 2] /\
    NoDup (map gd_index entries) /\
    StronglySorted genotype_order entries.
Proof.
  assert (Hwf : well_formed sample_detector_three) by (repeat split).
  split; [exact Hwf|].
  destruct (compare_genotypes_lists_set_regions sample_detector_three Hwf)
    as (entries & Hrun & _ & _ & Hnodup & Hsorted).
  exists entries. split; [exact Hrun|]. split; [|split; [exact Hnodup|exact Hsorted]].
  assert (E : compare_genotypes sample_detector_three
              = Ok [mkEntry (default_name 1) 1 80 70 70;
                    mkEntry (default_name 0) 0 60 50 50;
                    mkEntry (default_name 2) 2 50 50 50]) by (vm_compute; reflexivity).
  rewrite E in Hrun. injection Hrun as <-. reflexivity.
Defined.

Lemma auto_detect_tubes_equal_split_witness :
  1 <= 4 /\
  exists st',
    auto_detect_tubes sample_shape (init 5) [] (Some (100, 50, 400, 300)) (Some 4)
    = Ok (st', [(100, 50, 100, 300); (200, 50, 100, 300);
                (300, 50, 100, 300); (400, 50, 100, 300)]) /\
    tube_count st' = 4.
Proof.
  assert (Hn : 1 <= 4) by lia.
  split; [exact Hn|].
  destruct (auto_detect_tubes_equal_split sample_shape (init 5) [] 100 50 400 300
              (Some 4) 4 eq_refl Hn)
    as (st' & regions & Hrun & Hcount & _).
  exists st'. split; [|exact Hcount].
  rewrite Hrun. f_equal. f_equal.
  assert (E : exists st0, auto_detect_tubes sample_shape (init 5) []
                (Some (100, 50, 400, 300)) (Some 4)
              = Ok (st0, [(100, 50, 100, 300); (200, 50, 100, 300);
                          (300, 50, 100, 300); (400, 50, 100, 300)]))
    by (eexists; vm_compute; reflexivity).
  destruct E as (st0 & E). rewrite E in Hrun. now injection Hrun as _ <-.
Defined.

Lemma set_tube_count_discards_everything_witness :
  exists st',
    set_tube_count sample_detector_after_pass 1 = Ok st' /\
    tube_count st' = 1 /\
    py_get (tube_regions st') 0 = Ok None /\
    py_get (max_heights st') 0 = Ok 0 /\
    py_get (detection_history st') 0 = Ok [].
Proof.
  destruct (set_tube_count_discards_everything sample_detector_after_pass 1)
    as (st' & Hrun & Hcount & _ & Hall).
  assert (Hi : 0 <= 0 < 1) by lia.
  destruct (Hall 0 Hi) as (Hregion & _ & _ & _ & Hmax & _ & Hhistory).
  exists st'. split; [exact Hrun|]. split; [exact Hcount|].
  split; [exact Hregion|]. split; [exact Hmax|exact Hhistory].
Defined.

(** ** Invariants of the cross-frame merge *)

Section MergeInvariants.

Variables (frame_numbers : list Z) (sharpness_scores : list Q).

Implicit Types d : list ((Z * Z) * fly_info).

Lemma first_near_key d (x y : Z) :
  Forall (fun item => is_near (fst item) x y = false) d \/
  exists d1 key e d2,
    d = d1 ++ (key, e) :: d2 /\
    Forall (fun item => is_near (fst item) x y = false) d1 /\
    is_near key x y = true.
Proof.
  induction d as [|[key e] d IH].
  - left. constructor.
  - destruct (is_near key x y) eqn:E.
    + right. exists [], key, e, d. repeat split; [constructor|exact E].
    + destruct IH as [Hfar|(d1 & key' & e' & d2 & -> & Hfar & Hnear)].
      * left. now constructor.
      * right. exists ((key, e) :: d1), key', e', d2.
        repeat split; [now constructor|exact Hnear].
Qed.

Lemma update_similar_first_near (new_info : M fly_info) (x y h : Z) d1 (key : Z * Z)
    (e : fly_info) d2 :
  Forall (fun item => is_near (fst item) x y = false) d1 ->
  is_near key x y = true ->
  update_similar new_info (x, y, h) (d1 ++ (key, e) :: d2)
  = if fi_height e <? h
    then do info <- new_info; Ok (Some (d1 ++ (key, info) :: d2))
    else Ok (Some (d1 ++ (key, e) :: d2)).
Proof.
  intros Hfar Hnear. induction d1 as [|[key1 e1] d1 IH]; simpl.
  - now rewrite Hnear.
  - inversion Hfar as [|? ? Hkey Hfar']; subst. simpl in Hkey.
    rewrite Hkey, IH by exact Hfar'.
    destruct (fi_height e <? h); [|reflexivity].
    now destruct new_info.
Qed.

(** What one fly does to the dictionary, read off a call that returned. *)
Lemma merge_fly_cases (frame_idx : Z) d (x y h : Z) d' :
  merge_fly frame_numbers sharpness_scores frame_idx d (x, y, h) = Ok d' ->
  (Forall (fun item => is_near (fst item) x y = false) d /\
   exists info, fly_of_info info = (x, y, h) /\ d' = d ++ [((x, y), info)]) \/
  (exists d1 key e d2,
     d = d1 ++ (key, e) :: d2 /\ is_near key x y = true /\
     ((fi_height e < h /\ exists info, fly_of_info info = (x, y, h) /\
         d' = d1 ++ (key, info) :: d2) \/
      (h <= fi_height e /\ d' = d))).
Proof.
  intros H. unfold merge_fly in H.
  destruct (first_near_key d x y) as [Hfar|(d1 & key & e & d2 & -> & Hfar & Hnear)].
  - left. split; [exact Hfar|].
    rewrite update_similar_far in H by exact Hfar. cbn [bind] in H.
    apply bind_Ok in H as (info & Hinfo & H). injection H as <-.
    exists info. split; [|reflexivity].
    now apply (make_info_fields frame_numbers sharpness_scores frame_idx).
  - right. exists d1, key, e, d2. split; [reflexivity|]. split; [exact Hnear|].
    rewrite update_similar_first_near in H by assumption.
    destruct (Z.ltb_spec (fi_height e) h) as [Hlt|Hge].
    + left. split; [exact Hlt|].
      apply bind_Ok in H as (r & Hr & H).
      apply bind_Ok in Hr as (info & Hinfo & Hr). injection Hr as <-.
      injection H as <-. exists info. split; [|reflexivity].
      now apply (make_info_fields frame_numbers sharpness_scores frame_idx).
    + right. split; [exact Hge|]. cbn [bind] in H. now injection H as <-.
Qed.

Lemma merged_from_step (frame_idx : Z) (seen : list fly) d (f : fly) d' :
  merged_from seen d ->
  merge_fly frame_numbers sharpness_scores frame_idx d f = Ok d' ->
  merged_from (seen ++ [f]) d'.
Proof.
  intros (Hlen & Hne & Hfrom & Hcover & Hkeys) H.
  destruct f as [[x y] h].
  apply merge_fly_cases in H
    as [(Hfar & info & Hinfo & ->)
       |(d1 & key & e & d2 & -> & Hnear & [(Hlt & info & Hinfo & ->)|(Hge & ->)])].
  - (* a new cluster *)
    unfold merged_from. rewrite !length_app, map_app. cbn [length map fst].
    split; [lia|]. split; [intros _; now destruct d|]. split; [|split].
    + intros item Hin. apply in_app_or in Hin as [Hin|[<-|[]]]; apply in_or_app.
      * left. now apply Hfrom.
      * right. left. now rewrite <- Hinfo.
    + intros f Hf. apply in_app_or in Hf as [Hf|[<-|[]]].
      * destruct (Hcover f Hf) as (item & Hin & Hle). exists item.
        split; [apply in_or_app; now left|exact Hle].
      * exists ((x, y), info). split; [apply in_or_app; right; now left|].
        cbn [snd]. injection Hinfo as _ _ ->. unfold fly_height. simpl. lia.
    + apply StronglySorted_app. split; [|split; [exact Hkeys|repeat constructor]].
      intros k1 k2 Hk1 Hk2. apply list_elem_of_In in Hk1, Hk2.
      destruct Hk2 as [<-|[]]. apply in_map_iff in Hk1 as (item & <- & Hitem).
      rewrite List.Forall_forall in Hfar. now apply Hfar.
  - (* the cluster takes the higher fly *)
    unfold merged_from in *. rewrite !length_app, !map_app in *.
    cbn [length map fst] in *.
    split; [lia|]. split; [intros _; now destruct d1|]. split; [|split].
    + intros item Hin. apply in_or_app.
      apply in_app_or in Hin as [Hin|[<-|Hin]].
      * left. apply Hfrom. apply in_or_app. now left.
      * right. left. now rewrite <- Hinfo.
      * left. apply Hfrom. apply in_or_app. right. now right.
    + assert (Hh : fi_height info = h).
      { injection Hinfo as _ _ ->. reflexivity. }
      intros f Hf. apply in_app_or in Hf as [Hf|[<-|[]]].
      * destruct (Hcover f Hf) as (item & Hin & Hle).
        apply in_app_or in Hin as [Hin|[<-|Hin]].
        -- exists item. split; [apply in_or_app; now left|exact Hle].
        -- exists (key, info). split; [apply in_or_app; right; now left|].
           cbn [snd] in *. lia.
        -- exists item. split; [apply in_or_app; right; now right|exact Hle].
      * exists (key, info). split; [apply in_or_app; right; now left|].
        cbn [snd]. unfold fly_height. simpl. lia.
    + exact Hkeys.
  - (* the cluster keeps its fly *)
    unfold merged_from in *. rewrite !length_app in *. cbn [length] in *.
    split; [lia|]. split; [intros _; now destruct d1|]. split; [|split].
    + intros item Hin. apply in_or_app. left. now apply Hfrom.
    + intros f Hf. apply in_app_or in Hf as [Hf|[<-|[]]]; [now apply Hcover|].
      exists (key, e). split; [apply in_or_app; right; now left|].
      cbn [snd]. unfold fly_height. simpl. lia.
    + exact Hkeys.
Qed.

Lemma merged_from_flies (frame_idx : Z) (flies seen : list fly) d d' :
  merged_from seen d ->
  foldM (merge_fly frame_numbers sharpness_scores frame_idx) d flies = Ok d' ->
  merged_from (seen ++ flies) d'.
Proof.
  revert seen d. induction flies as [|f flies IH]; intros seen d Hd H; simpl in H.
  - injection H as <-. now rewrite app_nil_r.
  - apply bind_Ok in H as (d1 & Hstep & H).
    replace (seen ++ f :: flies) with ((seen ++ [f]) ++ flies) by (now rewrite <- app_assoc).
    apply (IH _ d1); [|exact H]. now apply (merged_from_step frame_idx _ d).
Qed.

Lemma merged_from_frames (tube_idx frame_idx : Z)
    (frames : list (list (option (list fly)))) (seen : list fly) d d' :
  merged_from seen d ->
  merge_frames frame_numbers sharpness_scores tube_idx frame_idx frames d = Ok d' ->
  merged_from (seen ++ tube_flies frames tube_idx) d'.
Proof.
  revert frame_idx seen d. induction frames as [|fr frames IH];
    intros frame_idx seen d Hd H; simpl in H.
  - injection H as <-. unfold tube_flies. simpl. now rewrite app_nil_r.
  - apply bind_Ok in H as (entry & Hentry & H).
    apply bind_Ok in H as (d1 & Hflies & H).
    unfold tube_flies. cbn [flat_map]. rewrite Hentry, app_assoc.
    apply (IH (frame_idx + 1) _ d1); [|exact H].
    destruct entry as [flies|].
    + now apply (merged_from_flies frame_idx _ _ d).
    + injection Hflies as <-. now rewrite app_nil_r.
Qed.

Lemma merged_from_nil : merged_from [] [].
Proof. repeat split; try (intros; contradiction); constructor. Qed.

(** The entry [merge_tube] appends for a dictionary. *)
Lemma merge_tube_entry (frames : list (list (option (list fly))))
    (acc : list (option (list fly))) (t : Z) out :
  merge_tube frame_numbers sharpness_scores frames acc t = Ok out ->
  exists d,
    merge_frames frame_numbers sharpness_scores t 0 frames [] = Ok d /\
    out = acc ++ [match map (fun item => fly_of_info (snd item)) d with
                  | [] => None
                  | f :: l => Some (f :: l)
                  end].
Proof.
  intros H. unfold merge_tube in H. apply bind_Ok in H as (d & Hd & H).
  exists d. split; [exact Hd|]. injection H as <-. now destruct d.
Qed.

Lemma merge_loop (frames : list (list (option (list fly)))) (m k : nat)
    (acc out : list (option (list fly))) :
  foldM (merge_tube frame_numbers sharpness_scores frames) acc
    (map Z.of_nat (seq k m)) = Ok out ->
  exists new,
    out = acc ++ new /\ length new = m /\
    forall j entry, new !! j = Some entry ->
      exists d,
        merge_frames frame_numbers sharpness_scores (Z.of_nat (k + j)) 0 frames [] = Ok d /\
        entry = match map (fun item => fly_of_info (snd item)) d with
                | [] => None
                | f :: l => Some (f :: l)
                end.
Proof.
  revert k acc. induction m as [|m IH]; intros k acc H; simpl in H.
  - injection H as <-. exists []. rewrite app_nil_r. repeat split. intros; discriminate.
  - apply bind_Ok in H as (acc1 & Hstep & H).
    apply merge_tube_entry in Hstep as (d & Hd & ->).
    apply IH in H as (new & -> & Hlen & Hnew).
    eexists (_ :: new). rewrite <- app_assoc. split; [reflexivity|].
    split; [simpl; now rewrite Hlen|].
    intros [|j] entry Hj; simpl in Hj.
    + injection Hj as <-. exists d. rewrite Nat.add_0_r. now split.
    + destruct (Hnew j entry Hj) as (d0 & Hd0 & ->). exists d0.
      replace (k + S j)%nat with (S k + j)%nat by lia. now split.
Qed.

(** An entry of the merged result is the content of the dictionary that
    the frames give for its tube, which is a merge of that tube's flies. *)
Lemma merge_detection_results_entry (frames : list (list (option (list fly))))
    (merged : list (option (list fly))) :
  merge_detection_results frames frame_numbers sharpness_scores = Ok merged ->
  length merged = match frames with [] => 0%nat | first :: _ => length first end /\
  forall t entry, merged !! t = Some entry ->
    exists d,
      merged_from (tube_flies frames (Z.of_nat t)) d /\
      entry = match map (fun item => fly_of_info (snd item)) d with
              | [] => None
              | f :: l => Some (f :: l)
              end.
Proof.
  intros H. unfold merge_detection_results in H. rewrite py_range_nat in H.
  apply merge_loop in H as (new & -> & Hlen & Hnew). simpl. split.
  - rewrite Hlen. destruct frames; [reflexivity|apply Nat2Z.id].
  - intros t entry Ht. destruct (Hnew t entry Ht) as (d & Hd & ->).
    exists d. split; [|reflexivity].
    apply (merged_from_frames (Z.of_nat t) 0 frames [] []) in Hd; [exact Hd|].
    apply merged_from_nil.
Qed.

(** The merged result has one entry per tube of the first frame. A tube
    with no fly in any frame gets [None]; any other tube gets a non-empty
    list with at most as many flies as the frames list for it. *)
Theorem merge_never_adds_flies (frames : list (list (option (list fly))))
    (merged : list (option (list fly))) :
  merge_detection_results frames frame_numbers sharpness_scores = Ok merged ->
  length merged = match frames with [] => 0%nat | first :: _ => length first end /\
  forall t entry, merged !! t = Some entry ->
    (entry = None <-> tube_flies frames (Z.of_nat t) = []) /\
    forall flies, entry = Some flies ->
      flies <> [] /\ (length flies <= length (tube_flies frames (Z.of_nat t)))%nat.
Proof.
  intros H. apply merge_detection_results_entry in H as [Hlen Hentry].
  split; [exact Hlen|]. intros t entry Ht.
  destruct (Hentry t entry Ht) as (d & (Hcount & Hne & _) & ->).
  destruct d as [|item d]; simpl.
  - split.
    + split; [intros _|reflexivity].
      destruct (tube_flies frames (Z.of_nat t)); [reflexivity|].
      exfalso. now apply Hne.
    + intros flies Hflies. discriminate.
  - split.
    + split; [discriminate|]. intros Hnil. rewrite Hnil in Hcount. simpl in Hcount. lia.
    + intros flies [= <-]. split; [discriminate|].
      simpl in *. now rewrite length_map.
Qed.

(** Every merged fly is one of the flies the frames list for its tube:
    the merge invents no position and no height. *)
Theorem merge_keeps_observed_flies (frames : list (list (option (list fly))))
    (merged : list (option (list fly))) (t : nat) (flies : list fly) (f : fly) :
  merge_detection_results frames frame_numbers sharpness_scores = Ok merged ->
  merged !! t = Some (Some flies) ->
  In f flies ->
  In f (tube_flies frames (Z.of_nat t)).
Proof.
  intros H Ht Hf. apply merge_detection_results_entry in H as [_ Hentry].
  destruct (Hentry t _ Ht) as (d & (_ & _ & Hfrom & _) & Heq).
  destruct d as [|item d]; [discriminate|]. injection Heq as ->.
  change (In f (map (fun item => fly_of_info (snd item)) (item :: d))) in Hf.
  apply in_map_iff in Hf as (item' & <- & Hitem). now apply Hfrom.
Qed.

(** Every fly the frames list for a tube is matched in the merged result
    of that tube by a fly at least as high: the greatest height observed
    in a tube survives the merge. *)
Theorem merge_keeps_the_greatest_height (frames : list (list (option (list fly))))
    (merged : list (option (list fly))) (t : nat) (entry : option (list fly)) (f : fly) :
  merge_detection_results frames frame_numbers sharpness_scores = Ok merged ->
  merged !! t = Some entry ->
  In f (tube_flies frames (Z.of_nat t)) ->
  exists flies g, entry = Some flies /\ In g flies /\ fly_height f <= fly_height g.
Proof.
  intros H Ht Hf. apply merge_detection_results_entry in H as [_ Hentry].
  destruct (Hentry t _ Ht) as (d & (_ & _ & _ & Hcover & _) & ->).
  destruct (Hcover f Hf) as (item & Hitem & Hle).
  destruct d as [|item0 d]; [contradiction|].
  eexists _, (fly_of_info (snd item)). split; [reflexivity|]. split; [|exact Hle].
  change (In (fly_of_info (snd item))
            (map (fun item => fly_of_info (snd item)) (item0 :: d))).
  exact (in_map (fun item => fly_of_info (snd item)) _ _ Hitem).
Qed.

Lemma is_near_self (k : Z * Z) : is_near k (fst k) (snd k) = true.
Proof. destruct k as [x y]. unfold is_near. simpl. now rewrite !Z.sub_diag. Qed.

(** The keys of the dictionary of a tube are pairwise 10 pixels apart or
    more, hence distinct: the entry made for a new cluster never replaces
    an existing one. *)
Theorem merge_keys_stay_apart (tube_idx : Z) (frames : list (list (option (list fly)))) d :
  merge_frames frame_numbers sharpness_scores tube_idx 0 frames [] = Ok d ->
  StronglySorted key_far (map fst d) /\ NoDup (map fst d).
Proof.
  intros H. apply (merged_from_frames tube_idx 0 frames [] []) in H; [|apply merged_from_nil].
  destruct H as (_ & _ & _ & _ & Hkeys). split; [exact Hkeys|].
  induction Hkeys as [|k keys Hsorted IH Hfar]; constructor; [|exact IH].
  rewrite list_elem_of_In. intros Hin.
  rewrite List.Forall_forall in Hfar. specialize (Hfar k Hin).
  unfold key_far in Hfar. rewrite is_near_self in Hfar. discriminate.
Qed.

Lemma merge_fly_returns (frame_idx : Z) d (f : fly) (info : fly_info) :
  make_info frame_numbers sharpness_scores frame_idx f = Ok info ->
  exists d', merge_fly frame_numbers sharpness_scores frame_idx d f = Ok d'.
Proof.
  intros Hinfo. destruct f as [[x y] h]. unfold merge_fly. rewrite Hinfo.
  destruct (first_near_key d x y) as [Hfar|(d1 & key & e & d2 & -> & Hfar & Hnear)].
  - rewrite update_similar_far by exact Hfar. simpl. eauto.
  - rewrite update_similar_first_near by assumption.
    destruct (fi_height e <? h); simpl; eauto.
Qed.

Lemma make_info_returns (frame_idx : Z) (f : fly) :
  0 <= frame_idx < Z.of_nat (length frame_numbers) ->
  frame_idx < Z.of_nat (length sharpness_scores) ->
  exists info, make_info frame_numbers sharpness_scores frame_idx f = Ok info.
Proof.
  intros Hn Hs. destruct f as [[x y] h]. unfold make_info.
  destruct (py_get_in_range frame_numbers frame_idx Hn) as [n ->].
  destruct (py_get_in_range sharpness_scores frame_idx) as [q ->]; [lia|].
  simpl. eauto.
Qed.

Lemma merge_flies_return (frame_idx : Z) (flies : list fly) d :
  0 <= frame_idx < Z.of_nat (length frame_numbers) ->
  frame_idx < Z.of_nat (length sharpness_scores) ->
  exists d', foldM (merge_fly frame_numbers sharpness_scores frame_idx) d flies = Ok d'.
Proof.
  intros Hn Hs. revert d. induction flies as [|f flies IH]; intros d; simpl; [eauto|].
  destruct (make_info_returns frame_idx f Hn Hs) as [info Hinfo].
  destruct (merge_fly_returns frame_idx d f info Hinfo) as [d1 ->]. simpl. apply IH.
Qed.

Lemma merge_frames_return (tube_idx frame_idx : Z)
    (frames : list (list (option (list fly)))) d :
  0 <= frame_idx ->
  frame_idx + Z.of_nat (length frames) <= Z.of_nat (length frame_numbers) ->
  frame_idx + Z.of_nat (length frames) <= Z.of_nat (length sharpness_scores) ->
  Forall (fun fr => 0 <= tube_idx < Z.of_nat (length fr)) frames ->
  exists d', merge_frames frame_numbers sharpness_scores tube_idx frame_idx frames d = Ok d'.
Proof.
  revert frame_idx d. induction frames as [|fr frames IH];
    intros frame_idx d Hk Hn Hs Hshape; simpl; [eauto|].
  inversion Hshape as [|? ? Hfr Hshape']; subst. cbn [length] in Hn, Hs.
  destruct (py_get_in_range fr tube_idx Hfr) as [entry ->]. cbn [bind].
  assert (Hstep : exists d1,
            match entry with
            | Some flies =>
                foldM (merge_fly frame_numbers sharpness_scores frame_idx) d flies
            | None => Ok d
            end = Ok d1).
  { destruct entry as [flies|]; [|eauto]. apply merge_flies_return; lia. }
  destruct Hstep as [d1 ->]. cbn [bind]. apply IH; trivial; lia.
Qed.

Lemma merge_tubes_return (frames : list (list (option (list fly)))) (l : list Z)
    (acc : list (option (list fly))) :
  (length frames <= length frame_numbers)%nat ->
  (length frames <= length sharpness_scores)%nat ->
  Forall (fun t => Forall (fun fr => 0 <= t < Z.of_nat (length fr)) frames) l ->
  exists out, foldM (merge_tube frame_numbers sharpness_scores frames) acc l = Ok out.
Proof.
  intros Hn Hs. revert acc. induction l as [|t l IH]; intros acc Hl; simpl; [eauto|].
  inversion Hl as [|? ? Ht Hl']; subst.
  unfold merge_tube at 1.
  destruct (merge_frames_return t 0 frames [] (Z.le_refl 0)) as [d ->];
    [lia|lia|exact Ht|].
  cbn [bind]. now apply IH.
Qed.

(** When every frame lists at least as many tubes as the first one and
    there are a frame number and a score for every frame, the merge
    returns. *)
Theorem merge_returns (frames : list (list (option (list fly)))) :
  frames_well_shaped frames frame_numbers sharpness_scores ->
  exists merged, merge_detection_results frames frame_numbers sharpness_scores = Ok merged.
Proof.
  intros (Hn & Hs & Hshape). unfold merge_detection_results.
  apply merge_tubes_return; [exact Hn|exact Hs|].
  apply List.Forall_forall. intros t Ht. apply py_range_In in Ht.
  destruct frames as [|first frames']; [constructor|].
  eapply List.Forall_impl; [|exact Hshape]. simpl. intros fr Hfr. lia.
Qed.

End MergeInvariants.

(** ** The merge and the clusters of the specification *)

Section MergeRefinement.

Variables (frame_numbers : list Z) (sharpness_scores : list Q).

Implicit Types d : list ((Z * Z) * fly_info).

Lemma update_similar_refines (new_info : M fly_info) (f : fly) d
    (r : option (list ((Z * Z) * fly_info))) :
  (forall info, new_info = Ok info -> fly_of_info info = f) ->
  update_similar new_info f d = Ok r ->
  option_map (map cluster_of_item) r = spec_join_cluster f (map cluster_of_item d).
Proof.
  intros Hinfo. revert r. induction d as [|[key e] d IH]; intros r H.
  - simpl in H. now injection H as <-.
  - destruct f as [[x y] h]. cbn [update_similar] in H.
    cbn [map spec_join_cluster cluster_of_item fst snd].
    destruct (is_near key x y).
    + change (fly_height (fly_of_info e)) with (fi_height e).
      change (fly_height (x, y, h)) with h.
      destruct (fi_height e <? h).
      * apply bind_Ok in H as (info & Hnew & H). injection H as <-.
        now rewrite <- (Hinfo info Hnew).
      * now injection H as <-.
    + apply bind_Ok in H as (r0 & Hr0 & H). injection H as <-.
      rewrite <- (IH r0 Hr0). now destruct r0.
Qed.

Lemma merge_fly_refines (frame_idx : Z) d (f : fly) d' :
  merge_fly frame_numbers sharpness_scores frame_idx d f = Ok d' ->
  map cluster_of_item d' = spec_add_fly (map cluster_of_item d) f.
Proof.
  unfold merge_fly, spec_add_fly. intros H.
  apply bind_Ok in H as (r & Hr & H).
  apply update_similar_refines in Hr.
  - rewrite <- Hr. destruct r as [updated|]; cbn [option_map].
    + now injection H as <-.
    + apply bind_Ok in H as (info & Hinfo & H). injection H as <-.
      apply make_info_fields in Hinfo. destruct f as [[x y] h].
      injection Hinfo as <- <- <-. now rewrite map_app.
  - intros info Hinfo. now apply make_info_fields in Hinfo.
Qed.

Lemma merge_flies_refine (frame_idx : Z) (flies : list fly) d d' :
  foldM (merge_fly frame_numbers sharpness_scores frame_idx) d flies = Ok d' ->
  map cluster_of_item d' = fold_left spec_add_fly flies (map cluster_of_item d).
Proof.
  revert d. induction flies as [|f flies IH]; intros d H; simpl in H.
  - now injection H as <-.
  - apply bind_Ok in H as (d1 & Hstep & H). cbn [fold_left].
    rewrite <- (merge_fly_refines _ _ _ _ Hstep). now apply IH.
Qed.

(** The dictionary of a tube is built from the flies of the frames taken
    one frame after the other and, within a frame, one fly after the
    other. *)
Lemma merge_frames_refine (tube_idx frame_idx : Z)
    (frames : list (list (option (list fly)))) d d' :
  merge_frames frame_numbers sharpness_scores tube_idx frame_idx frames d = Ok d' ->
  map cluster_of_item d'
  = fold_left spec_add_fly (tube_flies frames tube_idx) (map cluster_of_item d).
Proof.
  revert frame_idx d. induction frames as [|fr frames IH]; intros frame_idx d H;
    simpl in H.
  - now injection H as <-.
  - apply bind_Ok in H as (entry & Hentry & H).
    apply bind_Ok in H as (d1 & Hflies & H).
    unfold tube_flies. cbn [flat_map]. rewrite Hentry, fold_left_app.
    fold (tube_flies frames tube_idx). rewrite (IH _ _ H). f_equal.
    destruct entry as [flies|].
    + now apply merge_flies_refine in Hflies.
    + now injection Hflies as <-.
Qed.

(** C5, as the code has it. The merged entry of a tube is what the
    clusters give on the flies the frames list for that tube, taken in
    frame order and, within a frame, in the order of their discovery: a
    fly is compared with the keys of the clusters, which are the positions
    of the flies that founded them, in the order of their creation; with
    no key at less than 10 pixels it founds a new, last cluster; otherwise
    the first cluster with such a key takes it, the fly replaces the
    cluster's fly when it is strictly higher, and the key stays. Three
    flies of three frames of one tube, the second and the third near the
    first, of heights 40, 55 and 38, leave exactly the fly of height
    55. *)
Theorem merge_compares_with_cluster_keys :
  (forall frames merged t entry,
     merge_detection_results frames frame_numbers sharpness_scores = Ok merged ->
     merged !! t = Some entry ->
     entry = spec_entry (spec_merge (tube_flies frames (Z.of_nat t)))) /\
  (forall frame_idx d x y h info,
     make_info frame_numbers sharpness_scores frame_idx (x, y, h) = Ok info ->
     Forall (fun item => is_near (fst item) x y = false) d ->
     merge_fly frame_numbers sharpness_scores frame_idx d (x, y, h)
     = Ok (d ++ [((x, y), info)])) /\
  (forall frame_idx d1 key e d2 x y h info,
     make_info frame_numbers sharpness_scores frame_idx (x, y, h) = Ok info ->
     Forall (fun item => is_near (fst item) x y = false) d1 ->
     is_near key x y = true ->
     merge_fly frame_numbers sharpness_scores frame_idx (d1 ++ (key, e) :: d2) (x, y, h)
     = Ok (d1 ++ (key, if fi_height e <? h then info else e) :: d2)) /\
  (forall x1 y1 x2 y2 x3 y3 n1 n2 n3 s1 s2 s3,
     is_near (x1, y1) x2 y2 = true ->
     is_near (x1, y1) x3 y3 = true ->
     merge_detection_results
       [[Some [(x1, y1, 40)]]; [Some [(x2, y2, 55)]]; [Some [(x3, y3, 38)]]]
       [n1; n2; n3] [s1; s2; s3]
     = Ok [Some [(x2, y2, 55)]]).
Proof.
  split; [|split; [|split]].
  - intros frames merged t entry H Ht.
    unfold merge_detection_results in H. rewrite py_range_nat in H.
    apply merge_loop in H as (new & -> & _ & Hnew). cbn [app] in Ht.
    destruct (Hnew t entry Ht) as (d & Hd & ->).
    apply merge_frames_refine in Hd. cbn [map Nat.add] in Hd.
    unfold spec_entry, spec_merge. rewrite <- Hd, map_map. reflexivity.
  - intros. now apply merge_fly_far.
  - intros. now apply merge_fly_near.
  - intros. now rewrite (merge_three_near (x1, y1, 40) (x2, y2, 55) (x3, y3, 38)).
Qed.

End MergeRefinement.

(** ** The statistics a detection pass leaves *)

Section StatisticsFacts.

Context {image : Type}.
Variable find_contours : image -> image -> region -> Z -> M (list contour).

Implicit Types st : MultiTubeFlyDetector image.

Lemma fold_max_spec (rest : list Z) (h0 : Z) :
  In (fold_left Z.max rest h0) (h0 :: rest) /\
  forall h, In h (h0 :: rest) -> h <= fold_left Z.max rest h0.
Proof.
  revert h0. induction rest as [|h1 rest IH]; intros h0; simpl.
  - split; [now left|]. intros h [<-|[]]. lia.
  - destruct (IH (Z.max h0 h1)) as [Hin Hle]. split.
    + destruct Hin as [Hin|Hin]; [|right; now right].
      rewrite <- Hin. destruct (Z.max_spec h0 h1) as [[_ ->]|[_ ->]]; [right|]; now left.
    + specialize (Hle (Z.max h0 h1)) as Hhead. intros h [E|[E|Hh]].
      * subst h. specialize (Hhead (or_introl eq_refl)). lia.
      * subst h. specialize (Hhead (or_introl eq_refl)). lia.
      * apply Hle. now right.
Qed.

(** [max(l)] is an element of the list and bounds every element. *)
Lemma py_max_spec (l : list Z) (m : Z) :
  py_max l = Ok m -> In m l /\ forall h, In h l -> h <= m.
Proof.
  destruct l as [|h0 rest]; [discriminate|]. intros [= <-]. apply fold_max_spec.
Qed.

Lemma same_tube_refl (k : nat) st : same_tube k st st.
Proof. now repeat split. Qed.

Lemma same_tube_trans (k : nat) st1 st2 st3 :
  same_tube k st1 st2 -> same_tube k st2 st3 -> same_tube k st1 st3.
Proof.
  intros (A1 & A2 & A3 & A4 & A5) (B1 & B2 & B3 & B4 & B5).
  repeat split; congruence.
Qed.

(** What [update_results] writes for tube [i], and that it writes nothing
    for the other tubes. *)
Lemma update_results_fields (i : Z) st (flies : list fly) st' :
  0 <= i ->
  update_results i st flies = Ok st' ->
  detection_history st' = detection_history st /\
  (forall j, j <> Z.to_nat i -> same_tube j st st') /\
  match flies with
  | [] =>
      fly_positions st' !! Z.to_nat i = Some None /\
      climbing_heights st' !! Z.to_nat i = Some 0 /\
      max_heights st' !! Z.to_nat i = max_heights st !! Z.to_nat i /\
      avg_heights st' !! Z.to_nat i = avg_heights st !! Z.to_nat i
  | (x0, y0, _) :: _ =>
      exists m old history,
        py_max (map fly_height flies) = Ok m /\
        max_heights st !! Z.to_nat i = Some old /\
        detection_history st !! Z.to_nat i = Some history /\
        fly_positions st' !! Z.to_nat i = Some (Some (x0, y0)) /\
        climbing_heights st' !! Z.to_nat i = Some m /\
        max_heights st' !! Z.to_nat i = Some (Z.max old m) /\
        match history with
        | [] => avg_heights st' !! Z.to_nat i = avg_heights st !! Z.to_nat i
        | _ :: _ =>
            exists average,
              py_mean history = Ok average /\
              avg_heights st' !! Z.to_nat i = Some average
        end
  end.
Proof.
  intros Hi H. unfold update_results in H.
  destruct flies as [|[[x0 y0] h0] others].
  - apply bind_Ok in H as (positions & Hpos & H).
    apply bind_Ok in H as (climbing & Hclimb & H). injection H as <-.
    apply py_set_nonneg in Hpos as [-> Hlt1]; [|exact Hi].
    apply py_set_nonneg in Hclimb as [-> Hlt2]; [|exact Hi]. simpl in *.
    split; [reflexivity|]. split.
    + intros j Hj. unfold same_tube; simpl.
      rewrite !list_lookup_insert_ne by congruence. now repeat split.
    + rewrite !list_lookup_insert_eq by assumption. now repeat split.
  - apply bind_Ok in H as (positions & Hpos & H).
    apply bind_Ok in H as (current & Hcur & H).
    apply bind_Ok in H as (climbing & Hclimb & H).
    apply bind_Ok in H as (max_height & Hmax & H).
    apply bind_Ok in H as (old_max & Hold & H).
    apply bind_Ok in H as (st1 & Hst1 & H).
    apply bind_Ok in H as (history & Hhist & H).
    apply py_set_nonneg in Hpos as [-> Hlt1]; [|exact Hi].
    apply py_set_nonneg in Hclimb as [-> Hlt2]; [|exact Hi]. simpl in *.
    assert (max_height = current) as -> by congruence.
    apply py_get_nonneg in Hold; [|exact Hi].
    set (st0 := with_climbing_heights _ _) in *.
    assert (D : detection_history st1 = detection_history st /\
                fly_positions st1 = fly_positions st0 /\
                climbing_heights st1 = climbing_heights st0 /\
                avg_heights st1 = avg_heights st /\
                max_heights st1 = <[Z.to_nat i := Z.max old_max current]> (max_heights st)).
    { destruct (Z.ltb_spec old_max current) as [Hlt|Hge].
      - apply bind_Ok in Hst1 as (maxima & Hset & Hst1). injection Hst1 as <-.
        apply py_set_nonneg in Hset as [-> _]; [|exact Hi]. simpl.
        rewrite Z.max_r by lia. now repeat split.
      - injection Hst1 as <-. simpl. rewrite Z.max_l by lia.
        rewrite (list_insert_id _ _ _ Hold). now repeat split. }
    destruct D as (D1 & D2 & D3 & D4 & D5).
    rewrite D1 in Hhist. apply py_get_nonneg in Hhist; [|exact Hi].
    assert (Hlt3 : (Z.to_nat i < length (max_heights st))%nat)
      by (now apply lookup_lt_Some in Hold).
    assert (E : detection_history st' = detection_history st /\
                fly_positions st' = fly_positions st0 /\
                climbing_heights st' = climbing_heights st0 /\
                max_heights st' = max_heights st1 /\
                (forall j, j <> Z.to_nat i -> avg_heights st' !! j = avg_heights st !! j) /\
                match history with
                | [] => avg_heights st' !! Z.to_nat i = avg_heights st !! Z.to_nat i
                | _ :: _ =>
                    exists average,
                      py_mean history = Ok average /\
                      avg_heights st' !! Z.to_nat i = Some average
                end).
    { destruct history as [|h hs].
      - injection H as <-. rewrite D4. now repeat split.
      - apply bind_Ok in H as (average & Havg & H).
        apply bind_Ok in H as (averages & Hset & H). injection H as <-.
        apply py_set_nonneg in Hset as [-> Hlt4]; [|exact Hi]. simpl.
        rewrite D4 in *. split; [trivial|]. split; [trivial|]. split; [trivial|].
        split; [trivial|]. split.
        + intros j Hj. now rewrite list_lookup_insert_ne by congruence.
        + exists average. split; [exact Havg|]. now apply list_lookup_insert_eq. }
    destruct E as (E1 & E2 & E3 & E4 & E5 & E6).
    split; [exact E1|]. split.
    + intros j Hj. unfold same_tube. rewrite E1, E2, E3, E4, D5, (E5 j Hj).
      subst st0; simpl. rewrite !list_lookup_insert_ne by congruence. now repeat split.
    + exists current, old_max, history. rewrite E2, E3, E4, D5. subst st0; simpl.
      rewrite !list_lookup_insert_eq by assumption. now repeat split.
Qed.

(** What the detection of tube [i] writes, its region being set, and that
    it writes nothing for the other tubes. *)
Lemma detect_tube_fields frame st (res : list (list fly)) (i : Z) st' res' :
  0 <= i ->
  detect_tube find_contours frame (st, res) i = Ok (st', res') ->
  exists flies,
    res' = res ++ [flies] /\
    (forall j, j <> Z.to_nat i -> same_tube j st st') /\
    forall r, py_get (tube_regions st) i = Ok (Some r) ->
      Forall (fun f => snd (fst f) + fly_height f = snd (fst (fst r)) + snd r) flies /\
      match flies with
      | [] =>
          fly_positions st' !! Z.to_nat i = Some None /\
          climbing_heights st' !! Z.to_nat i = Some 0 /\
          max_heights st' !! Z.to_nat i = max_heights st !! Z.to_nat i /\
          avg_heights st' !! Z.to_nat i = avg_heights st !! Z.to_nat i
      | (x0, y0, _) :: _ =>
          exists m old history,
            py_max (map fly_height flies) = Ok m /\
            max_heights st !! Z.to_nat i = Some old /\
            detection_history st !! Z.to_nat i = Some history /\
            fly_positions st' !! Z.to_nat i = Some (Some (x0, y0)) /\
            climbing_heights st' !! Z.to_nat i = Some m /\
            max_heights st' !! Z.to_nat i = Some (Z.max old m) /\
            exists average,
              py_mean (history ++ map fly_height flies) = Ok average /\
              avg_heights st' !! Z.to_nat i = Some average
      end.
Proof.
  intros Hi H. unfold detect_tube in H.
  apply bind_Ok in H as (r0 & Hr0 & H).
  destruct r0 as [[[[x y] w] h]|].
  - apply bind_Ok in H as (bg & _ & H).
    apply bind_Ok in H as (contours & _ & H).
    apply bind_Ok in H as ([st1 flies] & Hrec & H).
    apply bind_Ok in H as (st2 & Hupd & H). injection H as <- <-.
    assert (Hgeo : forall cs (s : MultiTubeFlyDetector image) acc s' acc',
              record_flies i x y h cs s acc = Ok (s', acc') ->
              Forall (fun f => snd (fst f) + fly_height f = y + h) acc ->
              Forall (fun f => snd (fst f) + fly_height f = y + h) acc').
    { clear. induction cs as [|c cs IH]; intros s acc s' acc' H Hacc; simpl in H.
      - now injection H as <- <-.
      - destruct (Qeq_bool (m00 c) 0); [now apply (IH _ _ _ _ H)|].
        apply bind_Ok in H as (old & _ & H). apply bind_Ok in H as (history & _ & H).
        apply (IH _ _ _ _ H). apply Forall_app. split; [exact Hacc|].
        constructor; [|constructor]. unfold fly_height. simpl. lia. }
    pose proof (Hgeo _ _ _ _ _ Hrec (List.Forall_nil _)) as Hflies.
    apply record_flies_spec in Hrec as (new & Hnew & ->); [|exact Hi].
    simpl in Hnew. subst new.
    apply update_results_fields in Hupd as (Hhist & Hframe & Hstats); [|exact Hi].
    simpl in Hhist. exists flies. split; [reflexivity|]. split.
    + intros j Hj. destruct (Hframe j Hj) as (A1 & A2 & A3 & A4 & _).
      simpl in *. unfold same_tube. rewrite Hhist, list_lookup_alter_ne by congruence.
      now repeat split.
    + intros r Hr. rewrite Hr0 in Hr. injection Hr as <-. split; [exact Hflies|].
      destruct flies as [|[[x0 y0] h0] others]; [exact Hstats|].
      destruct Hstats as (m & old & history & Hm & Hold & Hh & Hp & Hc & Hmx & Havg).
      simpl in Hold, Hh, Havg. rewrite list_lookup_alter_eq in Hh.
      destruct (detection_history st !! Z.to_nat i) as [before|] eqn:Hbefore;
        [|discriminate].
      simpl in Hh. injection Hh as <-.
      exists m, old, before. split; [exact Hm|]. split; [exact Hold|].
      split; [reflexivity|]. split; [exact Hp|]. split; [exact Hc|].
      split; [exact Hmx|]. now destruct before.
  - injection H as <- <-. exists []. split; [reflexivity|]. split.
    + intros j _. apply same_tube_refl.
    + intros r Hr. congruence.
Qed.

Lemma detect_loop_frame frame (l : list Z) st (res : list (list fly)) st' res' (k : nat) :
  Forall (fun i => 0 <= i) l ->
  foldM (detect_tube find_contours frame) (st, res) l = Ok (st', res') ->
  (forall j, In j l -> Z.to_nat j <> k) ->
  same_tube k st st'.
Proof.
  revert st res. induction l as [|i l IH]; intros st res Hl H Hk; simpl in H.
  - injection H as <- _. apply same_tube_refl.
  - inversion Hl as [|? ? Hi Hl']; subst.
    apply bind_Ok in H as ([st1 res1] & Hstep & H).
    apply detect_tube_fields in Hstep as (flies & _ & Hframe & _); [|exact Hi].
    apply (same_tube_trans k st st1 st').
    + apply Hframe. intros E. apply (Hk i); [now left|now symmetry].
    + apply (IH st1 res1 Hl' H). intros j Hj. apply Hk. now right.
Qed.

(** The iteration of tube [i] in the loop of a pass, between the detector
    as the tubes before it left it and the detector the tubes after it
    receive: neither touch tube [i]. *)
Lemma detect_loop_focus frame (l : list Z) st (res : list (list fly)) st' res' :
  Forall (fun i => 0 <= i) l -> NoDup l ->
  foldM (detect_tube find_contours frame) (st, res) l = Ok (st', res') ->
  forall p i, l !! p = Some i ->
    exists sa sb resa flies,
      same_tube (Z.to_nat i) st sa /\
      tube_regions sa = tube_regions st /\
      detect_tube find_contours frame (sa, resa) i = Ok (sb, resa ++ [flies]) /\
      same_tube (Z.to_nat i) sb st' /\
      res' !! (length res + p)%nat = Some flies.
Proof.
  revert st res. induction l as [|i0 l IH]; intros st res Hl Hnd H p i Hp; [discriminate|].
  inversion Hl as [|? ? Hi0 Hl']; subst. inversion Hnd as [|? ? Hout Hnd']; subst.
  rewrite list_elem_of_In in Hout.
  assert (Hnn : forall j, In j l -> 0 <= j) by (now apply List.Forall_forall).
  simpl in H. apply bind_Ok in H as ([st1 res1] & Hstep & H).
  pose proof Hstep as Hstep'.
  apply detect_tube_fields in Hstep' as (flies & -> & Hframe & _); [|exact Hi0].
  pose proof Hstep as Hspec.
  apply detect_tube_spec in Hspec as (_ & _ & _ & _ & Hreg & _); [|exact Hi0].
  destruct p as [|p]; simpl in Hp.
  - injection Hp as <-. exists st, st1, res, flies.
    split; [apply same_tube_refl|]. split; [reflexivity|]. split; [exact Hstep|].
    split.
    + apply (detect_loop_frame frame l st1 (res ++ [flies]) st' res' _ Hl' H).
      intros j Hj E. apply Hout. specialize (Hnn j Hj).
      replace i0 with j by lia. exact Hj.
    + apply detect_loop_spec in H
        as (news & -> & _ & _ & _ & _ & _ & _); [|exact Hl'|exact Hnd'].
      rewrite Nat.add_0_r, <- app_assoc. simpl.
      rewrite lookup_app_r by lia. now rewrite Nat.sub_diag.
  - assert (Hi : In i l) by (apply list_elem_of_In, list_elem_of_lookup; eauto).
    destruct (IH st1 (res ++ [flies]) Hl' Hnd' H p i Hp)
      as (sa & sb & resa & fl & Hsame & Hregs & Hrun & Hafter & Hres).
    exists sa, sb, resa, fl.
    split; [|split; [congruence|split; [exact Hrun|split; [exact Hafter|]]]].
    + apply (same_tube_trans _ st st1 sa); [|exact Hsame].
      apply Hframe. intros E. apply Hout. specialize (Hnn i Hi).
      replace i0 with i by lia. exact Hi.
    + rewrite length_app in Hres. simpl in Hres.
      now replace (length res + S p)%nat with (length res + 1 + p)%nat by lia.
Qed.

Lemma detect_all_tubes_focus st frame st' (results : list (list fly)) (i : Z) :
  detect_all_tubes find_contours st frame = Ok (st', results) ->
  0 <= i < tube_count st ->
  exists sa sb resa flies,
    fly_positions sa !! Z.to_nat i = fly_positions st !! Z.to_nat i /\
    climbing_heights sa !! Z.to_nat i = climbing_heights st !! Z.to_nat i /\
    max_heights sa !! Z.to_nat i = max_heights st !! Z.to_nat i /\
    avg_heights sa !! Z.to_nat i = avg_heights st !! Z.to_nat i /\
    detection_history sa !! Z.to_nat i = Some [] /\
    tube_regions sa = tube_regions st /\
    detect_tube find_contours frame (sa, resa) i = Ok (sb, resa ++ [flies]) /\
    same_tube (Z.to_nat i) sb st' /\
    results !! Z.to_nat i = Some flies.
Proof.
  intros H Hi. unfold detect_all_tubes in H.
  apply bind_Ok in H as (st1 & Hclear & H).
  apply clear_history_loop in Hclear as (Hst1 & _ & Hempty & _); [|apply py_range_nonneg].
  assert (Hc1 : tube_count st1 = tube_count st) by (now rewrite Hst1).
  rewrite Hc1 in H.
  assert (Hp : py_range (tube_count st) !! Z.to_nat i = Some i).
  { rewrite py_range_lookup by lia. f_equal. lia. }
  destruct (detect_loop_focus frame _ st1 [] st' results (py_range_nonneg _)
              (py_range_NoDup _) H _ _ Hp)
    as (sa & sb & resa & flies & (A1 & A2 & A3 & A4 & A5) & Hregs & Hrun & Hafter & Hres).
  assert (P1 : fly_positions st1 = fly_positions st) by (now rewrite Hst1).
  assert (P2 : climbing_heights st1 = climbing_heights st) by (now rewrite Hst1).
  assert (P3 : max_heights st1 = max_heights st) by (now rewrite Hst1).
  assert (P4 : avg_heights st1 = avg_heights st) by (now rewrite Hst1).
  assert (P5 : tube_regions st1 = tube_regions st) by (now rewrite Hst1).
  assert (P6 : detection_history st1 !! Z.to_nat i = Some [])
    by (apply Hempty, py_range_In; lia).
  exists sa, sb, resa, flies.
  split; [congruence|]. split; [congruence|]. split; [congruence|].
  split; [congruence|]. split; [congruence|]. split; [congruence|].
  split; [exact Hrun|]. split; [exact Hafter|exact Hres].
Qed.

(** A pass that finds flies in a tube whose region is set leaves, for that
    tube: the position of the first fly; as current height the greatest
    height found; as maximum the greater of the former maximum and the
    current height; as average the quotient of the sum of the heights of
    this pass by their number, as Python's true division rounds it to a
    double. *)
Theorem detect_all_tubes_updates_statistics st frame st' (results : list (list fly))
    (i : Z) (r : region) (x0 y0 h0 : Z) (others : list fly) :
  detect_all_tubes find_contours st frame = Ok (st', results) ->
  0 <= i < tube_count st ->
  py_get (tube_regions st) i = Ok (Some r) ->
  py_get results i = Ok ((x0, y0, h0) :: others) ->
  exists m old average,
    In m (h0 :: map fly_height others) /\
    (forall h, In h (h0 :: map fly_height others) -> h <= m) /\
    py_get (max_heights st) i = Ok old /\
    py_truediv (py_sum (h0 :: map fly_height others)) (Z.of_nat (S (length others)))
      = Ok average /\
    py_get (fly_positions st') i = Ok (Some (x0, y0)) /\
    py_get (climbing_heights st') i = Ok m /\
    py_get (max_heights st') i = Ok (Z.max old m) /\
    py_get (avg_heights st') i = Ok average.
Proof.
  intros H Hi Hr Hres.
  destruct (detect_all_tubes_focus st frame st' results i H Hi)
    as (sa & sb & resa & flies & _ & _ & A3 & _ & A5 & Hregs & Hrun & Hafter & Hflies).
  apply py_get_nonneg in Hres; [|lia]. rewrite Hflies in Hres. injection Hres as ->.
  apply detect_tube_fields in Hrun as (flies & Happ & _ & Hstats); [|lia].
  apply app_inv_head in Happ. injection Happ as <-.
  rewrite <- Hregs in Hr. destruct (Hstats r Hr) as (_ & m & old & history & Hm & Hold &
    Hh & Hp & Hc & Hmx & average & Hmean & Havg).
  rewrite A5 in Hh. injection Hh as <-. cbn [app] in Hmean.
  apply py_max_spec in Hm as [Hin Hle].
  destruct Hafter as (B1 & B2 & B3 & B4 & _).
  exists m, old, average. split; [exact Hin|]. split; [exact Hle|].
  rewrite A3 in Hold. split; [apply py_get_nonneg; [lia|exact Hold]|].
  split.
  { unfold py_mean in Hmean. cbn [map length] in Hmean.
    now rewrite length_map in Hmean. }
  repeat split; (apply py_get_nonneg; [lia|]); congruence.
Qed.

(** A pass that finds no fly in a tube whose region is set leaves it with
    no position and the current height 0, and leaves its maximum and its
    average as they were, while its history is empty. *)
Theorem detect_all_tubes_keeps_statistics_without_fly st frame st'
    (results : list (list fly)) (i : Z) (r : region) :
  detect_all_tubes find_contours st frame = Ok (st', results) ->
  0 <= i < tube_count st ->
  py_get (tube_regions st) i = Ok (Some r) ->
  py_get results i = Ok [] ->
  py_get (fly_positions st') i = Ok None /\
  py_get (climbing_heights st') i = Ok 0 /\
  max_heights st' !! Z.to_nat i = max_heights st !! Z.to_nat i /\
  avg_heights st' !! Z.to_nat i = avg_heights st !! Z.to_nat i /\
  py_get (detection_history st') i = Ok [].
Proof.
  intros H Hi Hr Hres.
  destruct (detect_all_tubes_focus st frame st' results i H Hi)
    as (sa & sb & resa & flies & _ & _ & A3 & A4 & A5 & Hregs & Hrun & Hafter & Hflies).
  apply py_get_nonneg in Hres; [|lia]. rewrite Hflies in Hres. injection Hres as ->.
  pose proof Hrun as Hspec.
  apply detect_tube_spec in Hspec as (fl & Happ' & Hhist & _); [|lia].
  apply app_inv_head in Happ'. injection Happ' as <-.
  apply detect_tube_fields in Hrun as (flies & Happ & _ & Hstats); [|lia].
  apply app_inv_head in Happ. injection Happ as <-.
  rewrite <- Hregs in Hr. destruct (Hstats r Hr) as (_ & Hp & Hc & Hmx & Havg).
  destruct Hafter as (B1 & B2 & B3 & B4 & B5).
  split; [apply py_get_nonneg; [lia|congruence]|].
  split; [apply py_get_nonneg; [lia|congruence]|].
  split; [congruence|]. split; [congruence|].
  apply py_get_nonneg; [lia|]. rewrite B5, Hhist, list_lookup_alter_eq, A5. reflexivity.
Qed.

(** A pass leaves a tube whose region is unset with its position and its
    current, maximum and average heights as they were; only its history is
    emptied. *)
Theorem detect_all_tubes_skips_unset_region st frame st' (results : list (list fly))
    (i : Z) :
  detect_all_tubes find_contours st frame = Ok (st', results) ->
  0 <= i < tube_count st ->
  py_get (tube_regions st) i = Ok None ->
  fly_positions st' !! Z.to_nat i = fly_positions st !! Z.to_nat i /\
  climbing_heights st' !! Z.to_nat i = climbing_heights st !! Z.to_nat i /\
  max_heights st' !! Z.to_nat i = max_heights st !! Z.to_nat i /\
  avg_heights st' !! Z.to_nat i = avg_heights st !! Z.to_nat i /\
  py_get (detection_history st') i = Ok [] /\
  py_get results i = Ok [].
Proof.
  intros H Hi Hr.
  destruct (detect_all_tubes_focus st frame st' results i H Hi)
    as (sa & sb & resa & flies & A1 & A2 & A3 & A4 & A5 & Hregs & Hrun & Hafter & Hflies).
  unfold detect_tube in Hrun. rewrite Hregs, Hr in Hrun. cbn [bind] in Hrun.
  injection Hrun as <- Happ. apply app_inv_head in Happ. injection Happ as <-.
  destruct Hafter as (B1 & B2 & B3 & B4 & B5).
  repeat split; try congruence; (apply py_get_nonneg; [lia|]); congruence.
Qed.

(** Every fly a pass returns for a tube lies at the height, counted from
    the bottom edge of the tube's region, that its ordinate gives:
    [annotate_flies] draws it at its own ordinate. *)
Theorem detected_fly_is_drawn_where_found st frame st' (results : list (list fly))
    (i : Z) (r : region) (flies : list fly) (f : fly) :
  detect_all_tubes find_contours st frame = Ok (st', results) ->
  0 <= i < tube_count st ->
  py_get (tube_regions st) i = Ok (Some r) ->
  py_get results i = Ok flies ->
  In f flies ->
  annotation_y r f = snd (fst f).
Proof.
  intros H Hi Hr Hres Hf.
  destruct (detect_all_tubes_focus st frame st' results i H Hi)
    as (sa & sb & resa & fl & _ & _ & _ & _ & _ & Hregs & Hrun & _ & Hflies).
  apply py_get_nonneg in Hres; [|lia]. rewrite Hflies in Hres. injection Hres as ->.
  apply detect_tube_fields in Hrun as (fl & Happ & _ & Hstats); [|lia].
  apply app_inv_head in Happ. injection Happ as <-.
  rewrite <- Hregs in Hr. destruct (Hstats r Hr) as (Hgeo & _).
  rewrite List.Forall_forall in Hgeo. specialize (Hgeo f Hf).
  destruct r as [[[x y] w] h]. unfold annotation_y. simpl in *. lia.
Qed.

End StatisticsFacts.

(** ** What a detection keeps *)

Section ShapeFacts.

Context {image : Type}.
Variable find_contours : image -> image -> region -> Z -> M (list contour).

Implicit Types st : MultiTubeFlyDetector image.

Lemma same_shape_refl st : same_shape st st.
Proof. now repeat split. Qed.

Lemma same_shape_trans st1 st2 st3 :
  same_shape st1 st2 -> same_shape st2 st3 -> same_shape st1 st3.
Proof.
  intros (A0 & A1 & A2 & A3 & A4 & A5 & A6 & A7) (B0 & B1 & B2 & B3 & B4 & B5 & B6 & B7).
  repeat split; congruence.
Qed.

Lemma same_shape_well_formed st st' :
  same_shape st st' -> well_formed st -> well_formed st'.
Proof.
  intros (A0 & A1 & A2 & A3 & A4 & A5 & A6 & A7) (B1 & B2 & B3 & B4 & B5 & B6 & B7).
  unfold well_formed. rewrite A0. repeat split; congruence.
Qed.

Lemma update_results_shape (i : Z) st (flies : list fly) st' :
  update_results i st flies = Ok st' -> same_shape st st'.
Proof.
  unfold update_results. destruct flies as [|[[x0 y0] h0] others]; intros H.
  - apply bind_Ok in H as (positions & Hpos & H).
    apply bind_Ok in H as (climbing & Hclimb & H). injection H as <-.
    apply py_set_length in Hpos, Hclimb. unfold same_shape; simpl in *.
    now repeat split.
  - apply bind_Ok in H as (positions & Hpos & H).
    apply bind_Ok in H as (current & _ & H).
    apply bind_Ok in H as (climbing & Hclimb & H).
    apply bind_Ok in H as (max_height & _ & H).
    apply bind_Ok in H as (old_max & _ & H).
    apply bind_Ok in H as (st1 & Hst1 & H).
    apply bind_Ok in H as (history & _ & H).
    apply py_set_length in Hpos, Hclimb. simpl in *.
    set (st0 := with_climbing_heights _ _) in *.
    assert (S0 : same_shape st st0) by (unfold same_shape; subst st0; simpl; now repeat split).
    assert (S1 : same_shape st0 st1).
    { destruct (old_max <? max_height).
      - apply bind_Ok in Hst1 as (maxima & Hset & Hst1). injection Hst1 as <-.
        apply py_set_length in Hset. unfold same_shape; simpl. now repeat split.
      - injection Hst1 as <-. apply same_shape_refl. }
    apply (same_shape_trans _ _ _ S0). apply (same_shape_trans _ _ _ S1).
    destruct history.
    + injection H as <-. apply same_shape_refl.
    + apply bind_Ok in H as (average & _ & H).
      apply bind_Ok in H as (averages & Hset & H). injection H as <-.
      apply py_set_length in Hset. unfold same_shape; simpl. now repeat split.
Qed.

Lemma detect_tube_shape frame st (res : list (list fly)) (i : Z) st' res' :
  0 <= i ->
  detect_tube find_contours frame (st, res) i = Ok (st', res') ->
  same_shape st st'.
Proof.
  intros Hi H. unfold detect_tube in H.
  apply bind_Ok in H as (r0 & _ & H).
  destruct r0 as [[[[x y] w] h]|].
  - apply bind_Ok in H as (bg & _ & H).
    apply bind_Ok in H as (contours & _ & H).
    apply bind_Ok in H as ([st1 flies] & Hrec & H).
    apply bind_Ok in H as (st2 & Hupd & H). injection H as <- _.
    apply record_flies_spec in Hrec as (new & _ & ->); [|exact Hi].
    apply update_results_shape in Hupd.
    eapply same_shape_trans; [|exact Hupd].
    unfold same_shape; simpl. rewrite length_alter. now repeat split.
  - injection H as <- _. apply same_shape_refl.
Qed.

(** A detection pass that returns keeps the count and the length of every
    per-tube list: a well formed detector stays well formed. *)
Theorem detect_all_tubes_keeps_well_formed st frame st' (results : list (list fly)) :
  detect_all_tubes find_contours st frame = Ok (st', results) ->
  well_formed st ->
  well_formed st' /\ length results = Z.to_nat (tube_count st').
Proof.
  intros H Hwf. pose proof H as Hspec.
  apply detect_all_tubes_spec in Hspec as (Hcount & _ & Hlen & _).
  split; [|congruence].
  unfold detect_all_tubes in H. apply bind_Ok in H as (st1 & Hclear & H).
  apply clear_history_loop in Hclear as (Hst1 & Hlen1 & _); [|apply py_range_nonneg].
  assert (S1 : same_shape st st1).
  { rewrite Hst1. unfold same_shape; simpl. now repeat split. }
  assert (G : forall l s res s' res',
            Forall (fun i => 0 <= i) l ->
            foldM (detect_tube find_contours frame) (s, res) l = Ok (s', res') ->
            same_shape s s').
  { clear. induction l as [|i l IH]; intros s res s' res' Hl H; simpl in H.
    - injection H as <- _. apply same_shape_refl.
    - inversion Hl as [|? ? Hi Hl']; subst.
      apply bind_Ok in H as ([s1 res1] & Hstep & H).
      apply detect_tube_shape in Hstep; [|exact Hi].
      eapply same_shape_trans; [exact Hstep|]. now apply (IH _ _ _ _ Hl' H). }
  apply G in H; [|apply py_range_nonneg].
  apply (same_shape_well_formed st); [|exact Hwf].
  now apply (same_shape_trans _ st1).
Qed.

(** [_detect_fly_in_tube], unlike [detect_all_tubes], does not empty the
    history: it reports whether it found a fly, and leaves the history of
    its tube extended by the heights of the flies it found, in order, and
    every other history as it was. *)
Theorem _detect_fly_in_tube_extends_history st frame (i : Z) st' (found : bool) :
  0 <= i ->
  _detect_fly_in_tube find_contours st frame i = Ok (st', found) ->
  exists heights,
    detection_history st'
      = alter (fun old => old ++ heights) (Z.to_nat i) (detection_history st) /\
    (found = false <-> heights = []) /\
    same_shape st st'.
Proof.
  intros Hi H. unfold _detect_fly_in_tube in H.
  apply bind_Ok in H as (r0 & _ & H).
  assert (Hnone : forall s : MultiTubeFlyDetector image,
            detection_history s
            = alter (fun old => old ++ []) (Z.to_nat i) (detection_history s)).
  { intros s. now rewrite list_alter_id by (intros; apply app_nil_r). }
  destruct r0 as [[[[x y] w] h]|]; [destruct (background_frame st) as [bg|]|].
  - apply bind_Ok in H as (contours & _ & H).
    apply bind_Ok in H as ([st1 flies] & Hrec & H).
    apply bind_Ok in H as (st2 & Hupd & H). injection H as <- <-.
    apply record_flies_spec in Hrec as (new & Hnew & ->); [|exact Hi].
    simpl in Hnew. subst new.
    pose proof (update_results_shape _ _ _ _ Hupd) as Hshape.
    apply update_results_spec in Hupd as (-> & _). simpl.
    exists (map fly_height flies). split; [reflexivity|]. split.
    + destruct flies; simpl; split; congruence.
    + eapply same_shape_trans; [|exact Hshape].
      unfold same_shape; simpl. rewrite length_alter. now repeat split.
  - injection H as <- <-. exists []. split; [apply Hnone|]. split; [tauto|].
    apply same_shape_refl.
  - injection H as <- <-. exists []. split; [apply Hnone|]. split; [tauto|].
    apply same_shape_refl.
Qed.

(** [get_fly_areas] returns only positive areas; when no background is
    set it returns the empty list, whatever the regions, and raises
    nothing. *)
Theorem get_fly_areas_are_positive st frame :
  (background_frame st = None -> get_fly_areas find_contours st frame = Ok []) /\
  (forall areas a,
     get_fly_areas find_contours st frame = Ok areas -> In a areas -> (0 < a)%Q).
Proof.
  split; [intros H; unfold get_fly_areas; now rewrite H|].
  intros areas a. unfold get_fly_areas. destruct (background_frame st) as [bg|];
    [|intros [= <-] []].
  assert (G : forall l acc out,
            (forall q, In q acc -> (0 < q)%Q) ->
            foldM (areas_of_tube find_contours frame bg st) acc l = Ok out ->
            forall q, In q out -> (0 < q)%Q).
  { induction l as [|i l IH]; intros acc out Hacc H; simpl in H.
    - now injection H as <-.
    - apply bind_Ok in H as (acc1 & Hstep & H). apply (IH acc1 out); [|exact H].
      unfold areas_of_tube in Hstep. apply bind_Ok in Hstep as (r0 & _ & Hstep).
      destruct r0 as [[[[x y] w] h]|]; [|now injection Hstep as <-].
      apply bind_Ok in Hstep as (contours & _ & Hstep). injection Hstep as <-.
      intros q Hq. apply in_app_or in Hq as [Hq|Hq]; [now apply Hacc|].
      apply filter_In in Hq as [_ Hq]. apply Qnot_le_lt. intros Hle.
      apply Qle_bool_iff in Hle. now rewrite Hle in Hq. }
  intros H Ha.
  apply (G (py_range (tube_count st)) [] areas); [intros q []|exact H|exact Ha].
Qed.

End ShapeFacts.

(** ** Resetting and placing regions *)

Section ResetFacts.

Context {image : Type}.

Implicit Types st : MultiTubeFlyDetector image.

Lemma compare_loop_empty (l : list Z) st (acc : list genotype_entry) :
  Forall (fun i => 0 <= i < Z.of_nat (length (tube_regions st))) l ->
  (forall i, In i l -> py_get (detection_history st) i = Ok []) ->
  foldM (compare_step st) acc l = Ok acc.
Proof.
  induction l as [|i l IH]; intros Hl Hempty; simpl; [reflexivity|].
  inversion Hl as [|? ? Hi Hl']; subst.
  unfold compare_step at 1.
  destruct (py_get_in_range (tube_regions st) i Hi) as [r ->]. cbn [bind].
  destruct r as [r|].
  - rewrite Hempty by (now left). cbn [bind]. apply IH; [exact Hl'|].
    intros j Hj. apply Hempty. now right.
  - apply IH; [exact Hl'|]. intros j Hj. apply Hempty. now right.
Qed.

(** [reset_data] always returns. It keeps the count, the regions, the
    names, the background and the three parameters; every tube is left
    with no position, heights 0 and an empty history, and every entry of
    [detection_results], when the attribute exists, is [None]. On a well
    formed detector the result is well formed and [compare_genotypes] then
    returns the empty list. *)
Theorem reset_data_clears_the_results st :
  exists st',
    reset_data st = Ok st' /\
    tube_count st' = tube_count st /\
    tube_regions st' = tube_regions st /\
    genotype_names st' = genotype_names st /\
    background_frame st' = background_frame st /\
    (threshold st', min_area st', max_area st') = (threshold st, min_area st, max_area st) /\
    (forall i, 0 <= i < tube_count st ->
       py_get (fly_positions st') i = Ok None /\
       py_get (climbing_heights st') i = Ok 0 /\
       py_get (max_heights st') i = Ok 0 /\
       py_get (avg_heights st') i = Ok 0%Q /\
       py_get (detection_history st') i = Ok [] /\
       current_flies st' i = []) /\
    (well_formed st -> well_formed st' /\ compare_genotypes st' = Ok []).
Proof.
  eexists. split; [reflexivity|]. simpl.
  split; [reflexivity|]. split; [reflexivity|]. split; [reflexivity|].
  split; [reflexivity|]. split; [reflexivity|]. split.
  - intros i Hi. rewrite !py_get_repeat by exact Hi. repeat split.
    unfold current_flies; simpl. destruct (detection_results st); [|reflexivity].
    now rewrite py_get_repeat.
  - intros (B1 & B2 & _). split.
    + unfold well_formed; simpl. rewrite !py_repeat_length. now repeat split.
    + unfold compare_genotypes. rewrite compare_loop_empty; [reflexivity| |].
      * apply List.Forall_forall. intros i Hi. apply py_range_In in Hi. simpl in *. lia.
      * intros i Hi. apply py_range_In in Hi. simpl in *. now apply py_get_repeat.
Qed.

(** On a detector with [n >= 0] tubes and [n] regions, [set_tube_regions]
    returns and leaves [n] regions whatever the length of the list given:
    region [k] is the [k]-th of the list when the list has one, and is
    unchanged otherwise; the elements of the list past the [n]-th are
    dropped. Nothing else changes. *)
Theorem set_tube_regions_keeps_the_count st (regions : list (option region)) :
  0 <= tube_count st ->
  length (tube_regions st) = Z.to_nat (tube_count st) ->
  exists st',
    set_tube_regions st regions = Ok st' /\
    st' = with_tube_regions st (tube_regions st') /\
    length (tube_regions st') = Z.to_nat (tube_count st) /\
    forall k, (k < Z.to_nat (tube_count st))%nat ->
      tube_regions st' !! k
      = if decide (k < length regions)%nat then regions !! k else tube_regions st !! k.
Proof.
  intros Hn Hlen. unfold set_tube_regions.
  destruct (Z.eqb_spec (Z.of_nat (length regions)) (tube_count st)) as [E|E];
    [|destruct (Z.ltb_spec (Z.of_nat (length regions)) (tube_count st)) as [L|L]];
    (eexists; split; [reflexivity|]); simpl; (split; [reflexivity|]).
  - split; [lia|]. intros k Hk. destruct (decide (k < length regions)%nat); [reflexivity|lia].
  - split; [rewrite length_app, length_drop; lia|].
    intros k Hk. destruct (decide (k < length regions)%nat) as [Hlt|Hge].
    + now apply lookup_app_l.
    + rewrite lookup_app_r by lia. rewrite lookup_drop. f_equal. lia.
  - unfold py_take. destruct (Z.leb_spec 0 (tube_count st)); [|lia].
    split; [rewrite length_take; lia|].
    intros k Hk. destruct (decide (k < length regions)%nat); [|lia].
    now apply lookup_take_lt.
Qed.

(** On a well formed detector, placing a region on a tube in range
    returns; the tube then has the height of that region, the other tubes
    keep theirs, and the detector stays well formed. *)
Theorem set_tube_region_then_get_tube_height st (i x y w h : Z) :
  well_formed st ->
  0 <= i < tube_count st ->
  exists st',
    set_tube_region st i (Some (x, y, w, h)) = Ok st' /\
    well_formed st' /\
    get_tube_height st' i = Ok h /\
    forall j, j <> i -> get_tube_height st' j = get_tube_height st j.
Proof.
  intros Hwf Hi. pose proof Hwf as (B1 & _).
  assert (Hin : (0 <=? i) && (i <? tube_count st) = true).
  { destruct (Z.leb_spec 0 i), (Z.ltb_spec i (tube_count st)); simpl; trivial; lia. }
  unfold set_tube_region. rewrite Hin, py_set_in_range by lia. cbn [bind].
  eexists. split; [reflexivity|]. split; [|split].
  - destruct Hwf as (? & ? & ? & ? & ? & ? & ?).
    unfold well_formed; simpl. rewrite length_insert. now repeat split.
  - unfold get_tube_height. cbn [tube_count tube_regions with_tube_regions]. rewrite Hin.
    match goal with
    | |- bind ?m _ = _ =>
        assert (Hget : m = Ok (Some (x, y, w, h)))
          by (apply py_get_nonneg; [lia|]; apply list_lookup_insert_eq; lia);
        rewrite Hget
    end.
    reflexivity.
  - intros j Hj. unfold get_tube_height. cbn [tube_count tube_regions with_tube_regions].
    destruct ((0 <=? j) && (j <? tube_count st)) eqn:Hjin; [|reflexivity].
    apply andb_prop in Hjin as [Hj0 Hj1]. apply Z.leb_le in Hj0.
    unfold py_get. rewrite (py_index_same_length _ (tube_regions st))
      by apply length_insert.
    rewrite py_index_nonneg by exact Hj0.
    destruct (j <? Z.of_nat (length (tube_regions st))); [|reflexivity].
    rewrite list_lookup_insert_ne by lia. reflexivity.
Qed.

(** [get_all_fly_heights] gives the heights of the current flies of a
    tube, in their order, for every index from [-len] on, [len] being the
    length of [detection_results]; it gives the empty list from [len] on or
    when the attribute is missing; below [-len] it raises [IndexError]. *)
Theorem get_all_fly_heights_spec st (i : Z) :
  match detection_results st with
  | None => get_all_fly_heights st i = Ok []
  | Some results =>
      if i <? - Z.of_nat (length results)
      then get_all_fly_heights st i = Raise IndexError
      else get_all_fly_heights st i = Ok (map fly_height (current_flies st i))
  end.
Proof.
  unfold get_all_fly_heights, current_flies.
  destruct (detection_results st) as [results|]; [|reflexivity].
  destruct (Z.ltb_spec i (- Z.of_nat (length results))) as [Hlow|Hlow].
  - destruct (Z.ltb_spec i (Z.of_nat (length results))); [|lia].
    unfold py_get, py_index.
    destruct (Z.leb_spec 0 i); [lia|]. simpl.
    destruct (Z.leb_spec (- Z.of_nat (length results)) i); [lia|]. reflexivity.
  - destruct (Z.ltb_spec i (Z.of_nat (length results))) as [Hlt|Hge].
    + destruct (py_get results i) as [[flies|]|e] eqn:E; simpl; try reflexivity.
      exfalso. unfold py_get in E.
      destruct (py_index results i) as [k|] eqn:Ek.
      * apply py_index_lt in Ek. destruct (lookup_lt_is_Some_2 results k Ek) as [a Ha].
        now rewrite Ha in E.
      * unfold py_index in Ek.
        destruct (Z.leb_spec 0 i), (Z.ltb_spec i (Z.of_nat (length results)));
          simpl in Ek; try discriminate; try lia.
        destruct (Z.leb_spec (- Z.of_nat (length results)) i), (Z.ltb_spec i 0);
          simpl in Ek; try discriminate; lia.
    + unfold py_get. rewrite py_index_nonneg by lia.
      destruct (Z.ltb_spec i (Z.of_nat (length results))); [lia|]. reflexivity.
Qed.

End ResetFacts.

(** ** The raw CSV export *)

Section ExportFacts.

Context {image : Type}.

Implicit Types st : MultiTubeFlyDetector image.

Lemma max_history_length_bound st (history : list Z) :
  In history (detection_history st) ->
  Z.of_nat (length history) <= max_history_length st.
Proof.
  intros Hin. unfold max_history_length.
  apply (in_map (fun history => Z.of_nat (length history))) in Hin.
  destruct (map _ (detection_history st)) as [|n rest]; [contradiction|].
  now apply fold_max_spec.
Qed.

Lemma raw_headers_length st :
  length (raw_headers st) = (4 + Z.to_nat (max_history_length st))%nat.
Proof.
  unfold raw_headers. rewrite length_app, length_map, py_range_length. reflexivity.
Qed.

Lemma raw_row_eq st (k : nat) (name : string) (mh : Z) (ah : Q) (history : list Z) :
  genotype_names st !! k = Some name ->
  max_heights st !! k = Some mh ->
  avg_heights st !! k = Some ah ->
  detection_history st !! k = Some history ->
  raw_row st (raw_headers st) (Z.of_nat k)
  = Ok ([CellInt (Z.of_nat k + 1); CellStr name; CellInt mh; CellFloat ah]
        ++ map CellInt history
        ++ replicate (Z.to_nat (max_history_length st) - length history)
             (CellStr EmptyString)).
Proof.
  intros Hname Hmh Hah Hhist. unfold raw_row.
  assert (G : forall B (l : list B) a, l !! k = Some a -> py_get l (Z.of_nat k) = Ok a).
  { intros B l a Ha. apply py_get_nonneg; [lia|]. now rewrite Nat2Z.id. }
  rewrite (G _ _ _ Hname), (G _ _ _ Hmh), (G _ _ _ Hah). cbn [bind].
  destruct (Z.ltb_spec (Z.of_nat k) (Z.of_nat (length (detection_history st)))) as [Hlt|Hge].
  - rewrite (G _ _ _ Hhist). cbn [bind].
    rewrite raw_headers_length, length_app, length_map. cbn [length].
    rewrite <- app_assoc. repeat f_equal.
  - apply lookup_lt_Some in Hhist. lia.
Qed.

(** On a well formed detector the raw CSV export has a header of four
    columns and one column per sample of the longest history, and one row
    per tube; the row of a tube has the tube's number, name, maximum and
    average, then its history, then empty cells, and is exactly as long as
    the header. *)
Theorem raw_csv_rows_are_rectangular st :
  well_formed st ->
  exists rows,
    raw_csv_rows st = Ok (raw_headers st, rows) /\
    length (raw_headers st) = (4 + Z.to_nat (max_history_length st))%nat /\
    length rows = Z.to_nat (tube_count st) /\
    forall k row, rows !! k = Some row ->
      length row = length (raw_headers st) /\
      exists name mh ah history,
        genotype_names st !! k = Some name /\
        max_heights st !! k = Some mh /\
        avg_heights st !! k = Some ah /\
        detection_history st !! k = Some history /\
        row = [CellInt (Z.of_nat k + 1); CellStr name; CellInt mh; CellFloat ah]
              ++ map CellInt history
              ++ replicate (Z.to_nat (max_history_length st) - length history)
                   (CellStr EmptyString).
Proof.
  intros (_ & Hnames & _ & _ & Hmax & Havg & Hhistory).
  set (n := Z.to_nat (tube_count st)) in *.
  set (body := fun rows i => do row <- raw_row st (raw_headers st) i; Ok (rows ++ [row])).
  assert (G : forall m k acc, (k + m <= n)%nat ->
            exists new,
              foldM body acc (map Z.of_nat (seq k m)) = Ok (acc ++ new) /\
              length new = m /\
              forall j row, new !! j = Some row ->
                exists name mh ah history,
                  genotype_names st !! (k + j)%nat = Some name /\
                  max_heights st !! (k + j)%nat = Some mh /\
                  avg_heights st !! (k + j)%nat = Some ah /\
                  detection_history st !! (k + j)%nat = Some history /\
                  row = [CellInt (Z.of_nat (k + j) + 1); CellStr name; CellInt mh;
                         CellFloat ah]
                        ++ map CellInt history
                        ++ replicate (Z.to_nat (max_history_length st) - length history)
                             (CellStr EmptyString)).
  { induction m as [|m IH]; intros k acc Hk.
    - exists []. simpl. rewrite app_nil_r. repeat split. intros; discriminate.
    - destruct (lookup_lt_is_Some_2 (genotype_names st) k) as [name Hname]; [lia|].
      destruct (lookup_lt_is_Some_2 (max_heights st) k) as [mh Hmh]; [lia|].
      destruct (lookup_lt_is_Some_2 (avg_heights st) k) as [ah Hah]; [lia|].
      destruct (lookup_lt_is_Some_2 (detection_history st) k) as [history Hhist]; [lia|].
      cbn [seq map foldM]. unfold body at 1.
      rewrite (raw_row_eq st k name mh ah history Hname Hmh Hah Hhist). cbn [bind].
      destruct (IH (S k) (acc ++ [[CellInt (Z.of_nat k + 1); CellStr name; CellInt mh;
                                   CellFloat ah]
                                  ++ map CellInt history
                                  ++ replicate (Z.to_nat (max_history_length st)
                                                - length history) (CellStr EmptyString)]))
        as (new & Hrun & Hlen & Hnew); [lia|].
      eexists (_ :: new). split; [rewrite Hrun, <- app_assoc; reflexivity|].
      split; [simpl; now rewrite Hlen|].
      intros [|j] row Hj; simpl in Hj.
      + injection Hj as <-. rewrite Nat.add_0_r. exists name, mh, ah, history.
        now repeat split.
      + replace (k + S j)%nat with (S k + j)%nat by lia. now apply Hnew. }
  destruct (G n 0%nat []) as (rows & Hrun & Hlen & Hrows); [lia|].
  exists rows. split; [|split; [apply raw_headers_length|split; [exact Hlen|]]].
  - unfold raw_csv_rows. fold body. rewrite py_range_nat. fold n. now rewrite Hrun.
  - intros k row Hk. destruct (Hrows k row Hk) as (name & mh & ah & history & H1 & H2 & H3
      & H4 & ->).
    split; [|exists name, mh, ah, history; now repeat split].
    rewrite raw_headers_length, !length_app, length_map, length_replicate. cbn [length].
    assert (Z.of_nat (length history) <= max_history_length st).
    { apply max_history_length_bound. apply list_elem_of_In, list_elem_of_lookup. eauto. }
    lia.
Qed.

End ExportFacts.

(** ** More on the ranking of frames *)

Section MoreRankingFacts.

Context {image : Type}.
Variable sharpness : image -> Q.

Implicit Types ui : MultiTubeUI image.
Implicit Types vp : VideoPlayer image.

Lemma choose_frame_numbers_small (start_frame end_frame' s : Z) :
  start_frame <= s <= end_frame' ->
  end_frame' <= start_frame + 1 ->
  exists a b c,
    choose_frame_numbers start_frame end_frame' s = [a; b; c] /\
    (a = b \/ b = c) /\ start_frame <= a /\ a <= b <= c /\ c <= end_frame'.
Proof.
  intros Hs Hw. unfold choose_frame_numbers.
  destruct (Z.eqb_spec (Z.max start_frame (s - 1)) s) as [E1|E1];
    [|destruct (Z.eqb_spec (Z.min end_frame' (s + 1)) s) as [E2|E2]];
    eexists _, _, _; (split; [reflexivity|]); lia.
Qed.

(** What a call of [get_top_3_sharpest_frames] that returns is made of. *)
Lemma get_top_3_inversion ui ui' (frames : list image) (nums : list Z) (scores : list Q) :
  get_top_3_sharpest_frames sharpness ui = Ok (ui', (frames, nums, scores)) ->
  exists s rest,
    py_sort_desc fs_sharpness_score (snd (scan_window sharpness ui)) = s :: rest /\
    In s (snd (scan_window sharpness ui)) /\
    let chosen := omap (find_frame (s :: rest))
                    (choose_frame_numbers (window_start ui) (window_end ui)
                       (fs_frame_number s)) in
    frames = map fs_frame chosen /\
    nums = map fs_frame_number chosen /\
    scores = map fs_sharpness_score chosen.
Proof.
  unfold get_top_3_sharpest_frames.
  destruct (scan_window sharpness ui) as [vp scanned] eqn:Escan. simpl.
  pose proof (py_sort_desc_Permutation fs_sharpness_score scanned) as Hperm.
  destruct (py_sort_desc fs_sharpness_score scanned) as [|s rest] eqn:Esort;
    [discriminate|].
  replace (py_get (s :: rest) 0) with (Ok s) by reflexivity. cbn [bind].
  intros [= <- <- <- <-]. exists s, rest. split; [reflexivity|].
  split; [|now repeat split].
  apply (Permutation_in _ Hperm). now left.
Qed.

(** [get_top_3_sharpest_frames] never returns empty lists: when the scan
    recorded no frame it raises [IndexError], and when it returns, the
    three lists have the same length and are not empty. *)
Theorem get_top_3_is_never_empty ui :
  (snd (scan_window sharpness ui) = [] ->
   get_top_3_sharpest_frames sharpness ui = Raise IndexError) /\
  (forall ui' frames nums scores,
     get_top_3_sharpest_frames sharpness ui = Ok (ui', (frames, nums, scores)) ->
     snd (scan_window sharpness ui) <> [] /\
     frames <> [] /\
     length frames = length nums /\ length scores = length nums).
Proof.
  split.
  - intros Hnil. unfold get_top_3_sharpest_frames.
    destruct (scan_window sharpness ui) as [vp scanned]. simpl in Hnil. now subst scanned.
  - intros ui' frames nums scores H.
    apply get_top_3_inversion in H as (s & rest & Hsort & Hs & -> & -> & ->).
    split; [intros Hnil; now rewrite Hnil in Hs|].
    split; [|now rewrite !length_map].
    destruct (scan_window_spec sharpness ui) as [Hwindow _].
    destruct (choose_frame_numbers_sorted (window_start ui) (window_end ui)
                (fs_frame_number s) (Hwindow s Hs))
      as (a & b & c & Hchoose & _ & _ & _ & Hmember).
    destruct (chosen_spec (s :: rest) (choose_frame_numbers (window_start ui)
                (window_end ui) (fs_frame_number s))) as (_ & _ & _ & Hkept & _).
    assert (Hin : In (fs_frame_number s)
                    (map fs_frame_number
                       (omap (find_frame (s :: rest))
                          (choose_frame_numbers (window_start ui) (window_end ui)
                             (fs_frame_number s))))).
    { apply Hkept; [|now left]. rewrite Hchoose. simpl.
      destruct Hmember as [E|[E|E]]; rewrite E; auto. }
    intros Hnil. apply (f_equal (@length image)) in Hnil.
    rewrite length_map in Hnil. apply length_zero_iff_nil in Hnil.
    rewrite Hnil in Hin. contradiction.
Qed.

(** When every frame number of a window of one or two frames was recorded,
    three frames are returned all the same, one of them twice or thrice:
    the returned numbers are in ascending order inside the window and two
    neighbours among them are equal. *)
Theorem get_top_3_repeats_frames_in_small_windows ui ui' (frames : list image)
    (nums : list Z) (scores : list Q) :
  map fs_frame_number (snd (scan_window sharpness ui))
    = py_range2 (window_start ui) (window_end ui + 1) ->
  window_end ui <= window_start ui + 1 ->
  get_top_3_sharpest_frames sharpness ui = Ok (ui', (frames, nums, scores)) ->
  exists a b c,
    nums = [a; b; c] /\ (a = b \/ b = c) /\
    window_start ui <= a /\ a <= b <= c /\ c <= window_end ui.
Proof.
  intros Hcomplete Hsmall H.
  apply get_top_3_inversion in H as (s & rest & Hsort & Hs & _ & -> & _).
  destruct (scan_window_spec sharpness ui) as [Hwindow _].
  destruct (choose_frame_numbers_small (window_start ui) (window_end ui)
              (fs_frame_number s) (Hwindow s Hs) Hsmall)
    as (a & b & c & Hchoose & Hdup & Ha & Habc & Hc).
  destruct (chosen_spec (s :: rest) (choose_frame_numbers (window_start ui)
              (window_end ui) (fs_frame_number s))) as (_ & _ & _ & _ & Hfull).
  exists a, b, c. split; [|now repeat split].
  rewrite <- Hchoose. apply Hfull. intros n Hn.
  pose proof (py_sort_desc_Permutation fs_sharpness_score
                (snd (scan_window sharpness ui))) as Hperm.
  rewrite Hsort in Hperm.
  assert (Hin : In n (map fs_frame_number (snd (scan_window sharpness ui)))).
  { rewrite Hcomplete. apply py_range2_In. rewrite Hchoose in Hn. simpl in Hn. lia. }
  apply in_map_iff in Hin as (f & <- & Hf). apply in_map.
  now apply (Permutation_in _ (Permutation_sym Hperm)).
Qed.

Lemma scan_follows_spec (capture : Z -> option image) (total : Z) (l : list Z)
    (current : Z) (held : image) (acc : list (frame_score image)) vp' acc' :
  Forall (fun n => 0 <= n < total) l ->
  fold_left (scan_frame sharpness) l
    (mkPlayer (Some capture) total current (Some held), acc) = (vp', acc') ->
  exists new,
    acc' = acc ++ new /\
    map fs_frame_number new = l /\
    scan_follows capture held new /\
    Forall (fun f => fs_sharpness_score f = sharpness (fs_frame f)) new.
Proof.
  revert current held acc. induction l as [|n l IH]; intros current held acc Hl H.
  - simpl in H. injection H as <- <-. exists []. rewrite app_nil_r.
    repeat split; constructor.
  - inversion Hl as [|? ? Hn Hl']; subst. cbn [fold_left] in H.
    unfold scan_frame at 2 in H. unfold seek_frame, get_current_frame in H.
    cbn [video_capture total_frames current_frame_image] in H.
    destruct (Z.ltb_spec n 0); [lia|]. destruct (Z.leb_spec total n); [lia|].
    cbn [orb] in H.
    destruct (capture n) as [img|] eqn:Ecap; cbn [fst current_frame_image] in H.
    + apply IH in H as (new & -> & Hnums & Hfollows & Hscores); [|exact Hl'].
      exists (mkScore img n (sharpness img) :: new). rewrite <- app_assoc.
      split; [reflexivity|]. split; [simpl; now rewrite Hnums|].
      split; [|now constructor]. simpl. now rewrite Ecap.
    + apply IH in H as (new & -> & Hnums & Hfollows & Hscores); [|exact Hl'].
      exists (mkScore held n (sharpness held) :: new). rewrite <- app_assoc.
      split; [reflexivity|]. split; [simpl; now rewrite Hnums|].
      split; [|now constructor]. simpl. now rewrite Ecap.
Qed.

(** When the player holds an image as the scan begins, the scan records
    every frame number of the window, also those whose read fails: such a
    frame is recorded with the image of the frame recorded before it (the
    image held at the start, for the first), and scored on that image. *)
Theorem scan_records_the_held_image_for_unread_frames ui (capture : Z -> option image)
    (held : image) :
  video_capture (video_player ui) = Some capture ->
  current_frame_image (video_player ui) = Some held ->
  map fs_frame_number (snd (scan_window sharpness ui))
    = py_range2 (window_start ui) (window_end ui + 1) /\
  scan_follows capture held (snd (scan_window sharpness ui)) /\
  Forall (fun f => fs_sharpness_score f = sharpness (fs_frame f))
    (snd (scan_window sharpness ui)).
Proof.
  intros Hcap Himg. unfold scan_window.
  destruct (fold_left _ _ _) as [vp' acc'] eqn:E.
  destruct (video_player ui) as [cap total current img] eqn:Evp. simpl in Hcap, Himg.
  subst cap img.
  apply (scan_follows_spec capture total) in E as (new & -> & Hnums & Hfollows & Hscores).
  - simpl. now repeat split.
  - apply List.Forall_forall. intros n Hn. apply py_range2_In in Hn.
    unfold window_start, window_end, get_total_frames in Hn. rewrite Evp in Hn.
    simpl in Hn. lia.
Qed.

End MoreRankingFacts.

(** ** More on the manual correction *)

Section MoreCorrectionFacts.

Context {image : Type}.

Implicit Types ui : MultiTubeUI image.

Lemma py_get_insert_other {B : Type} (l : list B) (j : Z) (k : nat) (a : B) :
  py_index l j <> Some k -> py_get (<[k:=a]> l) j = py_get l j.
Proof.
  intros Hj. unfold py_get.
  rewrite (py_index_same_length (<[k:=a]> l) l j) by apply length_insert.
  destruct (py_index l j) as [kj|]; [|reflexivity].
  rewrite list_lookup_insert_ne; [reflexivity|congruence].
Qed.

Lemma pop_first_match_length (x h : Z) (flies : list fly) :
  (length (pop_first_match x h flies) <= length flies
   <= S (length (pop_first_match x h flies)))%nat.
Proof.
  induction flies as [|f flies IH]; simpl; [lia|].
  destruct (matches_selection x h f); simpl; lia.
Qed.

Lemma pop_first_match_In (x h : Z) (flies : list fly) (f : fly) :
  In f (pop_first_match x h flies) -> In f flies.
Proof.
  induction flies as [|g flies IH]; simpl; [trivial|].
  destruct (matches_selection x h g); simpl; [auto|]. intros [E|Hf]; auto.
Qed.

(** A call of [on_fly_selected] that returns has changed at most the
    detector's [detection_results] and the stack of edits. *)
Lemma on_fly_selected_detector ui (i : Z) (image_pos : Z * Z) ui1 :
  on_fly_selected ui i image_pos = Ok ui1 ->
  ui1 = ui \/
  exists results history,
    ui1 = with_manual_selection_history
            (with_detector ui (with_detection_results (detector ui) (Some results)))
            history.
Proof.
  unfold on_fly_selected. intros H.
  destruct (negb (manual_selecting ui)); [left; congruence|].
  destruct image_pos as [fly_x fly_y].
  apply bind_Ok in H as (r & Hr & H).
  destruct r as [[[[x y] w] h]|]; [|left; congruence].
  apply bind_Ok in H as (e1 & He1 & H). apply bind_Ok in H as (r1 & Hr1 & H).
  apply bind_Ok in H as (e2 & He2 & H). apply bind_Ok in H as (r2 & Hr2 & H).
  right. injection H as <-. eauto.
Qed.

(** The same for [undo_last_selection]. *)
Lemma undo_last_selection_detector ui ui' (status : undo_status) :
  undo_last_selection ui = Ok (ui', status) ->
  exists history,
    ui' = with_manual_selection_history ui history \/
    exists results,
      ui' = with_detector (with_manual_selection_history ui history)
              (with_detection_results (detector ui) (Some results)).
Proof.
  unfold undo_last_selection. intros H.
  destruct (rev (manual_selection_history ui)) as [|[[[i x] y] h] earlier].
  - injection H as <- <-. exists (manual_selection_history ui). left.
    now destruct ui.
  - exists (rev earlier). cbn [detector with_manual_selection_history] in H.
    destruct (detection_results (detector ui)) as [results|];
      [|left; now injection H as <- <-].
    apply bind_Ok in H as (entry & Hentry & H).
    destruct entry as [flies|]; [|left; now injection H as <- <-].
    apply bind_Ok in H as (results' & Hset & H). injection H as <- <-.
    right. now exists results'.
Qed.

(** A manual addition in selection mode, in a tube whose region is set:
    it raises [IndexError] when the tube index is not one of the list in
    use, and otherwise appends the fly to the entry at that index. *)
Lemma on_fly_selected_cases ui (i fly_x fly_y x y w h : Z) :
  manual_selecting ui = true ->
  py_get (tube_regions (detector ui)) i = Ok (Some (x, y, w, h)) ->
  match py_index (results_in_use (detector ui)) i with
  | None => on_fly_selected ui i (fly_x, fly_y) = Raise IndexError
  | Some k =>
      on_fly_selected ui i (fly_x, fly_y)
      = Ok (with_manual_selection_history
              (with_detector ui
                 (with_detection_results (detector ui)
                    (Some (<[k := Some (current_flies (detector ui) i
                                          ++ [(fly_x, fly_y, clicked_height y h fly_y)])]>
                             (results_in_use (detector ui))))))
              (manual_selection_history ui
                 ++ [(i, fly_x, fly_y, clicked_height y h fly_y)]))
  end.
Proof.
  intros Hmode Hregion. unfold on_fly_selected. rewrite Hmode. cbn [negb].
  rewrite Hregion. cbn [bind]. fold (clicked_height y h fly_y).
  fold (results_in_use (detector ui)).
  set (results := results_in_use (detector ui)).
  destruct (py_index results i) as [k|] eqn:Hkr.
  - assert (Hlt : (k < length results)%nat) by (now apply (py_index_lt results i)).
    destruct (lookup_lt_is_Some_2 results k Hlt) as [entry Hentry].
    rewrite (py_get_at results i k entry Hkr Hentry). cbn [bind].
    assert (Hcur : current_flies (detector ui) i
                   = match entry with Some flies => flies | None => [] end).
    { unfold current_flies. subst results. unfold results_in_use in *.
      destruct (detection_results (detector ui)) as [results|].
      - now rewrite (py_get_at results i k entry Hkr Hentry).
      - apply lookup_replicate in Hentry as [-> _]. reflexivity. }
    rewrite Hcur. destruct entry as [flies|].
    + cbn [bind]. rewrite (py_get_at results i k (Some flies) Hkr Hentry). cbn [bind].
      rewrite (py_set_at results i k _ Hkr). reflexivity.
    + rewrite (py_set_at results i k _ Hkr). cbn [bind].
      assert (Hkr' : py_index (<[k:=Some []]> results) i = Some k).
      { rewrite <- Hkr. apply py_index_same_length, length_insert. }
      rewrite (py_get_insert _ _ _ _ Hkr). cbn [bind].
      rewrite (py_set_at _ i k _ Hkr'). cbn [bind].
      now rewrite list_insert_insert_eq.
  - unfold py_get. now rewrite Hkr.
Qed.

(** What a manual addition that returns has done, whatever the mode and
    the region. *)
Lemma on_fly_selected_inversion ui (i : Z) (image_pos : Z * Z) ui1 :
  on_fly_selected ui i image_pos = Ok ui1 ->
  ui1 = ui \/
  exists x y w h k,
    manual_selecting ui = true /\
    py_get (tube_regions (detector ui)) i = Ok (Some (x, y, w, h)) /\
    py_index (results_in_use (detector ui)) i = Some k /\
    ui1 = with_manual_selection_history
            (with_detector ui
               (with_detection_results (detector ui)
                  (Some (<[k := Some (current_flies (detector ui) i
                                        ++ [(fst image_pos, snd image_pos,
                                             clicked_height y h (snd image_pos))])]>
                           (results_in_use (detector ui))))))
            (manual_selection_history ui
               ++ [(i, fst image_pos, snd image_pos,
                    clicked_height y h (snd image_pos))]).
Proof.
  intros H. destruct image_pos as [fly_x fly_y].
  destruct (manual_selecting ui) eqn:Hmode.
  - destruct (py_get (tube_regions (detector ui)) i) as [[[[[x y] w] h]|]|e] eqn:Hregion.
    + pose proof (on_fly_selected_cases ui i fly_x fly_y x y w h Hmode Hregion) as Hcases.
      destruct (py_index (results_in_use (detector ui)) i) as [k|] eqn:Hk.
      * right. exists x, y, w, h, k. rewrite Hcases in H. injection H as <-.
        now repeat split.
      * rewrite Hcases in H. discriminate.
    + left. unfold on_fly_selected in H. rewrite Hmode, Hregion in H.
      cbn [negb bind] in H. congruence.
    + unfold on_fly_selected in H. rewrite Hmode, Hregion in H. discriminate.
  - left. unfold on_fly_selected in H. rewrite Hmode in H. cbn [negb] in H. congruence.
Qed.



(** A fly added by hand is drawn at the click, clamped to the tube. In
    selection mode, in a tube of region [(x, y, w, h)] with [0 <= h], the
    fly that a call of [on_fly_selected] that returns has appended for a
    click at ordinate [fly_y] is the last of the tube, has a height
    between 0 and [h], and [annotate_flies] draws it at [fly_y] when the
    click is between the top and the bottom of the region, on the bottom
    edge when it is below, on the top edge when it is above. *)
Theorem manual_fly_is_drawn_at_the_click ui (i fly_x fly_y x y w h : Z) ui1 :
  manual_selecting ui = true ->
  py_get (tube_regions (detector ui)) i = Ok (Some (x, y, w, h)) ->
  0 <= h ->
  on_fly_selected ui i (fly_x, fly_y) = Ok ui1 ->
  exists f,
    current_flies (detector ui1) i = current_flies (detector ui) i ++ [f] /\
    fst f = (fly_x, fly_y) /\
    0 <= fly_height f <= h /\
    annotation_y (x, y, w, h) f = Z.max y (Z.min (y + h) fly_y).
Proof.
  intros Hmode Hregion Hh Hadd.
  pose proof (on_fly_selected_cases ui i fly_x fly_y x y w h Hmode Hregion) as Hcases.
  destruct (py_index (results_in_use (detector ui)) i) as [k|] eqn:Hk;
    [|rewrite Hcases in Hadd; discriminate].
  rewrite Hcases in Hadd. injection Hadd as <-.
  exists (fly_x, fly_y, clicked_height y h fly_y). split.
  { cbn [detector with_manual_selection_history with_detector].
    now rewrite current_flies_with, (py_get_insert _ _ _ _ Hk). }
  split; [reflexivity|].
  unfold annotation_y, fly_height, clicked_height. cbn [snd].
  destruct (Z.ltb_spec (y + h - fly_y) 0); [lia|].
  destruct (Z.ltb_spec h (y + h - fly_y)); lia.
Qed.

(** Manual corrections never reach the statistics: after a call of
    [on_fly_selected] or of [undo_last_selection] that returns,
    [compare_genotypes] and [get_tube_height] give what they gave before,
    and the regions and the background are the same. *)
Theorem manual_edits_leave_the_statistics :
  (forall ui i image_pos ui1,
     on_fly_selected ui i image_pos = Ok ui1 ->
     compare_genotypes (detector ui1) = compare_genotypes (detector ui) /\
     (forall j, get_tube_height (detector ui1) j = get_tube_height (detector ui) j) /\
     tube_regions (detector ui1) = tube_regions (detector ui) /\
     background_frame (detector ui1) = background_frame (detector ui)) /\
  (forall ui ui' status,
     undo_last_selection ui = Ok (ui', status) ->
     compare_genotypes (detector ui') = compare_genotypes (detector ui) /\
     (forall j, get_tube_height (detector ui') j = get_tube_height (detector ui) j) /\
     tube_regions (detector ui') = tube_regions (detector ui) /\
     background_frame (detector ui') = background_frame (detector ui)).
Proof.
  split.
  - intros ui i image_pos ui1 H.
    apply on_fly_selected_detector in H as [->|(results & history & ->)];
      now repeat split.
  - intros ui ui' status H.
    apply undo_last_selection_detector in H as (history & [->|(results & ->)]);
      now repeat split.
Qed.

(** A manual edit touches one tube. After any addition in tube [i] that
    returns, the flies of every tube whose index does not denote the same
    entry of the list of results in use are as before. After an undo of an
    edit in tube [i] the flies of every other tube are as before, and tube
    [i] has lost at most one fly and gained none. *)
Theorem manual_edits_touch_one_tube :
  (forall ui i image_pos ui1 j,
     on_fly_selected ui i image_pos = Ok ui1 ->
     py_index (results_in_use (detector ui)) j
       <> py_index (results_in_use (detector ui)) i ->
     current_flies (detector ui1) j = current_flies (detector ui) j) /\
  (forall ui earlier i x y h ui' status,
     manual_selection_history ui = earlier ++ [(i, x, y, h)] ->
     undo_last_selection ui = Ok (ui', status) ->
     (forall j,
        (forall results, detection_results (detector ui) = Some results ->
           py_index results j <> py_index results i) ->
        current_flies (detector ui') j = current_flies (detector ui) j) /\
     (length (current_flies (detector ui') i) <= length (current_flies (detector ui) i)
      <= S (length (current_flies (detector ui') i)))%nat /\
     (forall f, In f (current_flies (detector ui') i) ->
                In f (current_flies (detector ui) i))).
Proof.
  split.
  - intros ui i image_pos ui1 j Hadd Hj.
    apply on_fly_selected_inversion in Hadd
      as [->|(x & y & w & h & k & _ & _ & Hk & ->)]; [reflexivity|].
    cbn [detector with_manual_selection_history with_detector].
    rewrite current_flies_with. rewrite Hk in Hj.
    rewrite py_get_insert_other by exact Hj.
    unfold current_flies, results_in_use.
    destruct (detection_results (detector ui)) as [results|]; [reflexivity|].
    unfold py_get.
    destruct (py_index (py_repeat None (tube_count (detector ui))) j) as [kj|];
      [|reflexivity].
    unfold py_repeat.
    destruct (replicate _ _ !! kj) as [entry|] eqn:E; [|reflexivity].
    apply lookup_replicate in E as [-> _]. reflexivity.
  - intros ui earlier i x y h ui' status Hhist H.
    unfold undo_last_selection in H.
    rewrite Hhist, rev_app_distr in H. cbn [rev app] in H. rewrite rev_involutive in H.
    cbn [detector with_manual_selection_history] in H.
    destruct (detection_results (detector ui)) as [results|] eqn:Hres.
    + assert (Hcur : forall j, current_flies (detector ui) j
                       = match py_get results j with
                         | Ok (Some flies) => flies
                         | _ => []
                         end).
      { intros j. unfold current_flies. now rewrite Hres. }
      apply bind_Ok in H as (entry & Hentry & H). destruct entry as [flies|].
      * apply bind_Ok in H as (results' & Hset & H). injection H as <- <-.
        cbn [detector with_detector].
        pose proof Hentry as Hget.
        apply py_get_lookup in Hentry as (k & Hk & _).
        rewrite (py_set_at results i k _ Hk) in Hset. injection Hset as <-.
        split; [|split].
        -- intros j Hj. rewrite current_flies_with, Hcur, py_get_insert_other;
             [reflexivity|].
           rewrite <- Hk. now apply Hj.
        -- rewrite current_flies_with, Hcur, (py_get_insert _ _ _ _ Hk), Hget.
           apply pop_first_match_length.
        -- intros f. rewrite current_flies_with, Hcur, (py_get_insert _ _ _ _ Hk), Hget.
           apply pop_first_match_In.
      * injection H as <- <-. cbn [detector with_manual_selection_history].
        split; [now intros|]. split; [lia|trivial].
    + injection H as <- <-. cbn [detector with_manual_selection_history].
      split; [now intros|]. split; [lia|trivial].
Qed.

End MoreCorrectionFacts.

(** ** The detection passes of [final_frame_detection] and the merge *)

Section PipelineFacts.

Context {image : Type}.
Variable find_contours : image -> image -> region -> Z -> M (list contour).

Implicit Types st : MultiTubeFlyDetector image.

Lemma detect_frames_loop (best_frames : list image) st
    (acc : list (list (list fly))) st' (all : list (list (list fly))) :
  foldM (fun '(st, all_detection_results) frame =>
           do '(st, detection_results) <- detect_all_tubes find_contours st frame;
           Ok (st, all_detection_results ++ [detection_results]))
    (st, acc) best_frames = Ok (st', all) ->
  exists new,
    all = acc ++ new /\
    length new = length best_frames /\
    Forall (fun r => length r = Z.to_nat (tube_count st)) new /\
    tube_count st' = tube_count st /\
    (best_frames = [] -> st' = st) /\
    forall r, last new = Some r ->
      forall i, 0 <= i < tube_count st ->
        exists flies,
          py_get r i = Ok flies /\
          py_get (detection_history st') i = Ok (map fly_height flies).
Proof.
  revert st acc. induction best_frames as [|frame frames IH]; intros st acc H.
  - simpl in H. injection H as <- <-. exists []. rewrite app_nil_r.
    repeat split; try constructor. intros r Hr. discriminate.
  - cbn [foldM] in H. apply bind_Ok in H as ([st1 acc1] & Hstep & H).
    apply bind_Ok in Hstep as ([st1' r1] & Hpass & Hstep). injection Hstep as <- <-.
    apply detect_all_tubes_spec in Hpass as (Hc1 & _ & Hlen1 & Hpass).
    apply IH in H as (new & -> & Hlen & Hall & Hc & Hsame & Hlast).
    exists (r1 :: new). rewrite <- app_assoc. split; [reflexivity|].
    split; [simpl; now rewrite Hlen|]. split; [|split; [congruence|split; [discriminate|]]].
    + constructor; [exact Hlen1|]. now rewrite <- Hc1.
    + intros r Hr i Hi. destruct new as [|r2 new'].
      * destruct frames; [|discriminate].
        assert (Hr1 : r = r1) by (cbn in Hr; congruence).
        subst r. rewrite (Hsame eq_refl).
        destruct (Hpass i Hi) as (flies & Hget & Hhist & _). eauto.
      * apply (Hlast r); [|lia].
        change (r1 :: r2 :: new') with ([r1] ++ r2 :: new') in Hr.
        rewrite last_app in Hr. destruct (last (r2 :: new')) eqn:E; [exact Hr|].
        now apply last_None in E.
Qed.

(** The detection passes of [final_frame_detection] give the merge an
    input it accepts. When the loop over the chosen frames returns, it has
    one result per frame and one list of flies per tube in each, so
    [merge_detection_results] returns on them as soon as there are a frame
    number and a score for every frame, with one entry per tube when there
    is a frame. The detector's history is then the one of the pass over
    the last frame, not of the merged flies. *)
Theorem detection_passes_feed_the_merge st (best_frames : list image)
    (frame_numbers : list Z) (sharpness_scores : list Q) st'
    (all : list (list (list fly))) :
  detect_frames find_contours st best_frames = Ok (st', all) ->
  (length best_frames <= length frame_numbers)%nat ->
  (length best_frames <= length sharpness_scores)%nat ->
  length all = length best_frames /\
  Forall (fun r => length r = Z.to_nat (tube_count st)) all /\
  (exists merged,
     merge_detection_results (map (map Some) all) frame_numbers sharpness_scores
     = Ok merged /\
     (best_frames <> [] -> length merged = Z.to_nat (tube_count st))) /\
  (forall r, last all = Some r ->
     forall i, 0 <= i < tube_count st ->
       exists flies,
         py_get r i = Ok flies /\
         py_get (detection_history st') i = Ok (map fly_height flies)).
Proof.
  intros H Hn Hs. unfold detect_frames in H.
  apply detect_frames_loop in H as (new & -> & Hlen & Hall & _ & _ & Hlast).
  cbn [app]. split; [exact Hlen|]. split; [exact Hall|]. split; [|exact Hlast].
  assert (Hmerge : exists merged,
            merge_detection_results (map (map Some) new) frame_numbers sharpness_scores
            = Ok merged).
  { unfold merge_detection_results.
    apply merge_tubes_return; [now rewrite length_map, Hlen..|].
    apply List.Forall_forall. intros t Ht. apply py_range_In in Ht.
    destruct new as [|first rest]; [constructor|]. cbn [map] in Ht |- *.
    rewrite length_map in Ht. rewrite <- map_cons. apply Forall_map.
    inversion Hall as [|? ? Hfirst Hrest]; subst.
    eapply List.Forall_impl; [|exact Hall]. simpl. intros r Hr.
    rewrite length_map. lia. }
  destruct Hmerge as [merged Hmerged].
  exists merged. split; [exact Hmerged|]. intros Hne.
  apply merge_detection_results_entry in Hmerged as [Hm _]. rewrite Hm.
  destruct new as [|first rest]; [now destruct best_frames|].
  inversion Hall; subst. cbn [map]. now rewrite length_map.
Qed.

End PipelineFacts.

(** ** The frame source *)

Section PlayerFacts.

Context {image : Type}.

Implicit Types vp : VideoPlayer image.

(** [seek_frame] succeeds exactly when [get_frame_at] gives a frame, and
    then [get_current_frame] is that frame and the player is at that
    frame number. When it fails the image held is the one held before:
    outside the video nothing changes, while a failed read inside the
    video still moves the player to the frame number, away from the image
    it holds. The frames [get_frame_at] gives are the same after any
    [seek_frame]. *)
Theorem seek_frame_agrees_with_get_frame_at vp (n : Z) :
  (snd (seek_frame vp n) = true <-> get_frame_at vp n <> None) /\
  (snd (seek_frame vp n) = true ->
   get_current_frame (fst (seek_frame vp n)) = get_frame_at vp n /\
   current_frame (fst (seek_frame vp n)) = n) /\
  (snd (seek_frame vp n) = false ->
   get_current_frame (fst (seek_frame vp n)) = get_current_frame vp /\
   (video_capture vp = None \/ n < 0 \/ total_frames vp <= n ->
    fst (seek_frame vp n) = vp) /\
   (video_capture vp <> None -> 0 <= n < total_frames vp ->
    current_frame (fst (seek_frame vp n)) = n)) /\
  (forall m, get_frame_at (fst (seek_frame vp n)) m = get_frame_at vp m).
Proof.
  unfold seek_frame, get_frame_at, get_current_frame.
  destruct (video_capture vp) as [capture|] eqn:Ecap; cbn [fst snd].
  - destruct (Z.ltb_spec n 0); cbn [orb fst snd].
    + rewrite Ecap. repeat split; try discriminate; try congruence; try tauto; lia.
    + destruct (Z.leb_spec (total_frames vp) n); cbn [fst snd].
      * rewrite Ecap. repeat split; try discriminate; try congruence; try tauto; lia.
      * destruct (capture n) as [frame|] eqn:Eread;
          cbn [fst snd video_capture total_frames current_frame current_frame_image].
        -- repeat split; try discriminate; try congruence; try reflexivity.
        -- repeat split; try discriminate; try congruence; try reflexivity.
           intros [?|[?|?]]; [congruence|lia|lia].
  - rewrite Ecap. repeat split; try discriminate; try congruence; try tauto.
Qed.

End PlayerFacts.

(** ** The further statements on the samples *)

Lemma merge_compares_with_cluster_keys_witness :
  merge_detection_results sample_frames_ordered [11; 12] [2%Q; 9%Q]
    = Ok [Some [(8, 0, 20); (16, 0, 5)]] /\
  spec_entry (spec_merge (tube_flies sample_frames_ordered 0))
    = Some [(8, 0, 20); (16, 0, 5)] /\
  is_near (100, 100) 104 97 = true /\
  merge_fly [11; 12; 13] [2%Q; 9%Q; 1%Q] 2
    [((10, 50), mkInfo 12 52 35 1 12 9%Q); ((100, 100), mkInfo 100 100 80 1 12 9%Q)]
    (104, 97, 90)
  = Ok [((10, 50), mkInfo 12 52 35 1 12 9%Q); ((100, 100), mkInfo 104 97 90 2 13 1%Q)] /\
  merge_detection_results
    [[Some [(125, 200, 40)]]; [Some [(127, 203, 55)]]; [Some [(124, 198, 38)]]]
    [11; 12; 13] [2%Q; 9%Q; 1%Q]
  = Ok [Some [(127, 203, 55)]].
Proof.
  assert (H : merge_detection_results sample_frames_ordered [11; 12] [2%Q; 9%Q]
              = Ok [Some [(8, 0, 20); (16, 0, 5)]]) by (vm_compute; reflexivity).
  assert (Ht : [Some [(8, 0, 20); (16, 0, 5)]] !! 0%nat
               = Some (Some [(8, 0, 20); (16, 0, 5)])) by reflexivity.
  assert (Hfar : Forall (fun item : (Z * Z) * fly_info => is_near (fst item) 104 97 = false)
                   [((10, 50), mkInfo 12 52 35 1 12 9%Q)])
    by (repeat constructor).
  assert (Hnear : is_near (100, 100) 104 97 = true) by reflexivity.
  assert (H12 : is_near (125, 200) 127 203 = true) by reflexivity.
  assert (H13 : is_near (125, 200) 124 198 = true) by reflexivity.
  split; [exact H|]. split; [|split; [exact Hnear|split]].
  - symmetry.
    exact (proj1 (merge_compares_with_cluster_keys [11; 12] [2%Q; 9%Q]) _ _ _ _ H Ht).
  - exact (proj1 (proj2 (proj2 (merge_compares_with_cluster_keys [11; 12; 13]
                                  [2%Q; 9%Q; 1%Q])))
             2 [((10, 50), mkInfo 12 52 35 1 12 9%Q)] (100, 100)
             (mkInfo 100 100 80 1 12 9%Q) [] 104 97 90
             (mkInfo 104 97 90 2 13 1%Q) eq_refl Hfar Hnear).
  - exact (proj2 (proj2 (proj2
             (merge_compares_with_cluster_keys [11; 12; 13] [2%Q; 9%Q; 1%Q])))
             125 200 127 203 124 198 11 12 13 2%Q 9%Q 1%Q H12 H13).
Defined.

Lemma merge_never_adds_flies_witness :
  merge_detection_results sample_frames [11; 12; 13] [1%Q; 2%Q; 3%Q] = Ok sample_merged /\
  length sample_merged = 2%nat.
Proof.
  assert (H : merge_detection_results sample_frames [11; 12; 13] [1%Q; 2%Q; 3%Q]
              = Ok sample_merged) by (vm_compute; reflexivity).
  split; [exact H|].
  exact (proj1 (merge_never_adds_flies _ _ _ _ H)).
Defined.

Lemma merge_keeps_observed_flies_witness :
  merge_detection_results sample_frames [11; 12; 13] [1%Q; 2%Q; 3%Q] = Ok sample_merged /\
  sample_merged !! 0%nat = Some (Some [(12, 52, 35); (100, 100, 80)]) /\
  In (12, 52, 35) (tube_flies sample_frames 0).
Proof.
  assert (H : merge_detection_results sample_frames [11; 12; 13] [1%Q; 2%Q; 3%Q]
              = Ok sample_merged) by (vm_compute; reflexivity).
  assert (Hlook : sample_merged !! 0%nat = Some (Some [(12, 52, 35); (100, 100, 80)]))
    by reflexivity.
  assert (Hin : In (12, 52, 35) [(12, 52, 35); (100, 100, 80)]) by (simpl; auto).
  split; [exact H|]. split; [exact Hlook|].
  exact (merge_keeps_observed_flies _ _ _ _ _ _ _ H Hlook Hin).
Defined.

Lemma merge_keeps_the_greatest_height_witness :
  merge_detection_results sample_frames [11; 12; 13] [1%Q; 2%Q; 3%Q] = Ok sample_merged /\
  In (10, 50, 30) (tube_flies sample_frames 0) /\
  exists flies g,
    sample_merged !! 0%nat = Some (Some flies) /\ In g flies /\ 30 <= fly_height g.
Proof.
  assert (H : merge_detection_results sample_frames [11; 12; 13] [1%Q; 2%Q; 3%Q]
              = Ok sample_merged) by (vm_compute; reflexivity).
  assert (Hlook : sample_merged !! 0%nat = Some (Some [(12, 52, 35); (100, 100, 80)]))
    by reflexivity.
  assert (Hin : In (10, 50, 30) (tube_flies sample_frames (Z.of_nat 0)))
    by (vm_compute; auto).
  split; [exact H|]. split; [exact Hin|].
  destruct (merge_keeps_the_greatest_height _ _ _ _ _ _ _ H Hlook Hin)
    as (flies & g & Hentry & Hg & Hle).
  exists flies, g. split; [exact (eq_trans Hlook (f_equal Some Hentry))|].
  split; [exact Hg|exact Hle].
Defined.

Lemma merge_keys_stay_apart_witness :
  merge_frames [11; 12; 13] [1%Q; 2%Q; 3%Q] 0 0 sample_frames [] = Ok sample_dictionary /\
  NoDup (map fst sample_dictionary).
Proof.
  assert (H : merge_frames [11; 12; 13] [1%Q; 2%Q; 3%Q] 0 0 sample_frames []
              = Ok sample_dictionary) by (vm_compute; reflexivity).
  split; [exact H|].
  exact (proj2 (merge_keys_stay_apart _ _ _ _ _ H)).
Defined.

Lemma merge_returns_witness :
  frames_well_shaped sample_frames [11; 12; 13] [1%Q; 2%Q; 3%Q] /\
  exists merged,
    merge_detection_results sample_frames [11; 12; 13] [1%Q; 2%Q; 3%Q] = Ok merged.
Proof.
  assert (H : frames_well_shaped sample_frames [11; 12; 13] [1%Q; 2%Q; 3%Q]).
  { unfold frames_well_shaped. simpl. split; [lia|]. split; [lia|].
    repeat constructor. }
  split; [exact H|].
  exact (merge_returns _ _ _ H).
Defined.

Lemma detect_all_tubes_updates_statistics_witness :
  detect_all_tubes sample_contours sample_detector sample_three_blobs
    = Ok (sample_detector_after_three_blobs,
          [[(125, 305, 95); (125, 162, 238); (125, 113, 287)]]) /\
  exists m old average,
    py_get (max_heights sample_detector) 0 = Ok old /\
    py_truediv (95 + 238 + 287) 3 = Ok average /\
    py_get (climbing_heights sample_detector_after_three_blobs) 0 = Ok m /\
    py_get (max_heights sample_detector_after_three_blobs) 0 = Ok (Z.max old m) /\
    py_get (avg_heights sample_detector_after_three_blobs) 0 = Ok average.
Proof.
  assert (H : detect_all_tubes sample_contours sample_detector sample_three_blobs
              = Ok (sample_detector_after_three_blobs,
                    [[(125, 305, 95); (125, 162, 238); (125, 113, 287)]]))
    by (vm_compute; reflexivity).
  assert (Hi : 0 <= 0 < tube_count sample_detector) by (simpl; lia).
  assert (Hregion : py_get (tube_regions sample_detector) 0
                    = Ok (Some (100, 100, 50, 300))) by reflexivity.
  assert (Hget : py_get [[(125, 305, 95); (125, 162, 238); (125, 113, 287)]] 0
                 = Ok [(125, 305, 95); (125, 162, 238); (125, 113, 287)]) by reflexivity.
  split; [exact H|].
  destruct (detect_all_tubes_updates_statistics _ _ _ _ _ _ _ _ _ _ _ H Hi Hregion Hget)
    as (m & old & average & _ & _ & Hold & Hmean & _ & Hcur & Hmax & Havg).
  exists m, old, average. split; [exact Hold|]. split; [exact Hmean|].
  split; [exact Hcur|]. split; [exact Hmax|exact Havg].
Defined.

Lemma detect_all_tubes_keeps_statistics_without_fly_witness :
  detect_all_tubes sample_contours sample_detector_after_pass []
    = Ok (sample_detector_after_empty_pass, [[]]) /\
  py_get (fly_positions sample_detector_after_empty_pass) 0 = Ok None /\
  max_heights sample_detector_after_empty_pass !! 0%nat
    = max_heights sample_detector_after_pass !! 0%nat.
Proof.
  assert (H : detect_all_tubes sample_contours sample_detector_after_pass []
              = Ok (sample_detector_after_empty_pass, [[]]))
    by (vm_compute; reflexivity).
  assert (Hi : 0 <= 0 < tube_count sample_detector_after_pass) by (simpl; lia).
  assert (Hregion : py_get (tube_regions sample_detector_after_pass) 0
                    = Ok (Some (100, 100, 50, 300))) by reflexivity.
  assert (Hget : py_get ([[]] : list (list fly)) 0 = Ok []) by reflexivity.
  split; [exact H|].
  destruct (detect_all_tubes_keeps_statistics_without_fly _ _ _ _ _ _ _
              H Hi Hregion Hget) as (Hpos & _ & Hmax & _).
  split; [exact Hpos|exact Hmax].
Defined.

Lemma detect_all_tubes_skips_unset_region_witness :
  detect_all_tubes sample_contours sample_detector_region_unset [sample_blob]
    = Ok (sample_detector_region_unset_after_pass, [[]]) /\
  max_heights sample_detector_region_unset_after_pass !! 0%nat
    = max_heights sample_detector_region_unset !! 0%nat /\
  py_get (detection_history sample_detector_region_unset_after_pass) 0 = Ok [].
Proof.
  assert (H : detect_all_tubes sample_contours sample_detector_region_unset [sample_blob]
              = Ok (sample_detector_region_unset_after_pass, [[]]))
    by (vm_compute; reflexivity).
  assert (Hi : 0 <= 0 < tube_count sample_detector_region_unset) by (simpl; lia).
  assert (Hregion : py_get (tube_regions sample_detector_region_unset) 0 = Ok None)
    by reflexivity.
  split; [exact H|].
  destruct (detect_all_tubes_skips_unset_region _ _ _ _ _ _ H Hi Hregion)
    as (_ & _ & Hmax & _ & Hhist & _).
  split; [exact Hmax|exact Hhist].
Defined.

Lemma detected_fly_is_drawn_where_found_witness :
  detect_all_tubes sample_contours sample_detector [sample_blob]
    = Ok (sample_detector_after_pass, [[(125, 200, 200)]]) /\
  annotation_y (100, 100, 50, 300) (125, 200, 200) = 200.
Proof.
  assert (H : detect_all_tubes sample_contours sample_detector [sample_blob]
              = Ok (sample_detector_after_pass, [[(125, 200, 200)]]))
    by (vm_compute; reflexivity).
  assert (Hi : 0 <= 0 < tube_count sample_detector) by (simpl; lia).
  assert (Hregion : py_get (tube_regions sample_detector) 0
                    = Ok (Some (100, 100, 50, 300))) by reflexivity.
  assert (Hget : py_get [[(125, 200, 200)]] 0 = Ok [(125, 200, 200)]) by reflexivity.
  assert (Hin : In (125, 200, 200) [(125, 200, 200)]) by (simpl; auto).
  split; [exact H|].
  exact (detected_fly_is_drawn_where_found _ _ _ _ _ _ _ _ _ H Hi Hregion Hget Hin).
Defined.

Lemma detect_all_tubes_keeps_well_formed_witness :
  well_formed sample_detector /\ well_formed sample_detector_after_pass.
Proof.
  assert (H : detect_all_tubes sample_contours sample_detector [sample_blob]
              = Ok (sample_detector_after_pass, [[(125, 200, 200)]]))
    by (vm_compute; reflexivity).
  assert (Hwf : well_formed sample_detector) by (repeat split).
  split; [exact Hwf|].
  exact (proj1 (detect_all_tubes_keeps_well_formed _ _ _ _ _ H Hwf)).
Defined.

Lemma _detect_fly_in_tube_extends_history_witness :
  _detect_fly_in_tube sample_contours sample_detector_after_pass [sample_blob] 0
    = Ok (sample_detector_after_two, true) /\
  exists heights,
    detection_history sample_detector_after_two
    = alter (fun old => old ++ heights) 0%nat
        (detection_history sample_detector_after_pass) /\
    heights <> [].
Proof.
  assert (H : _detect_fly_in_tube sample_contours sample_detector_after_pass
                [sample_blob] 0 = Ok (sample_detector_after_two, true))
    by (vm_compute; reflexivity).
  assert (Hi : 0 <= 0) by lia.
  split; [exact H|].
  destruct (_detect_fly_in_tube_extends_history _ _ _ _ _ _ Hi H)
    as (heights & Hhist & Hfound & _).
  exists heights. split; [exact Hhist|].
  intros Hnil. apply Hfound in Hnil. discriminate Hnil.
Defined.

Lemma get_fly_areas_are_positive_witness :
  get_fly_areas sample_contours sample_detector [sample_blob] = Ok [100%Q] /\
  (0 < 100)%Q.
Proof.
  assert (H : get_fly_areas sample_contours sample_detector [sample_blob] = Ok [100%Q])
    by (vm_compute; reflexivity).
  assert (Hin : In 100%Q [100%Q]) by (simpl; auto).
  split; [exact H|].
  exact (proj2 (get_fly_areas_are_positive sample_contours sample_detector [sample_blob])
           _ _ H Hin).
Defined.

Lemma reset_data_clears_the_results_witness :
  well_formed sample_detector_after_pass /\
  exists st',
    reset_data sample_detector_after_pass = Ok st' /\
    py_get (detection_history st') 0 = Ok [] /\
    compare_genotypes st' = Ok [].
Proof.
  assert (Hwf : well_formed sample_detector_after_pass) by (repeat split).
  assert (Hi : 0 <= 0 < tube_count sample_detector_after_pass) by (simpl; lia).
  split; [exact Hwf|].
  destruct (reset_data_clears_the_results sample_detector_after_pass)
    as (st' & Hreset & _ & _ & _ & _ & _ & Hcleared & Hafter).
  exists st'. split; [exact Hreset|].
  split; [exact (proj1 (proj2 (proj2 (proj2 (proj2 (Hcleared 0 Hi)))))) |].
  exact (proj2 (Hafter Hwf)).
Defined.

Lemma set_tube_regions_keeps_the_count_witness :
  0 <= tube_count sample_detector_three /\
  length (tube_regions sample_detector_three)
    = Z.to_nat (tube_count sample_detector_three) /\
  exists st',
    set_tube_regions sample_detector_three [Some (0, 0, 10, 10)] = Ok st' /\
    length (tube_regions st') = 3%nat.
Proof.
  assert (Hc : 0 <= tube_count sample_detector_three) by (simpl; lia).
  assert (Hlen : length (tube_regions sample_detector_three)
                 = Z.to_nat (tube_count sample_detector_three)) by reflexivity.
  split; [exact Hc|]. split; [exact Hlen|].
  destruct (set_tube_regions_keeps_the_count sample_detector_three
              [Some (0, 0, 10, 10)] Hc Hlen) as (st' & Hset & _ & Hcount & _).
  exists st'. split; [exact Hset|exact Hcount].
Defined.

Lemma set_tube_region_then_get_tube_height_witness :
  well_formed sample_detector_three /\
  exists st',
    set_tube_region sample_detector_three 1 (Some (5, 6, 7, 8)) = Ok st' /\
    get_tube_height st' 1 = Ok 8.
Proof.
  assert (Hwf : well_formed sample_detector_three) by (repeat split).
  assert (Hi : 0 <= 1 < tube_count sample_detector_three) by (simpl; lia).
  split; [exact Hwf|].
  destruct (set_tube_region_then_get_tube_height sample_detector_three 1 5 6 7 8 Hwf Hi)
    as (st' & Hset & _ & Hheight & _).
  exists st'. split; [exact Hset|exact Hheight].
Defined.

Lemma raw_csv_rows_are_rectangular_witness :
  well_formed sample_detector_three /\
  exists rows,
    raw_csv_rows sample_detector_three = Ok (raw_headers sample_detector_three, rows) /\
    length rows = 3%nat.
Proof.
  assert (Hwf : well_formed sample_detector_three) by (repeat split).
  split; [exact Hwf|].
  destruct (raw_csv_rows_are_rectangular sample_detector_three Hwf)
    as (rows & Hrows & _ & Hlen & _).
  exists rows. split; [exact Hrows|exact Hlen].
Defined.

Lemma get_top_3_is_never_empty_witness :
  snd (scan_window sample_sharpness sample_ui_closed) = [] /\
  get_top_3_sharpest_frames sample_sharpness sample_ui_closed = Raise IndexError /\
  exists ui',
    get_top_3_sharpest_frames sample_sharpness sample_ui_gap
      = Ok (ui', ([9%Q; 8%Q], [1; 2], [9%Q; 8%Q])) /\
    snd (scan_window sample_sharpness sample_ui_gap) <> [].
Proof.
  assert (Hnil : snd (scan_window sample_sharpness sample_ui_closed) = []) by reflexivity.
  assert (H : exists ui',
            get_top_3_sharpest_frames sample_sharpness sample_ui_gap
            = Ok (ui', ([9%Q; 8%Q], [1; 2], [9%Q; 8%Q])))
    by (eexists; vm_compute; reflexivity).
  split; [exact Hnil|].
  split; [exact (proj1 (get_top_3_is_never_empty sample_sharpness sample_ui_closed) Hnil)|].
  destruct H as [ui' H]. exists ui'. split; [exact H|].
  exact (proj1 (proj2 (get_top_3_is_never_empty sample_sharpness sample_ui_gap)
                  _ _ _ _ H)).
Defined.

Lemma get_top_3_repeats_frames_in_small_windows_witness :
  map fs_frame_number (snd (scan_window sample_sharpness sample_ui_short))
    = py_range2 (window_start sample_ui_short) (window_end sample_ui_short + 1) /\
  window_end sample_ui_short <= window_start sample_ui_short + 1 /\
  exists ui',
    get_top_3_sharpest_frames sample_sharpness sample_ui_short
      = Ok (ui', ([0%Q; 0%Q; 1%Q], [0; 0; 1], [0%Q; 0%Q; 1%Q])) /\
    exists a b c, [0; 0; 1] = [a; b; c] /\ (a = b \/ b = c).
Proof.
  assert (Hall : map fs_frame_number (snd (scan_window sample_sharpness sample_ui_short))
                 = py_range2 (window_start sample_ui_short)
                     (window_end sample_ui_short + 1))
    by (vm_compute; reflexivity).
  assert (Hsmall : window_end sample_ui_short <= window_start sample_ui_short + 1)
    by (vm_compute; discriminate).
  assert (H : exists ui',
            get_top_3_sharpest_frames sample_sharpness sample_ui_short
            = Ok (ui', ([0%Q; 0%Q; 1%Q], [0; 0; 1], [0%Q; 0%Q; 1%Q])))
    by (eexists; vm_compute; reflexivity).
  split; [exact Hall|]. split; [exact Hsmall|].
  destruct H as [ui' H]. exists ui'. split; [exact H|].
  destruct (get_top_3_repeats_frames_in_small_windows sample_sharpness sample_ui_short
              _ _ _ _ Hall Hsmall H) as (a & b & c & Hnums & Hdup & _).
  exists a, b, c. split; [exact Hnums|exact Hdup].
Defined.

Lemma scan_records_the_held_image_for_unread_frames_witness :
  video_capture (video_player sample_ui_held) = Some sample_capture_gap /\
  current_frame_image (video_player sample_ui_held) = Some 5%Q /\
  sample_capture_gap 0 = None /\
  scan_follows sample_capture_gap 5%Q (snd (scan_window sample_sharpness sample_ui_held)).
Proof.
  assert (Hcap : video_capture (video_player sample_ui_held) = Some sample_capture_gap)
    by reflexivity.
  assert (Himg : current_frame_image (video_player sample_ui_held) = Some 5%Q)
    by reflexivity.
  split; [exact Hcap|]. split; [exact Himg|]. split; [reflexivity|].
  exact (proj1 (proj2 (scan_records_the_held_image_for_unread_frames sample_sharpness
                         sample_ui_held sample_capture_gap 5%Q Hcap Himg))).
Defined.


Lemma manual_fly_is_drawn_at_the_click_witness :
  manual_selecting sample_ui_stale = true /\
  py_get (tube_regions (detector sample_ui_stale)) 0 = Ok (Some (100, 0, 50, 280)) /\
  exists ui1 f,
    on_fly_selected sample_ui_stale 0 (125, 300) = Ok ui1 /\
    current_flies (detector ui1) 0 = current_flies (detector sample_ui_stale) 0 ++ [f] /\
    annotation_y (100, 0, 50, 280) f = 280.
Proof.
  assert (Hmode : manual_selecting sample_ui_stale = true) by reflexivity.
  assert (Hregion : py_get (tube_regions (detector sample_ui_stale)) 0
                    = Ok (Some (100, 0, 50, 280))) by reflexivity.
  assert (Hh : 0 <= 280) by lia.
  assert (Hadd : exists ui1, on_fly_selected sample_ui_stale 0 (125, 300) = Ok ui1)
    by (eexists; vm_compute; reflexivity).
  split; [exact Hmode|]. split; [exact Hregion|].
  destruct Hadd as [ui1 Hadd].
  destruct (manual_fly_is_drawn_at_the_click sample_ui_stale 0 125 300 100 0 50 280 ui1
              Hmode Hregion Hh Hadd) as (f & Hflies & _ & _ & Hdrawn).
  exists ui1, f. split; [exact Hadd|]. split; [exact Hflies|exact Hdrawn].
Defined.

Lemma manual_edits_leave_the_statistics_witness :
  exists ui',
    undo_last_selection sample_ui_two = Ok (ui', Undone) /\
    compare_genotypes (detector ui') = compare_genotypes (detector sample_ui_two).
Proof.
  assert (H : exists ui', undo_last_selection sample_ui_two = Ok (ui', Undone))
    by (eexists; vm_compute; reflexivity).
  destruct H as [ui' H]. exists ui'. split; [exact H|].
  exact (proj1 (proj2 manual_edits_leave_the_statistics sample_ui_two ui' Undone H)).
Defined.

Lemma manual_edits_touch_one_tube_witness :
  manual_selection_history sample_ui_two = [] ++ [(1, 225, 100, 180)] /\
  (exists ui1,
     on_fly_selected sample_ui_two 0 (125, 300) = Ok ui1 /\
     current_flies (detector ui1) 1 = current_flies (detector sample_ui_two) 1) /\
  exists ui',
    undo_last_selection sample_ui_two = Ok (ui', Undone) /\
    current_flies (detector ui') 0 = current_flies (detector sample_ui_two) 0.
Proof.
  assert (Hhist : manual_selection_history sample_ui_two = [] ++ [(1, 225, 100, 180)])
    by reflexivity.
  assert (Hadd : exists ui1, on_fly_selected sample_ui_two 0 (125, 300) = Ok ui1)
    by (eexists; vm_compute; reflexivity).
  assert (Hj : py_index (results_in_use (detector sample_ui_two)) 1
               <> py_index (results_in_use (detector sample_ui_two)) 0)
    by (vm_compute; discriminate).
  assert (H : exists ui', undo_last_selection sample_ui_two = Ok (ui', Undone))
    by (eexists; vm_compute; reflexivity).
  assert (Hother : forall results,
            detection_results (detector sample_ui_two) = Some results ->
            py_index results 0 <> py_index results 1).
  { intros results Hres. injection Hres as <-. vm_compute. discriminate. }
  split; [exact Hhist|]. split.
  - destruct Hadd as [ui1 Hadd]. exists ui1. split; [exact Hadd|].
    exact (proj1 manual_edits_touch_one_tube sample_ui_two 0 (125, 300) ui1 1 Hadd Hj).
  - destruct H as [ui' H]. exists ui'. split; [exact H|].
    exact (proj1 (proj2 manual_edits_touch_one_tube sample_ui_two [] 1 225 100 180
                    ui' Undone Hhist H) 0 Hother).
Defined.

Lemma detection_passes_feed_the_merge_witness :
  detect_frames sample_contours sample_detector [[sample_blob]; []; [sample_blob]]
    = Ok (sample_detector_after_pass,
          [[[(125, 200, 200)]]; [[]]; [[(125, 200, 200)]]]) /\
  exists merged,
    merge_detection_results
      (map (map Some) [[[(125, 200, 200)]]; [[]]; [[(125, 200, 200)]]])
      [11; 12; 13] [1%Q; 2%Q; 3%Q] = Ok merged /\
    length merged = 1%nat.
Proof.
  assert (H : detect_frames sample_contours sample_detector
                [[sample_blob]; []; [sample_blob]]
              = Ok (sample_detector_after_pass,
                    [[[(125, 200, 200)]]; [[]]; [[(125, 200, 200)]]]))
    by (vm_compute; reflexivity).
  assert (Hn : (length [[sample_blob]; []; [sample_blob]] <= length [11; 12; 13])%nat)
    by (simpl; lia).
  assert (Hs : (length [[sample_blob]; []; [sample_blob]]
                <= length [1%Q; 2%Q; 3%Q])%nat) by (simpl; lia).
  split; [exact H|].
  destruct (detection_passes_feed_the_merge sample_contours _ _ [11; 12; 13]
              [1%Q; 2%Q; 3%Q] _ _ H Hn Hs) as (_ & _ & (merged & Hmerged & Hlen) & _).
  exists merged. split; [exact Hmerged|].
  apply Hlen. discriminate.
Defined.

Lemma seek_frame_agrees_with_get_frame_at_witness :
  snd (seek_frame (video_player sample_ui_held) 0) = false /\
  get_current_frame (fst (seek_frame (video_player sample_ui_held) 0)) = Some 5%Q /\
  current_frame (fst (seek_frame (video_player sample_ui_held) 0)) = 0.
Proof.
  assert (Hfail : snd (seek_frame (video_player sample_ui_held) 0) = false)
    by reflexivity.
  assert (Hcap : video_capture (video_player sample_ui_held) <> None)
    by discriminate.
  assert (Hn : 0 <= 0 < total_frames (video_player sample_ui_held)) by (simpl; lia).
  split; [exact Hfail|].
  destruct (proj1 (proj2 (proj2 (seek_frame_agrees_with_get_frame_at
                                   (video_player sample_ui_held) 0))) Hfail)
    as (Himg & _ & Hmoved).
  split; [exact Himg|exact (Hmoved Hcap Hn)].
Defined.
